(** * readimage-excel: the feature-record pipeline and its spreadsheet export

    A shallow embedding of [image_processor.py], [excel_exporter.py] and
    the drivers of [main.py].
    Python objects the caller owns (the list of records and every record
    dictionary) live in an explicit heap and are reached through
    references; the exporter instance, the files on disk and the console
    are further components of the program state.  Exceptions are values of
    the result type, and a raised exception keeps the state reached so far.
    What openpyxl, OpenCV, numpy and the operating system do is taken from
    their documented behaviour; what depends on the installed version or
    on the machine (the text numpy prints for a scalar, whether a file can
    be written) is a parameter. *)

From Stdlib Require Import ZArith List String Ascii Bool Lia.
From Stdlib Require Import Floats.SpecFloat.
From stdpp Require Import gmap strings list sorting pretty.

Local Open Scope string_scope.
Local Open Scope Z_scope.

(** ** Exceptions and results *)

(** The exception classes the two modules can meet.  Everything listed
    here derives from Python's [Exception]; [OtherError] stands for any
    further [Exception] subclass raised inside an external library
    (PIL, pytesseract, OpenCV), named by its class name. *)
Inductive exn_class :=
  | ValueError
  | TypeError
  | ZeroDivisionError
  | OverflowError
  | OSError
  | OtherError (name : string).

Record exn := Exn { exn_cls : exn_class; exn_str : string }.

Inductive result (A : Type) :=
  | Ok (a : A)
  | Raised (e : exn).
Arguments Ok {A} a.
Arguments Raised {A} e.

#[global] Instance exn_class_eq_dec : EqDecision exn_class.
Proof. solve_decision. Defined.
#[global] Instance exn_eq_dec : EqDecision exn.
Proof. solve_decision. Defined.


(** ** Python values *)

(** A double is kept as the IEEE 754 datum it is (binary64: 53 bits of
    precision, exponents below 1024). *)
Definition pyfloat := spec_float.

Inductive value :=
  | VNone
  | VStr (s : string)
  | VInt (z : Z)
  | VFloat (x : pyfloat).

#[global] Instance spec_float_eq_dec : EqDecision spec_float.
Proof. solve_decision. Defined.
#[global] Instance value_eq_dec : EqDecision value.
Proof. solve_decision. Defined.

(** ** Dictionaries

    A [dict] keeps its items in insertion order and holds a key at most
    once: assigning to a key that is present replaces the value in place,
    assigning to a new key appends an item. *)
Definition dict := list (string * value).

Definition dict_keys (d : dict) : list string := map fst d.
Definition dict_items (d : dict) : list (string * value) := d.

Fixpoint dict_get (d : dict) (k : string) : option value :=
  match d with
  | [] => None
  | (k', v) :: d' => if decide (k' = k) then Some v else dict_get d' k
  end.

(** [d.get(k, default)] *)
Definition dict_get_default (d : dict) (k : string) (default : value) : value :=
  match dict_get d k with
  | Some v => v
  | None => default
  end.

(** [d[k] = v] *)
Fixpoint dict_set (d : dict) (k : string) (v : value) : dict :=
  match d with
  | [] => [(k, v)]
  | (k', v') :: d' =>
      if decide (k' = k) then (k', v) :: d' else (k', v') :: dict_set d' k v
  end.

(** [d.update(other)] *)
Definition dict_update (d other : dict) : dict :=
  fold_left (fun acc kv => dict_set acc (fst kv) (snd kv)) other d.

Definition dict_wf (d : dict) : Prop := NoDup (dict_keys d).

(** ** Strings *)

(** Text is kept in UTF-8, one [ascii] per byte; byte-wise lexicographic
    comparison of UTF-8 text is the code-point comparison Python applies
    to [str].  [String.le] is that order. *)

Definition byte_of (c : ascii) : nat := nat_of_ascii c.

(** Code points for which [str.isspace] holds, by encoded length. *)
Definition ws1 (a : ascii) : bool :=
  let n := byte_of a in
  ((9 <=? n) && (n <=? 13) || (28 <=? n) && (n <=? 32))%nat.

Definition ws2 (a b : ascii) : bool :=
  ((byte_of a =? 194) && ((byte_of b =? 133) || (byte_of b =? 160)))%nat.

Definition ws3 (a b c : ascii) : bool :=
  let '(x, y, z) := (byte_of a, byte_of b, byte_of c) in
  ((x =? 225) && (y =? 154) && (z =? 128)
   || (x =? 226) && (y =? 128)
        && ((128 <=? z) && (z <=? 138) || (z =? 168) || (z =? 169) || (z =? 175))
   || (x =? 226) && (y =? 129) && (z =? 159)
   || (x =? 227) && (y =? 128) && (z =? 128))%nat.

(** Drop the white space at the front.  With [back] set the text is read
    backwards (the bytes of one code point arrive last byte first). *)
Fixpoint strip_front (back : bool) (s : string) : string :=
  match s with
  | EmptyString => s
  | String a s1 =>
      if ws1 a then strip_front back s1 else
      match s1 with
      | EmptyString => s
      | String b s2 =>
          if (if back then ws2 b a else ws2 a b) then strip_front back s2 else
          match s2 with
          | EmptyString => s
          | String c s3 =>
              if (if back then ws3 c b a else ws3 a b c)
              then strip_front back s3 else s
          end
      end
  end.

(** [s.strip()] *)
Definition str_strip (s : string) : string :=
  String.rev (strip_front true (String.rev (strip_front false s))).

(** A byte that continues a code point. *)
Definition continuation (a : ascii) : bool :=
  let n := byte_of a in ((128 <=? n) && (n <=? 191))%nat.

(** [len(s)]: the number of code points. *)
Fixpoint str_len (s : string) : N :=
  match s with
  | EmptyString => 0%N
  | String a rest => if continuation a then str_len rest else N.succ (str_len rest)
  end.

(** [s[:n]]: the first [n] code points. *)
Fixpoint str_take (n : N) (s : string) : string :=
  match s with
  | EmptyString => EmptyString
  | String a rest =>
      if continuation a then String a (str_take n rest)
      else if (n =? 0)%N then EmptyString
      else String a (str_take (N.pred n) rest)
  end.

(** [sorted(xs)] on text: ascending by code point. *)
Definition sorted (xs : list string) : list string := merge_sort String.le xs.

(** [repr] of a machine integer: its decimal digits, [-] in front when
    negative. *)
Definition repr_int (z : Z) : string := pretty z.

(** ** Arithmetic of the interpreter

    The exporter and the property extraction call three built-ins on
    numbers: [sum], true division [/] and [round].  What they compute on
    doubles is fixed by the interpreter, not by this repository (the
    accuracy of [sum] on doubles even differs between interpreter
    versions), so the code is embedded over an interface of them.  The
    laws are the part of their behaviour every interpreter shares: which
    exceptions they raise, and that rounding yields a number. *)

Definition arith_error (e : exn) : bool :=
  match exn_cls e with
  | TypeError | ZeroDivisionError | OverflowError => true
  | _ => false
  end.

Definition zero_division : exn := Exn ZeroDivisionError "division by zero".

Definition is_number (v : value) : bool :=
  match v with
  | VInt _ | VFloat _ => true
  | _ => false
  end.

Class PyArith := {
  (** [sum(xs)], accumulating from the integer [0] *)
  py_sum : list value -> result value;
  (** [x / y] *)
  py_truediv : value -> value -> result value;
  (** [round(x, ndigits)] *)
  py_round : value -> Z -> result value;
  py_sum_raises vs e : py_sum vs = Raised e -> arith_error e = true;
  py_truediv_raises x y e : py_truediv x y = Raised e -> arith_error e = true;
  py_round_raises x n e : py_round x n = Raised e -> arith_error e = true;
  py_truediv_int_zero a : py_truediv (VInt a) (VInt 0) = Raised zero_division;
  py_round_number x n v : py_round x n = Ok v -> is_number v = true;
}.

(** ** Program state *)

Definition loc := positive.

(** Objects of the caller: a list of references, or a record. *)
Inductive obj :=
  | OList (items : list loc)
  | ODict (d : dict).

(** A sheet of an openpyxl workbook.  [ws_rows] are the rows from the
    first to the last one that holds a cell, each with its cells from the
    first column on (a blank row in between is an empty list);
    [ws_current_row] is the number of the row the last [append] wrote,
    which can lie below the last row that holds a cell, since appending
    an empty row moves on without creating a cell.  The two flags say
    whether the two cosmetic passes ran on the sheet: fill, font,
    alignment and column widths are formatting, no cell value depends on
    them. *)
Record worksheet_t := Worksheet {
  ws_id : nat;
  ws_title : string;
  ws_rows : list (list value);
  ws_current_row : nat;
  ws_header_styled : bool;
  ws_widths_fitted : bool;
}.

Record workbook_t := Workbook { wb_sheets : list worksheet_t; wb_active : nat }.

(** A file: a workbook saved whole, or what a save that failed half way
    left behind. *)
Inductive file :=
  | Saved (wb : workbook_t)
  | Broken.

(** The attributes of an [ExcelExporter] instance; [worksheet] refers to a
    sheet object by its identity. *)
Record ExcelExporter := Exporter {
  workbook : option workbook_t;
  worksheet : option nat;
}.

Record state := State {
  st_heap : gmap loc obj;
  st_self : ExcelExporter;
  st_files : gmap string file;
  st_stdout : list string;
  st_fresh : nat;
}.

(** Computations: state passing with exceptions. *)
Definition M (A : Type) : Type := state -> result A * state.

Definition ret {A} (a : A) : M A := fun s => (Ok a, s).
Definition raise {A} (e : exn) : M A := fun s => (Raised e, s).
Definition bind {A B} (m : M A) (k : A -> M B) : M B :=
  fun s => match m s with
           | (Ok a, s') => k a s'
           | (Raised e, s') => (Raised e, s')
           end.
Definition lift {A} (r : result A) : M A := fun s => (r, s).

Notation "'let!' x ':=' m 'in' k" := (bind m (fun x => k))
  (at level 10, x name, m at level 100, k at level 200, only parsing).
Notation "m '>>' k" := (bind m (fun _ => k))
  (at level 100, k at level 200, right associativity, only parsing).

(** [for x in xs: body(x)] *)
Fixpoint for_each {A} (xs : list A) (body : A -> M unit) : M unit :=
  match xs with
  | [] => ret tt
  | x :: xs' => body x >> for_each xs' body
  end.

(** A loop that carries a local variable. *)
Fixpoint for_fold {A B} (xs : list A) (acc : B) (body : B -> A -> M B) : M B :=
  match xs with
  | [] => ret acc
  | x :: xs' => let! acc' := body acc x in for_fold xs' acc' body
  end.

(** A comprehension whose element expression reads the state. *)
Fixpoint for_map {A B} (xs : list A) (f : A -> M B) : M (list B) :=
  match xs with
  | [] => ret []
  | x :: xs' => let! y := f x in let! ys := for_map xs' f in ret (y :: ys)
  end.

Definition not_a (what : string) : exn :=
  Exn TypeError ("object is not a " ++ what).

(** Dereferencing an argument annotated [List[...]] or [Dict[...]]. *)
Definition load_list (l : loc) : M (list loc) :=
  fun s => match st_heap s !! l with
           | Some (OList xs) => (Ok xs, s)
           | _ => (Raised (not_a "list"), s)
           end.

Definition load_dict (l : loc) : M dict :=
  fun s => match st_heap s !! l with
           | Some (ODict d) => (Ok d, s)
           | _ => (Raised (not_a "dict"), s)
           end.

Definition print (line : string) : M unit :=
  fun s => (Ok tt, State (st_heap s) (st_self s) (st_files s)
                         (st_stdout s ++ [line])%list (st_fresh s)).

(** ** openpyxl, as far as the exporter drives it *)

(** What of openpyxl is not fixed by the calls themselves: the wording of
    [IllegalCharacterError], which differs between versions, and what
    [Workbook.save] meets on the disk.  A save that returns has put the
    workbook at the path; a save that raises may have created, emptied
    or left alone the file at the path; no save touches another file, and
    none raises the exporter's own [ValueError]. *)
Class Openpyxl := {
  illegal_character_text : string -> string;
  write_file : string -> workbook_t -> gmap string file
               -> result unit * gmap string file;
  write_file_ok path wb files files' :
    write_file path wb files = (Ok tt, files') ->
    files' = <[path := Saved wb]> files;
  write_file_other path wb files other :
    other <> path ->
    snd (write_file path wb files) !! other = files !! other;
  write_file_raises path wb files e :
    fst (write_file path wb files) = Raised e ->
    e <> Exn ValueError "No features to export";
}.

(** What using an attribute that still holds [None] raises. *)
Definition no_attribute (name : string) : exn :=
  Exn (OtherError "AttributeError")
      ("'NoneType' object has no attribute '" ++ name ++ "'").

Definition not_subscriptable : exn :=
  Exn TypeError "'NoneType' object is not subscriptable".

Definition set_self (e : ExcelExporter) : M unit :=
  fun s => (Ok tt, State (st_heap s) e (st_files s) (st_stdout s) (st_fresh s)).

(** [self.workbook = wb] *)
Definition set_workbook (wb : workbook_t) : M unit :=
  fun s => set_self (Exporter (Some wb) (worksheet (st_self s))) s.

(** [self.worksheet = ws] *)
Definition set_worksheet (ws : nat) : M unit :=
  fun s => set_self (Exporter (workbook (st_self s)) (Some ws)) s.

(** Reading [self.workbook] and [self.worksheet] to use them; [on_none]
    is what that use raises on [None]. *)
Definition get_workbook (on_none : exn) : M workbook_t :=
  fun s => match workbook (st_self s) with
           | Some wb => (Ok wb, s)
           | None => (Raised on_none, s)
           end.

Definition get_worksheet (on_none : exn) : M nat :=
  fun s => match worksheet (st_self s) with
           | Some ws => (Ok ws, s)
           | None => (Raised on_none, s)
           end.

(** [Workbook()]: a new workbook holding one empty sheet, which is the
    active one. *)
Definition new_Workbook : M workbook_t :=
  fun s => (Ok (Workbook [Worksheet (st_fresh s) "Sheet" [] 0 false false] 0),
            State (st_heap s) (st_self s) (st_files s) (st_stdout s)
                  (S (st_fresh s))).

(** [wb.active], the sheet at the active index. *)
Definition active_sheet (wb : workbook_t) : M nat :=
  match wb_sheets wb !! wb_active wb with
  | Some ws => ret (ws_id ws)
  | None => raise (no_attribute "title")
  end.

(** A sheet is mutated through its identity, wherever it sits in the
    workbook of [self]; a sheet that is in no workbook of [self] is out of
    sight. *)
Definition update_sheet (id : nat) (f : worksheet_t -> worksheet_t) : M unit :=
  fun s =>
    match workbook (st_self s) with
    | Some wb =>
        set_workbook
          (Workbook (map (fun ws => if decide (ws_id ws = id) then f ws else ws)
                         (wb_sheets wb))
                    (wb_active wb)) s
    | None => (Ok tt, s)
    end.

(** [ws.title = title] *)
Definition sheet_set_title (id : nat) (title : string) : M unit :=
  update_sheet id (fun ws =>
    Worksheet (ws_id ws) title (ws_rows ws) (ws_current_row ws)
              (ws_header_styled ws) (ws_widths_fitted ws)).

(** The characters openpyxl's [ILLEGAL_CHARACTERS_RE] matches: the C0
    controls other than tab, line feed and carriage return. *)
Definition illegal_char (a : ascii) : bool :=
  let n := byte_of a in
  ((n <=? 8) || (n =? 11) || (n =? 12) || (14 <=? n) && (n <=? 31))%nat.

Fixpoint has_illegal (s : string) : bool :=
  match s with
  | EmptyString => false
  | String a rest => illegal_char a || has_illegal rest
  end.

(** What a cell keeps of a value: text is cut after 32767 characters. *)
Definition stored (v : value) : value :=
  match v with
  | VStr s => VStr (str_take 32767 s)
  | _ => v
  end.

(** Whether a cell takes a value: the text it would keep has none of the
    illegal characters. *)
Definition storable (v : value) : bool :=
  match v with
  | VStr s => negb (has_illegal (str_take 32767 s))
  | _ => true
  end.

(** [pad width row]: the cells of [row], followed by empty cells up to
    column [width]. *)
Definition pad (width : nat) (row : list value) : list value :=
  (row ++ replicate (width - length row) VNone)%list.

(** [ws.max_column]: the last column that holds a cell, 1 on a sheet
    without cells. *)
Definition max_column (rows : list (list value)) : nat :=
  Nat.max 1 (foldr Nat.max 0%nat (map length rows)).

(** Cells put into row [index + 1] from the first column on: they
    replace what the row held in their columns; rows skipped on the way
    hold no cell. *)
Definition put_cells (rows : list (list value)) (index : nat)
    (cells : list value) : list (list value) :=
  match cells with
  | [] => rows
  | _ => let rows := (rows ++ replicate (S index - length rows) [])%list in
         <[index := (cells ++ drop (length cells) (rows !!! index))%list]> rows
  end.

(** A sheet after [cells] went into the row below the current one; with
    [advance] that row becomes the current one. *)
Definition ws_put (cells : list value) (advance : bool) (ws : worksheet_t)
  : worksheet_t :=
  Worksheet (ws_id ws) (ws_title ws)
            (put_cells (ws_rows ws) (ws_current_row ws) cells)
            (if advance then S (ws_current_row ws) else ws_current_row ws)
            (ws_header_styled ws) (ws_widths_fitted ws).

(** A sheet after the cells of [ws[1]] were read and styled: the first
    row reaches the last column in use. *)
Definition ws_style (ws : worksheet_t) : worksheet_t :=
  let width := max_column (ws_rows ws) in
  Worksheet (ws_id ws) (ws_title ws)
            (match ws_rows ws with
             | [] => [pad width []]
             | row :: rest => pad width row :: rest
             end)
            (Nat.max 1 (ws_current_row ws))
            true (ws_widths_fitted ws).

(** A sheet after [ws.columns] was read and the widths set: on a sheet
    something was written to, every row in use reaches the last column in
    use. *)
Definition ws_fit (ws : worksheet_t) : worksheet_t :=
  let width := max_column (ws_rows ws) in
  Worksheet (ws_id ws) (ws_title ws)
            (match ws_current_row ws, ws_rows ws with
             | O, rows => rows
             | _, [] => [pad width []]
             | _, rows => map (pad width) rows
             end)
            (ws_current_row ws)
            (ws_header_styled ws) true.

Section Workbooks.
Context `{Openpyxl}.

Definition illegal_character (text : string) : exn :=
  Exn (OtherError "IllegalCharacterError") (illegal_character_text text).

(** [Cell.check_string]: cut, then look for an illegal character. *)
Definition check_string (value : string) : result string :=
  let value := str_take 32767 value in
  if has_illegal value then Raised (illegal_character value) else Ok value.

(** The value a new cell is given: text goes through [check_string],
    numbers and [None] are kept as they are. *)
Definition cell_value (v : value) : result value :=
  match v with
  | VStr s => match check_string s with
              | Ok s' => Ok (VStr s')
              | Raised e => Raised e
              end
  | _ => Ok v
  end.

(** The cells [append] creates from left to right, until one is refused. *)
Fixpoint bind_cells (row : list value) : list value * option exn :=
  match row with
  | [] => ([], None)
  | v :: rest =>
      match cell_value v with
      | Raised e => ([], Some e)
      | Ok cell =>
          let '(cells, failure) := bind_cells rest in (cell :: cells, failure)
      end
  end.

(** [ws.append(row)]: the values become the cells of the row below the
    current one, which then is the current row.  When a value is
    refused the cells to its left are in the sheet already and the
    current row stays. *)
Definition sheet_append (id : nat) (row : list value) : M unit :=
  let '(cells, failure) := bind_cells row in
  match failure with
  | None => update_sheet id (ws_put cells true)
  | Some e => update_sheet id (ws_put cells false) >> raise e
  end.

(** [wb.create_sheet(title, index)]: a new empty sheet inserted at
    [index].  (The titles the exporter uses are distinct, so openpyxl
    keeps them as given.) *)
Definition create_sheet (title : string) (index : nat) : M nat :=
  let! wb := get_workbook (no_attribute "create_sheet") in
  fun s =>
    let id := st_fresh s in
    let sheets := (take index (wb_sheets wb)
                   ++ Worksheet id title [] 0 false false
                   :: drop index (wb_sheets wb))%list in
    (Ok id, State (st_heap s)
                  (Exporter (Some (Workbook sheets (wb_active wb)))
                            (worksheet (st_self s)))
                  (st_files s) (st_stdout s) (S id)).

(** [self.workbook.save(path)] *)
Definition save (path : string) : M unit :=
  let! wb := get_workbook (no_attribute "save") in
  fun s =>
    let '(outcome, files) := write_file path wb (st_files s) in
    (outcome, State (st_heap s) (st_self s) files (st_stdout s) (st_fresh s)).

(** ** excel_exporter.py *)

Definition create_workbook : M unit :=
  let! wb := new_Workbook in
  set_workbook wb >>
  let! ws := active_sheet wb in
  set_worksheet ws >>
  sheet_set_title ws "Image Features".

(** The loop runs over [self.worksheet[1]], the cells of the first row
    up to the last column in use; reading them creates those the row
    does not hold yet. *)
Definition style_header : M unit :=
  let! ws := get_worksheet not_subscriptable in
  update_sheet ws ws_style.

(** The loop runs over [self.worksheet.columns]: nothing on a sheet
    nothing was written to, else every column in use over all rows in
    use, which creates the cells that are missing. *)
Definition auto_adjust_column_width : M unit :=
  let! ws := get_worksheet (no_attribute "columns") in
  update_sheet ws ws_fit.

Definition no_features : exn := Exn ValueError "No features to export".

Definition export_single_image (features : loc) (output_path : string) : M unit :=
  create_workbook >>
  (let! ws := get_worksheet (no_attribute "append") in
   sheet_append ws [VStr "Feature"; VStr "Value"]) >>
  let! d := load_dict features in
  for_each (dict_items d) (fun kv =>
    let! ws := get_worksheet (no_attribute "append") in
    sheet_append ws [VStr (fst kv); snd kv]) >>
  style_header >>
  auto_adjust_column_width >>
  save output_path >>
  print ("Excel file saved successfully: " ++ output_path).

(** The loop over [features_list] that gathers every key into a set. *)
Definition collect_keys (features_list : list loc) : M (gset string) :=
  for_fold features_list ∅ (fun all_keys features =>
    let! d := load_dict features in
    ret (all_keys ∪ list_to_set (dict_keys d))).

(** [[features.get(key, "") for key in headers]] *)
Definition row_of (headers : list string) (d : dict) : list value :=
  map (fun key => dict_get_default d key (VStr "")) headers.

Definition export_multiple_images (features_list : loc) (output_path : string)
  : M unit :=
  let! fl := load_list features_list in
  if decide (fl = []) then raise no_features else
  create_workbook >>
  let! all_keys := collect_keys fl in
  let headers := sorted (elements all_keys) in
  (let! ws := get_worksheet (no_attribute "append") in
   sheet_append ws (map VStr headers)) >>
  for_each fl (fun features =>
    let! d := load_dict features in
    let! ws := get_worksheet (no_attribute "append") in
    sheet_append ws (row_of headers d)) >>
  style_header >>
  auto_adjust_column_width >>
  save output_path >>
  print ("Excel file saved successfully: " ++ output_path).

Context `{PyArith}.

(** [sum(f.get(key, 0) for f in features_list) / len(features_list)] *)
Definition mean_of (key : string) (fl : list loc) : M value :=
  let! xs := for_map fl (fun f =>
               let! d := load_dict f in
               ret (dict_get_default d key (VInt 0))) in
  let! total := lift (py_sum xs) in
  lift (py_truediv total (VInt (Z.of_nat (length fl)))).

Definition export_with_summary (features_list : loc) (output_path : string)
  : M unit :=
  let! fl := load_list features_list in
  if decide (fl = []) then raise no_features else
  let! wb := new_Workbook in
  set_workbook wb >>
  let! data_sheet := active_sheet wb in
  sheet_set_title data_sheet "Image Data" >>
  let! all_keys := collect_keys fl in
  let headers := sorted (elements all_keys) in
  sheet_append data_sheet (map VStr headers) >>
  for_each fl (fun features =>
    let! d := load_dict features in
    sheet_append data_sheet (row_of headers d)) >>
  set_worksheet data_sheet >>
  style_header >>
  auto_adjust_column_width >>
  let! summary_sheet := create_sheet "Summary" 0 in
  sheet_append summary_sheet [VStr "Summary"; VStr ""] >>
  sheet_append summary_sheet
    [VStr "Total Images Processed"; VInt (Z.of_nat (length fl))] >>
  (if bool_decide ("avg_brightness" ∈ headers) then
     let! avg_brightness := mean_of "avg_brightness" fl in
     let! rounded := lift (py_round avg_brightness 2) in
     sheet_append summary_sheet [VStr "Average Brightness"; rounded]
   else ret tt) >>
  (if bool_decide ("width" ∈ headers) && bool_decide ("height" ∈ headers) then
     let! avg_width := mean_of "width" fl in
     let! avg_height := mean_of "height" fl in
     (let! rounded := lift (py_round avg_width 2) in
      sheet_append summary_sheet [VStr "Average Width"; rounded]) >>
     (let! rounded := lift (py_round avg_height 2) in
      sheet_append summary_sheet [VStr "Average Height"; rounded])
   else ret tt) >>
  set_worksheet summary_sheet >>
  style_header >>
  auto_adjust_column_width >>
  save output_path >>
  print ("Excel file with summary saved successfully: " ++ output_path).

End Workbooks.

(** ** A reference interpreter for the arithmetic

    Doubles are binary64 and every operation is correctly rounded, ties
    to even.  [sum] accumulates left to right with [+], as the language
    reference describes it. *)
Module Binary64.

Definition prec : Z := 53.
Definition emax : Z := 1024.

Definition type_error (msg : string) : exn := Exn TypeError msg.
Definition overflow (msg : string) : exn := Exn OverflowError msg.

(** [type(v).__name__] *)
Definition type_name (v : value) : string :=
  match v with
  | VNone => "NoneType"
  | VStr _ => "str"
  | VInt _ => "int"
  | VFloat _ => "float"
  end.

Definition unsupported (op : string) (x y : value) : exn :=
  type_error ("unsupported operand type(s) for " ++ op ++ ": '"
              ++ type_name x ++ "' and '" ++ type_name y ++ "'").

Definition finite_or {A} (x : pyfloat) (msg : string) (k : pyfloat -> A)
    (err : exn -> A) : A :=
  match x with
  | S754_infinity _ => err (overflow msg)
  | _ => k x
  end.

(** The double nearest to the quotient of two positive integers. *)
Definition quotient (negative : bool) (a b : positive) : pyfloat :=
  let '(m, e, l) := SFdiv_core_binary prec emax (Zpos a) 0 (Zpos b) 0 in
  binary_round_aux prec emax negative m e l.

(** [float(z)] *)
Definition of_int (z : Z) : result pyfloat :=
  finite_or (binary_normalize prec emax z 0 false)
            "int too large to convert to float" Ok Raised.

Definition add (x y : value) : result value :=
  match x, y with
  | VInt a, VInt b => Ok (VInt (a + b))
  | VFloat a, VFloat b => Ok (VFloat (SFadd prec emax a b))
  | VInt a, VFloat b =>
      match of_int a with
      | Ok a' => Ok (VFloat (SFadd prec emax a' b))
      | Raised e => Raised e
      end
  | VFloat a, VInt b =>
      match of_int b with
      | Ok b' => Ok (VFloat (SFadd prec emax a b'))
      | Raised e => Raised e
      end
  | VStr a, VStr b => Ok (VStr (a ++ b))
  | _, _ => Raised (unsupported "+" x y)
  end.

Definition sum (xs : list value) : result value :=
  fold_left (fun acc x => match acc with
                          | Ok a => add a x
                          | Raised e => Raised e
                          end) xs (Ok (VInt 0)).

Definition is_zero (x : pyfloat) : bool :=
  match x with S754_zero _ => true | _ => false end.

Definition float_div (x y : pyfloat) : result value :=
  if is_zero y then Raised (Exn ZeroDivisionError "float division by zero")
  else Ok (VFloat (SFdiv prec emax x y)).

Definition int_div (a b : Z) : result value :=
  match a, b with
  | _, Z0 => Raised zero_division
  | Z0, _ => Ok (VFloat (S754_zero (b <? 0)))
  | _, _ =>
      finite_or (quotient (xorb (a <? 0) (b <? 0))
                          (Z.to_pos (Z.abs a)) (Z.to_pos (Z.abs b)))
                "integer division result too large for a float"
                (fun q => Ok (VFloat q)) Raised
  end.

Definition truediv (x y : value) : result value :=
  match x, y with
  | VInt a, VInt b => int_div a b
  | VFloat a, VFloat b => float_div a b
  | VInt a, VFloat b =>
      match of_int a with
      | Ok a' => float_div a' b
      | Raised e => Raised e
      end
  | VFloat a, VInt b =>
      match of_int b with
      | Ok b' => float_div a b'
      | Raised e => Raised e
      end
  | _, _ => Raised (unsupported "/" x y)
  end.

(** The integer nearest to [n / d], ties to even ([d] positive). *)
Definition nearest_even (n d : Z) : Z :=
  let q := n / d in
  let r := n mod d in
  match (2 * r) ?= d with
  | Lt => q
  | Gt => q + 1
  | Eq => if Z.even q then q else q + 1
  end.

(** [round(x, ndigits)] on a double: the decimal with [ndigits] digits
    after the point that is nearest to the exact value of [x], then the
    double nearest to that decimal. *)
Definition round_float (x : pyfloat) (ndigits : Z) : result value :=
  match x with
  | S754_finite s m e =>
      if 323 <? ndigits then Ok (VFloat x)
      else if ndigits <? -308 then Ok (VFloat (S754_zero s))
      else
        let up := 10 ^ Z.max ndigits 0 in
        let down := 10 ^ Z.max (- ndigits) 0 in
        let d := nearest_even (Zpos m * 2 ^ Z.max e 0 * up)
                              (2 ^ Z.max (- e) 0 * down) in
        match d * down with
        | Zpos n =>
            finite_or (quotient s n (Z.to_pos up))
                      "rounded value too large to represent"
                      (fun r => Ok (VFloat r)) Raised
        | _ => Ok (VFloat (S754_zero s))
        end
  | _ => Ok (VFloat x)
  end.

Definition round_int (a : Z) (ndigits : Z) : Z :=
  if 0 <=? ndigits then a
  else let p := 10 ^ (- ndigits) in nearest_even a p * p.

Definition round (x : value) (ndigits : Z) : result value :=
  match x with
  | VInt a => Ok (VInt (round_int a ndigits))
  | VFloat a => round_float a ndigits
  | _ => Raised (type_error ("type " ++ type_name x
                               ++ " doesn't define __round__ method"))
  end.

End Binary64.

(** ** numpy arrays and the vision libraries *)

Definition rbind {A B} (r : result A) (k : A -> result B) : result B :=
  match r with
  | Ok a => k a
  | Raised e => Raised e
  end.

Notation "'let?' x ':=' r 'in' k" := (rbind r (fun x => k))
  (at level 10, x name, r at level 100, k at level 200, only parsing).

(** An array: its shape and its elements in row-major order.  A [uint8]
    element is an integer in [0, 255]; a [float32] element is a binary32
    datum. *)
Record ndarray (A : Type) := NdArray { shape : list Z; data : list A }.
Arguments NdArray {A} shape data.
Arguments shape {A} n.
Arguments data {A} n.

Definition uint8 := Z.
Definition float32 := spec_float.

Inductive color_code := COLOR_BGR2RGB | COLOR_BGR2GRAY.

(** What the code calls in OpenCV, PIL, pytesseract, numpy and [os], with
    the results their documentation promises.  [kmeans] draws its initial
    centres from OpenCV's random generator, whose state it is given and
    returns.  [cv2.imread] answers [None] for a file it cannot decode and
    never an array without rows or columns; a path it can open is shorter
    than the longest path name any system admits.  How numpy prints a
    [uint8] scalar depends on its version: [7] before numpy 2,
    [np.uint8(7)] from numpy 2 on. *)
Class Vision := {
  pil_image : Type;
  rng : Type;
  (** [cv2.imread(path)]: the decoded BGR image, or [None] *)
  imread : string -> option (ndarray uint8);
  imread_shape path image :
    imread path = Some image ->
    exists height width dims,
      shape image = height :: width :: dims /\ 0 < height /\ 0 < width;
  imread_path path image :
    imread path = Some image -> (str_len path < 32767)%N;
  (** [repr(x)] for a numpy [uint8] scalar [x] *)
  scalar_repr : uint8 -> string;
  (** [os.path.getsize(path)] *)
  getsize : string -> result Z;
  (** [Image.open(path)] *)
  Image_open : string -> result pil_image;
  (** [pytesseract.image_to_string(image)] *)
  image_to_string : pil_image -> result string;
  (** [cv2.cvtColor(image, code)] *)
  cvtColor : ndarray uint8 -> color_code -> result (ndarray uint8);
  (** [cv2.Canny(image, threshold1, threshold2)] *)
  Canny : ndarray uint8 -> Z -> Z -> result (ndarray uint8);
  (** [np.mean(a)] *)
  np_mean : ndarray uint8 -> pyfloat;
  (** [cv2.kmeans(samples, K, None, criteria, attempts, flags)], reduced
      to the [centers] it returns: one row per cluster, one column per
      column of [samples]. *)
  kmeans : rng -> ndarray float32 -> Z -> result (ndarray float32) * rng;
  kmeans_centers g n c xs k centers g' :
    kmeans g (NdArray [n; c] xs) k = (Ok centers, g') ->
    shape centers = [k; c] /\ length (data centers) = Z.to_nat (k * c);
}.

(** [a.reshape(-1, columns)] *)
Definition reshape_rows {A} (a : ndarray A) (columns : Z) : result (ndarray A) :=
  let size := Z.of_nat (length (data a)) in
  if decide (0 < columns /\ size mod columns = 0)
  then Ok (NdArray [size / columns; columns] (data a))
  else Raised (Exn ValueError "cannot reshape array").

(** [np.float32(a)] on a [uint8] array: every element is representable. *)
Definition np_float32 (a : ndarray uint8) : ndarray float32 :=
  NdArray (shape a) (map (fun z => binary_normalize 24 128 z 0 false) (data a)).

(** The C conversion of a [float32] to [uint8]: the fraction is dropped
    and the integer kept modulo 256.  (Cluster centres of [uint8] pixels
    lie in [0, 255], where nothing wraps.) *)
Definition uint8_of_float32 (x : float32) : uint8 :=
  match x with
  | S754_finite s m e =>
      let mag := if 0 <=? e then Zpos m * 2 ^ e else Zpos m / 2 ^ (- e) in
      (if s then - mag else mag) mod 256
  | _ => 0
  end.

(** [np.uint8(a)] *)
Definition np_uint8 (a : ndarray float32) : ndarray uint8 :=
  NdArray (shape a) (map uint8_of_float32 (data a)).

Fixpoint chunks {A} (count : nat) (width : nat) (xs : list A) : list (list A) :=
  match count with
  | O => []
  | S count' => take width xs :: chunks count' width (drop width xs)
  end.

(** [[tuple(row) for row in a]] for a matrix [a] *)
Definition row_tuples {A} (a : ndarray A) : list (list A) :=
  match shape a with
  | n :: dims => chunks (Z.to_nat n) (Z.to_nat (fold_right Z.mul 1 dims)) (data a)
  | [] => []
  end.

(** [np.sum(a > 0)] *)
Definition count_positive (a : ndarray uint8) : Z :=
  Z.of_nat (length (filter (fun z => 0 < z) (data a))).

(** ** image_processor.py *)

Section ImageProcessor.
Context `{PyArith} `{Vision}.

(** [str(t)] for a tuple of numpy [uint8] scalars: every element is
    printed by its [repr]. *)
Definition str_tuple (t : list uint8) : string :=
  "(" ++ String.concat ", " (map scalar_repr t)
      ++ (if decide (length t = 1%nat) then "," else "") ++ ")".

Definition could_not_load (image_path : string) : exn :=
  Exn ValueError ("Could not load image from " ++ image_path).

Definition load_image (image_path : string) : result (ndarray uint8) :=
  match imread image_path with
  | None => Raised (could_not_load image_path)
  | Some image => Ok image
  end.

(** The [try] block catches every [Exception]. *)
Definition extract_text (image_path : string) : result string :=
  match (let? image := Image_open image_path in image_to_string image) with
  | Ok text => Ok (str_strip text)
  | Raised e => Ok ("Error extracting text: " ++ exn_str e)
  end.

(** [height, width = image.shape[:2]] *)
Definition unpack_shape2 (sh : list Z) : result (Z * Z) :=
  match sh with
  | height :: width :: _ => Ok (height, width)
  | _ => Raised (Exn ValueError
                   ("not enough values to unpack (expected 2, got "
                    ++ repr_int (Z.of_nat (length sh)) ++ ")"))
  end.

Definition get_image_properties (image_path : string) : result dict :=
  let? image := load_image image_path in
  let? hw := unpack_shape2 (shape image) in
  let height := fst hw in
  let width := snd hw in
  let channels := match shape image with
                  | _ :: _ :: c :: _ => c
                  | _ => 1
                  end in
  let? file_size := getsize image_path in
  let? kb := py_truediv (VInt file_size) (VInt 1024) in
  let? file_size_kb := py_round kb 2 in
  let? ratio := py_truediv (VInt width) (VInt height) in
  let? aspect_ratio := py_round ratio 2 in
  Ok [("width", VInt width);
      ("height", VInt height);
      ("channels", VInt channels);
      ("file_size_kb", file_size_kb);
      ("aspect_ratio", aspect_ratio);
      ("total_pixels", VInt (width * height))].

(** [n_colors] is 5 when the caller leaves it out; [extract_all_features]
    passes 3. *)
Definition detect_dominant_colors (image_path : string) (n_colors : Z) (g : rng)
  : result (list (list uint8)) * rng :=
  match (let? image := load_image image_path in
         let? image := cvtColor image COLOR_BGR2RGB in
         let? pixels := reshape_rows image 3 in
         Ok (np_float32 pixels)) with
  | Raised e => (Raised e, g)
  | Ok pixels =>
      match kmeans g pixels n_colors with
      | (Raised e, g') => (Raised e, g')
      | (Ok centers, g') => (Ok (row_tuples (np_uint8 centers)), g')
      end
  end.

Definition calculate_brightness (image_path : string) : result value :=
  let? image := load_image image_path in
  let? gray := cvtColor image COLOR_BGR2GRAY in
  py_round (VFloat (np_mean gray)) 2.

Definition detect_edges (image_path : string) : result Z :=
  let? image := load_image image_path in
  let? gray := cvtColor image COLOR_BGR2GRAY in
  let? edges := Canny gray 100 200 in
  Ok (count_positive edges).

(** The loop over [enumerate(dominant_colors)], from index [i]. *)
Fixpoint add_colors (features : dict) (i : Z) (colors : list (list uint8)) : dict :=
  match colors with
  | [] => features
  | color :: rest =>
      add_colors (dict_set features ("dominant_color_" ++ repr_int (i + 1))
                           (VStr ("RGB" ++ str_tuple color)))
                 (i + 1) rest
  end.

Definition extract_all_features (image_path : string) (g : rng)
  : result dict * rng :=
  let features := [] in
  let features := dict_set features "image_path" (VStr image_path) in
  match (let? text := extract_text image_path in
         let features := dict_set features "extracted_text" (VStr text) in
         let? properties := get_image_properties image_path in
         let features := dict_update features properties in
         let? brightness := calculate_brightness image_path in
         let features := dict_set features "avg_brightness" brightness in
         let? edges := detect_edges image_path in
         Ok (dict_set features "edge_count" (VInt edges))) with
  | Raised e => (Raised e, g)
  | Ok features =>
      match detect_dominant_colors image_path 3 g with
      | (Raised e, g') => (Raised e, g')
      | (Ok dominant_colors, g') => (Ok (add_colors features 0 dominant_colors), g')
      end
  end.

End ImageProcessor.

(** ** A deterministic stand-in for the vision libraries

    Two images exist: [photo.png], a 2 x 2 colour image in which OCR
    finds a line of text, and [scan.png], the same image, on which OCR
    fails.  Every other file is one OpenCV cannot decode: [notes.txt],
    which is no image, and [strip.png], whose header gives a height of
    0, among them.  Clustering returns the first [k] samples. *)
Module Bench.

Definition photo : ndarray uint8 :=
  NdArray [2; 2; 3] [10; 20; 30;  40; 50; 60;  70; 80; 90;  250; 251; 252].

Definition not_found (path : string) : exn :=
  Exn (OtherError "FileNotFoundError") ("No such file or directory: " ++ path).

Definition cv2_error : exn := Exn (OtherError "cv2.error") "OpenCV assertion failed".

Definition bench_imread (path : string) : option (ndarray uint8) :=
  if decide (path = "photo.png" \/ path = "scan.png") then Some photo
  else None.

Definition bench_getsize (path : string) : result Z :=
  if decide (path = "photo.png" \/ path = "scan.png") then Ok 1536
  else Raised (Exn OSError ("No such file or directory: " ++ path)).

Definition bench_open (path : string) : result string :=
  if decide (path = "photo.png" \/ path = "scan.png")
  then Ok path
  else Raised (not_found path).

Definition bench_ocr (image : string) : result string :=
  if decide (image = "photo.png") then Ok ("  Hello" ++ String "010" (String "012" ""))
  else Raised (Exn (OtherError "TesseractNotFoundError")
                   "tesseract is not installed or it's not in your PATH").

Fixpoint swap_bgr (xs : list Z) (n : nat) : list Z :=
  match n, xs with
  | S n', b :: g :: r :: rest => r :: g :: b :: swap_bgr rest n'
  | _, _ => []
  end.

Fixpoint luma (xs : list Z) (n : nat) : list Z :=
  match n, xs with
  | S n', b :: g :: r :: rest => (b + g + r) / 3 :: luma rest n'
  | _, _ => []
  end.

Definition bench_cvtColor (a : ndarray uint8) (code : color_code)
  : result (ndarray uint8) :=
  match shape a with
  | [h; w; 3] =>
      match code with
      | COLOR_BGR2RGB => Ok (NdArray [h; w; 3] (swap_bgr (data a) (length (data a))))
      | COLOR_BGR2GRAY => Ok (NdArray [h; w] (luma (data a) (length (data a))))
      end
  | _ => Raised cv2_error
  end.

Definition bench_Canny (a : ndarray uint8) (lo hi : Z) : result (ndarray uint8) :=
  Ok (NdArray (shape a) (map (fun z => if hi <? z then 255 else 0) (data a))).

Definition bench_mean (a : ndarray uint8) : pyfloat :=
  match Binary64.int_div (fold_right Z.add 0 (data a)) (Z.of_nat (length (data a))) with
  | Ok (VFloat x) => x
  | _ => S754_nan
  end.

(** The two ways numpy prints a [uint8] scalar. *)
Definition numpy1_repr (x : uint8) : string := repr_int x.

Definition bench_kmeans (g : Z) (samples : ndarray float32) (k : Z)
  : result (ndarray float32) * Z :=
  match shape samples with
  | [n; c] =>
      if decide (0 < k <= n /\ 0 <= c /\ length (data samples) = Z.to_nat (n * c))
      then (Ok (NdArray [k; c] (take (Z.to_nat (k * c)) (data samples))), g + 1)
      else (Raised cv2_error, g)
  | _ => (Raised cv2_error, g)
  end.

End Bench.

(** ** Vocabulary of the statements *)

Definition deref_list (h : gmap loc obj) (l : loc) : option (list loc) :=
  match h !! l with
  | Some (OList fl) => Some fl
  | _ => None
  end.

Definition deref_dict (h : gmap loc obj) (l : loc) : option dict :=
  match h !! l with
  | Some (ODict d) => Some d
  | _ => None
  end.

(** The records a reference to a list of records stands for. *)
Definition records_of (h : gmap loc obj) (l : loc) : option (list dict) :=
  match deref_list h l with
  | Some fl => mapM (deref_dict h) fl
  | None => None
  end.

(** [cols] is the union of the key sets of [recs] in ascending order. *)
Definition sorted_union (cols : list string) (recs : list dict) : Prop :=
  Sorted String.le cols /\ NoDup cols /\
  forall k, k ∈ cols <-> exists d, d ∈ recs /\ k ∈ dict_keys d.

(** The key set the first loop of the list exports ends with. *)
Definition key_union (recs : list dict) : gset string :=
  foldl (fun acc d => acc ∪ list_to_set (dict_keys d)) ∅ recs.

(** The column names of the table for [recs]. *)
Definition columns_of (recs : list dict) : list string :=
  sorted (elements (key_union recs)).

(** A computation that leaves the caller's objects alone and does not
    raise the empty-input error. *)
Definition tame {A} (m : M A) : Prop :=
  forall s, st_heap (snd (m s)) = st_heap s /\ fst (m s) <> Raised no_features.

(** The sheet at [index] of the workbook saved at [path], if one is. *)
Definition saved_sheet (s : state) (path : string) (index : nat)
  : option worksheet_t :=
  match st_files s !! path with
  | Some (Saved wb) => wb_sheets wb !! index
  | _ => None
  end.


(** A record as the cells of a sheet keep it. *)
Definition kept (d : dict) : dict := map (fun kv => (fst kv, stored (snd kv))) d.

(** The file at [path] can be written: saving there succeeds, whatever
    the workbook. *)
Definition accepts `{Openpyxl} (path : string) : Prop :=
  forall wb files, fst (write_file path wb files) = Ok tt.

(** The sheet [title] after the given rows of cells were appended to it
    and both passes ran. *)
Definition laid_out (id : nat) (title : string) (rows : list (list value))
  : worksheet_t :=
  ws_fit (ws_style (foldl (fun ws cells => ws_put cells true ws)
                          (Worksheet id title [] 0 false false) rows)).

(** The cells of the table for [recs]: the header, then one row per
    record. *)
Definition table_rows (recs : list dict) (cols : list string)
  : list (list value) :=
  map stored (map VStr cols) :: map (fun d => map stored (row_of cols d)) recs.

(** Every cell of the table for [recs] takes its value. *)
Definition table_storable (recs : list dict) (cols : list string) : bool :=
  forallb storable (map VStr cols)
  && forallb (forallb storable) (map (row_of cols) recs).



Section Means.
Context `{PyArith}.




End Means.

(** The rows of the summary sheet, given the three rounded means. *)
Definition summary_rows (recs : list dict) (vb vw vh : value) : list (list value) :=
  let headers := columns_of recs in
  [VStr "Summary"; VStr ""]
  :: [VStr "Total Images Processed"; VInt (Z.of_nat (length recs))]
  :: (if bool_decide ("avg_brightness" ∈ headers)
      then [[VStr "Average Brightness"; vb]] else [])
  ++ (if bool_decide ("width" ∈ headers) && bool_decide ("height" ∈ headers)
      then [[VStr "Average Width"; vw]; [VStr "Average Height"; vh]] else []).

Definition summary_sheet (id : nat) (recs : list dict) (vb vw vh : value)
  : worksheet_t :=
  Worksheet id "Summary" (summary_rows recs vb vw vh)
            (length (summary_rows recs vb vw vh)) true true.


(** The guard at the head of both list exports. *)
Definition guarded {A} (features_list : loc) (body : list loc -> M A) : M A :=
  let! fl := load_list features_list in
  if decide (fl = []) then raise no_features else body fl.

(** A state whose exporter holds a workbook of one sheet. *)
Definition one_sheet (h : gmap loc obj) (w : option nat) (ws : worksheet_t)
    (files : gmap string file) (out : list string) (fresh : nat) : state :=
  State h (Exporter (Some (Workbook [ws] 0)) w) files out fresh.


(** The state a completed export leaves: the workbook [wb] is held by the
    exporter and saved at [path], a line went to the console. *)
Definition exported (s : state) (wb : workbook_t) (ws : nat) (path line : string)
    (fresh : nat) : state :=
  State (st_heap s) (Exporter (Some wb) (Some ws))
        (<[path := Saved wb]> (st_files s)) (st_stdout s ++ [line]) fresh.

(** The workbook the table export builds for [recs]. *)
Definition table_book (id : nat) (recs : list dict) : workbook_t :=
  Workbook [laid_out id "Image Features" (table_rows recs (columns_of recs))] 0.


(** A decoded image is a non-empty array: [cv2.imread] answers [None]
    rather than an empty matrix. *)
Definition valid_image (image : ndarray uint8) : Prop :=
  exists height width dims,
    shape image = height :: width :: dims /\ 0 < height /\ 0 < width.





(** The record before the colours are added. *)
Definition base_features (image_path text : string)
    (width height channels : Z) (file_size_kb aspect_ratio brightness : value)
    (edges : Z) : dict :=
  [("image_path", VStr image_path);
   ("extracted_text", VStr text);
   ("width", VInt width);
   ("height", VInt height);
   ("channels", VInt channels);
   ("file_size_kb", file_size_kb);
   ("aspect_ratio", aspect_ratio);
   ("total_pixels", VInt (width * height));
   ("avg_brightness", brightness);
   ("edge_count", VInt edges)].

(** The doubles 5.0, 150.0, 75.0, 1.5 and 1.0. *)
Definition five : pyfloat := S754_finite false 5629499534213120 (-50).
Definition one_hundred_fifty : pyfloat := S754_finite false 5277655813324800 (-45).
Definition seventy_five : pyfloat := S754_finite false 5277655813324800 (-46).
Definition one_and_a_half : pyfloat := S754_finite false 6755399441055744 (-52).
Definition one : pyfloat := S754_finite false 4503599627370496 (-52).

(** The record extracted from [photo.png]; its brightness is 100.25. *)
Definition photo_record : dict :=
  [("image_path", VStr "photo.png");
   ("extracted_text", VStr "Hello");
   ("width", VInt 2);
   ("height", VInt 2);
   ("channels", VInt 3);
   ("file_size_kb", VFloat one_and_a_half);
   ("aspect_ratio", VFloat one);
   ("total_pixels", VInt 4);
   ("avg_brightness", VFloat (S754_finite false 7054466603810816 (-46)));
   ("edge_count", VInt 1);
   ("dominant_color_1", VStr "RGB(30, 20, 10)");
   ("dominant_color_2", VStr "RGB(60, 50, 40)");
   ("dominant_color_3", VStr "RGB(90, 80, 70)")].

(** ** Sample states

    The scenario of the specification: two records, the second lacking
    [avg_brightness]; further a list with one record that has a width but
    no height, and an empty list. *)
Module Demo.

Definition first : dict :=
  [("width", VInt 100); ("height", VInt 50); ("avg_brightness", VInt 10)].
Definition second : dict := [("width", VInt 200); ("height", VInt 100)].
Definition narrow : dict := [("width", VInt 100)].

Definition heap : gmap loc obj :=
  <[1%positive := OList [2; 3]%positive]>
    (<[2%positive := ODict first]>
       (<[3%positive := ODict second]>
          (<[4%positive := OList [5%positive]]>
             (<[5%positive := ODict narrow]>
                (<[6%positive := OList []]> ∅))))).

Definition start : state := State heap (Exporter None None) ∅ [] 0.

End Demo.

(** ** Further vocabulary: files, schema *)

(** A computation that leaves every file alone. *)
Definition keeps_files {A} (m : M A) : Prop :=
  forall s, st_files (snd (m s)) = st_files s.

(** A computation that writes at most the file at [path], and, where
    that file can be written, writes nothing at all when it raises. *)
Definition saves_only `{Openpyxl} {A} (path : string) (m : M A) : Prop :=
  forall s,
    (accepts path ->
     forall e, fst (m s) = Raised e -> st_files (snd (m s)) = st_files s)
    /\ (forall p, p <> path -> st_files (snd (m s)) !! p = st_files s !! p).

(** The keys of an extracted record, in the order they are assigned. *)
Definition feature_keys : list string :=
  ["image_path"; "extracted_text"; "width"; "height"; "channels";
   "file_size_kb"; "aspect_ratio"; "total_pixels"; "avg_brightness";
   "edge_count"; "dominant_color_1"; "dominant_color_2"; "dominant_color_3"].

(** The same keys in ascending order. *)
Definition feature_columns : list string :=
  ["aspect_ratio"; "avg_brightness"; "channels"; "dominant_color_1";
   "dominant_color_2"; "dominant_color_3"; "edge_count"; "extracted_text";
   "file_size_kb"; "height"; "image_path"; "total_pixels"; "width"].

Section Extracted.
Context `{PyArith} `{Vision}.

(** [rec] is a record [extract_all_features] has returned. *)
Definition extracted (rec : dict) : Prop :=
  exists path g g', extract_all_features path g = (Ok rec, g').

End Extracted.

(** The three export methods, by name. *)
Inductive export_method := Single | Multiple | WithSummary.

Definition export `{Openpyxl} `{PyArith} (which : export_method) (target : loc)
    (output_path : string) : M unit :=
  match which with
  | Single => export_single_image target output_path
  | Multiple => export_multiple_images target output_path
  | WithSummary => export_with_summary target output_path
  end.

(** A state with a file on disk, an exporter that has been used before,
    and a list whose one record has text where a number is expected. *)
Module Office.

Definition mislabelled : dict :=
  [("width", VInt 640); ("avg_brightness", VStr "bright")].

Definition report : workbook_t :=
  Workbook [Worksheet 7 "Image Features" [[VStr "width"]; [VInt 3]] 2 true true] 0.

Definition heap : gmap loc obj :=
  <[1%positive := OList [2%positive]]> (<[2%positive := ODict mislabelled]> ∅).

Definition start : state :=
  State heap (Exporter (Some report) (Some 7%nat))
        {[ "old.xlsx" := Saved report ]} [] 8.

End Office.

(** A list whose one record holds a text with a form feed in it, as OCR
    returns for a scan of two pages. *)
Module Fax.

Definition two_pages : string := "page 1" ++ String "012" "page 2".

Definition smudged : dict :=
  [("image_path", VStr "fax.png"); ("extracted_text", VStr two_pages);
   ("avg_brightness", VInt 10)].

Definition heap : gmap loc obj :=
  <[1%positive := OList [2%positive]]> (<[2%positive := ODict smudged]> ∅).

Definition start : state := State heap (Exporter None None) ∅ [] 0.

End Fax.

(** A disk for the examples: nothing can be written below [/readonly/],
    the volume of [/full/] fills up while a file is written and leaves
    it cut short, every other path takes the file.  The error text is
    the one openpyxl 3.1 gives. *)
Module Desk.

Definition desk_text (text : string) : string :=
  text ++ " cannot be used in worksheets.".

Definition desk_write (path : string) (wb : workbook_t) (files : gmap string file)
  : result unit * gmap string file :=
  if String.prefix "/readonly/" path
  then (Raised (Exn (OtherError "PermissionError")
                    ("[Errno 13] Permission denied: '" ++ path ++ "'")), files)
  else if String.prefix "/full/" path
  then (Raised (Exn OSError "[Errno 28] No space left on device"),
        <[path := Broken]> files)
  else (Ok tt, <[path := Saved wb]> files).

End Desk.

(** The record extracted from [scan.png]: OCR failed, the rest is as for
    [photo.png]. *)
Definition scan_record : dict :=
  dict_set
    (dict_set photo_record "image_path" (VStr "scan.png"))
    "extracted_text"
    (VStr "Error extracting text: tesseract is not installed or it's not in your PATH").

(** A state whose list holds the two extracted records. *)
Module Album.

Definition heap : gmap loc obj :=
  <[1%positive := OList [2; 3]%positive]>
    (<[2%positive := ODict photo_record]>
       (<[3%positive := ODict scan_record]> ∅)).

Definition start : state := State heap (Exporter None None) ∅ [] 0.

End Album.

(** ** main.py: the two drivers *)

(** How a driver ends: it returns, or [sys.exit(code)] ends the program. *)
Inductive outcome :=
  | Returned
  | SystemExit (code : Z).

(** [try: body  except Exception as e: handler(e)] *)
Definition try_except {A} (body : M A) (handler : exn -> M A) : M A :=
  fun s => match body s with
           | (Ok a, s') => (Ok a, s')
           | (Raised e, s') => handler e s'
           end.

(** A new object, at an address no object has. *)
Definition alloc (o : obj) : M loc :=
  fun s => let l := fresh (dom (st_heap s)) in
           (Ok l, State (<[l := o]> (st_heap s)) (st_self s) (st_files s)
                        (st_stdout s) (st_fresh s)).

(** [xs.append(x)] *)
Definition list_append (xs x : loc) : M unit :=
  fun s => match st_heap s !! xs with
           | Some (OList items) =>
               (Ok tt, State (<[xs := OList (items ++ [x])]> (st_heap s))
                             (st_self s) (st_files s) (st_stdout s) (st_fresh s))
           | _ => (Raised (not_a "list"), s)
           end.

(** [exporter = ExcelExporter()] for the body of a function: the methods
    called in [body] act on the new instance, whose two attributes start
    as [None]; when the function is left the instance is gone, and an
    instance made elsewhere is as it was. *)
Definition with_new_exporter {A} (body : M A) : M A :=
  fun s =>
    let '(r, s') := body (State (st_heap s) (Exporter None None) (st_files s)
                                (st_stdout s) (st_fresh s)) in
    (r, State (st_heap s') (st_self s) (st_files s') (st_stdout s') (st_fresh s')).

Section Drivers.
Context `{Openpyxl} `{PyArith} `{Vision}.

Definition process_single_image (image_path output_path : string) (g : rng)
  : M (outcome * rng) :=
  print ("Processing image: " ++ image_path) >>
  with_new_exporter
    (let '(extraction, g') := extract_all_features image_path g in
     let! status :=
       try_except
         (let! features := lift extraction in
          let! features := alloc (ODict features) in
          export_single_image features output_path >>
          print "Processing completed successfully!" >>
          ret Returned)
         (fun e =>
            print ("Error processing image: " ++ exn_str e) >>
            ret (SystemExit 1)) in
     ret (status, g')).

(** One round of the loop over [enumerate(image_paths, 1)]; the loop
    carries the index and the state of the random generator. *)
Definition process_one (features_list : loc) (total : nat) (ig : Z * rng)
    (image_path : string) : M (Z * rng) :=
  print ("  [" ++ repr_int (fst ig) ++ "/" ++ repr_int (Z.of_nat total)
         ++ "] Processing: " ++ image_path) >>
  let '(extraction, g') := extract_all_features image_path (snd ig) in
  try_except
    (let! features := lift extraction in
     let! features := alloc (ODict features) in
     list_append features_list features)
    (fun e =>
       print ("  Warning: Error processing " ++ image_path ++ ": " ++ exn_str e)) >>
  ret (fst ig + 1, g').

Definition process_multiple_images (image_paths : list string)
    (output_path : string) (with_summary : bool) (g : rng) : M (outcome * rng) :=
  print ("Processing " ++ repr_int (Z.of_nat (length image_paths)) ++ " images...") >>
  with_new_exporter
    (let! features_list := alloc (OList []) in
     let! ig := for_fold image_paths (1, g)
                  (process_one features_list (length image_paths)) in
     let! fl := load_list features_list in
     if decide (fl = []) then
       print "Error: No images were successfully processed" >>
       ret (SystemExit 1, snd ig)
     else
       let! status :=
         try_except
           ((if with_summary
             then export_with_summary features_list output_path
             else export_multiple_images features_list output_path) >>
            let! fl := load_list features_list in
            print ("Processing completed! Processed "
                   ++ repr_int (Z.of_nat (length fl)) ++ " images successfully.") >>
            ret Returned)
           (fun e =>
              print ("Error exporting to Excel: " ++ exn_str e) >>
              ret (SystemExit 1)) in
       ret (status, snd ig)).

(** The records a batch yields: those of the images whose extraction
    succeeds, in the order of the paths. *)
Fixpoint extract_batch (image_paths : list string) (g : rng) : list dict * rng :=
  match image_paths with
  | [] => ([], g)
  | image_path :: rest =>
      let '(extraction, g') := extract_all_features image_path g in
      let '(records, g'') := extract_batch rest g' in
      (match extraction with
       | Ok features => features :: records
       | Raised _ => records
       end, g'')
  end.

End Drivers.

(** ** main.py: file names and directories

    [os.path] is taken as [posixpath]: the separator is [/].  A path is
    its sequence of bytes; [lower] maps the letters [A]..[Z] and leaves
    every other byte alone, which decides membership in
    [valid_extensions] as [str.lower] does. *)

Definition ascii_lower (c : ascii) : ascii :=
  let n := N_of_ascii c in
  if (65 <=? n)%N && (n <=? 90)%N then ascii_of_N (n + 32) else c.

(** [s.lower()] *)
Fixpoint lower (s : string) : string :=
  match s with
  | EmptyString => EmptyString
  | String c rest => String (ascii_lower c) (lower rest)
  end.

Fixpoint rfind_from (c : ascii) (p : string) (i found : Z) : Z :=
  match p with
  | EmptyString => found
  | String a rest =>
      rfind_from c rest (i + 1) (if Ascii.eqb a c then i else found)
  end.

(** [p.rfind(c)]: the highest index of [c] in [p], or -1. *)
Definition rfind (c : ascii) (p : string) : Z := rfind_from c p 0 (-1).

(** [p[lo:hi]] for [0 <= lo <= hi]. *)
Definition slice (p : string) (lo hi : Z) : string :=
  substring (Z.to_nat lo) (Z.to_nat (hi - lo)) p.

(** The loop of [genericpath._splitext] that skips the leading dots of
    the file name: whether a character other than the dot stands at an
    index from [filenameIndex] on, [count] indices being left before
    [dotIndex]. *)
Fixpoint name_before_dot (p : string) (filenameIndex : Z) (count : nat) : bool :=
  match count with
  | O => false
  | S count' =>
      if bool_decide (slice p filenameIndex (filenameIndex + 1) <> ".")
      then true
      else name_before_dot p (filenameIndex + 1) count'
  end.

(** [os.path.splitext(p)] *)
Definition splitext (p : string) : string * string :=
  let sepIndex := rfind "/" p in
  let dotIndex := rfind "." p in
  if (sepIndex <? dotIndex)
     && name_before_dot p (sepIndex + 1) (Z.to_nat (dotIndex - (sepIndex + 1)))
  then (slice p 0 dotIndex, slice p dotIndex (Z.of_nat (String.length p)))
  else (p, "").

Fixpoint endswith_char (p : string) (c : ascii) : bool :=
  match p with
  | EmptyString => false
  | String a EmptyString => Ascii.eqb a c
  | String _ rest => endswith_char rest c
  end.

(** [os.path.join(a, b)] *)
Definition path_join (a b : string) : string :=
  match b with
  | String "/" _ => b
  | _ => if bool_decide (a = "") || endswith_char a "/"
         then a ++ b
         else a ++ "/" ++ b
  end.

Definition valid_extensions : list string :=
  [".jpg"; ".jpeg"; ".png"; ".bmp"; ".tiff"; ".gif"; ".webp"].

Definition validate_image_file (file_path : string) : bool :=
  bool_decide (lower (snd (splitext file_path)) ∈ valid_extensions).

(** What the drivers ask of the file system: [os.listdir], which raises
    when the directory cannot be read, [os.path.isfile], and the triples
    [os.walk] yields, none for a directory that cannot be read. *)
Class FileSystem := {
  listdir : string -> result (list string);
  isfile : string -> bool;
  walk : string -> list (string * list string * list string)
}.

Section Directory.
Context `{Openpyxl} `{PyArith} `{Vision} `{FileSystem}.

(** The body of the loop over [os.listdir(directory_path)]. *)
Definition keep_image_file (directory_path : string) (image_files : list string)
    (file : string) : list string :=
  let file_path := path_join directory_path file in
  if isfile file_path && validate_image_file file_path
  then (image_files ++ [file_path])%list
  else image_files.

(** The body of the inner loop over the files of one triple of
    [os.walk]. *)
Definition keep_walked_file (root : string) (image_files : list string)
    (file : string) : list string :=
  let file_path := path_join root file in
  if validate_image_file file_path
  then (image_files ++ [file_path])%list
  else image_files.

Definition process_directory (directory_path output_path : string)
    (recursive with_summary : bool) (g : rng) : M (outcome * rng) :=
  let! image_files :=
    if recursive then
      ret (fold_left (fun image_files '(root, _, files) =>
                        fold_left (keep_walked_file root) files image_files)
                     (walk directory_path) [])
    else
      let! names := lift (listdir directory_path) in
      ret (fold_left (keep_image_file directory_path) names []) in
  if decide (image_files = []) then
    print ("No image files found in " ++ directory_path) >>
    ret (SystemExit 1, g)
  else
    process_multiple_images image_files output_path with_summary g.

End Directory.

(** A directory [shots] holding two images the stand-in decodes, a text
    file, an image it cannot decode and a folder whose name ends like an
    image; below the folder a hidden file and another image it cannot
    decode.  The directory [empty] holds a text file and a hidden file.
    The two images are those of [Bench]. *)
Module Shots.

Definition no_directory (path : string) : exn :=
  Exn (OtherError "FileNotFoundError") ("No such file or directory: " ++ path).

Definition shots_listdir (path : string) : result (list string) :=
  if bool_decide (path = "shots")
  then Ok ["photo.png"; "notes.txt"; "raw.gif"; "LOGO.PNG"; "scan.png"]
  else if bool_decide (path = "empty") then Ok ["notes.txt"; ".png"]
  else Raised (no_directory path).

Definition shots_isfile (path : string) : bool :=
  bool_decide (path ∈ ["shots/photo.png"; "shots/notes.txt"; "shots/LOGO.PNG";
                       "shots/scan.png"; "shots/raw.gif/.jpg";
                       "shots/raw.gif/strip.png";
                       "empty/notes.txt"; "empty/.png"]).

Definition shots_walk (path : string)
  : list (string * list string * list string) :=
  if bool_decide (path = "shots")
  then [("shots", ["raw.gif"], ["photo.png"; "notes.txt"; "LOGO.PNG"; "scan.png"]);
        ("shots/raw.gif", [], [".jpg"; "strip.png"])]
  else if bool_decide (path = "empty")
  then [("empty", [], ["notes.txt"; ".png"])]
  else [].

(** The name under which [Bench] knows the file at [path]. *)
Definition in_bench (path : string) : string :=
  if bool_decide (path = "shots/photo.png") then "photo.png"
  else if bool_decide (path = "shots/scan.png") then "scan.png"
  else "".

Definition shots_imread (path : string) : option (ndarray uint8) :=
  Bench.bench_imread (in_bench path).

Definition shots_getsize (path : string) : result Z :=
  Bench.bench_getsize (in_bench path).

Definition shots_open (path : string) : result string :=
  Bench.bench_open (in_bench path).

End Shots.

Definition shots_files : FileSystem := {|
  listdir := Shots.shots_listdir;
  isfile := Shots.shots_isfile;
  walk := Shots.shots_walk;
|}.

(** [c] occurs in [s]. *)
Fixpoint contains (c : ascii) (s : string) : bool :=
  match s with
  | EmptyString => false
  | String a rest => Ascii.eqb a c || contains c rest
  end.

(** [s] consists of dots only (the empty string included). *)
Fixpoint all_dots (s : string) : bool :=
  match s with
  | EmptyString => true
  | String a rest => Ascii.eqb a "." && all_dots rest
  end.

(** What a loop round may change: new objects appear, the list [fl]
    grows; every other object, the exporter, the files and the sheet
    counter stay. *)
Definition grown (fl : loc) (s s' : state) : Prop :=
  (forall l, l ∈ dom (st_heap s) -> l <> fl -> st_heap s' !! l = st_heap s !! l)
  /\ dom (st_heap s) ⊆ dom (st_heap s')
  /\ st_self s' = st_self s
  /\ st_files s' = st_files s
  /\ st_fresh s' = st_fresh s.

(** ** The reference interpreter implements the interface *)

Lemma finite_or_raises (x : pyfloat) msg (k : pyfloat -> result value) e :
  (forall y e', k y = Raised e' -> arith_error e' = true) ->
  Binary64.finite_or x msg k Raised = Raised e -> arith_error e = true.
Proof.
  intros Hk. unfold Binary64.finite_or.
  destruct x; try apply Hk. intros [= <-]. reflexivity.
Qed.

Lemma of_int_raises z e :
  Binary64.of_int z = Raised e -> arith_error e = true.
Proof.
  unfold Binary64.of_int, Binary64.finite_or.
  destruct (binary_normalize _ _ _ _ _); try discriminate.
  intros [= <-]. reflexivity.
Qed.

Lemma add_raises x y e :
  Binary64.add x y = Raised e -> arith_error e = true.
Proof.
  destruct x as [|a|a|a], y as [|b|b|b]; simpl; try discriminate;
    try (intros [= <-]; reflexivity).
  - destruct (Binary64.of_int a) eqn:E; [discriminate|].
    intros [= <-]. eapply of_int_raises, E.
  - destruct (Binary64.of_int b) eqn:E; [discriminate|].
    intros [= <-]. eapply of_int_raises, E.
Qed.

Lemma sum_raises vs e :
  Binary64.sum vs = Raised e -> arith_error e = true.
Proof.
  unfold Binary64.sum.
  assert (G : forall acc : result value,
             (forall e', acc = Raised e' -> arith_error e' = true) ->
             forall e', fold_left (fun acc x => match acc with
                                                | Ok a => Binary64.add a x
                                                | Raised e => Raised e
                                                end) vs acc = Raised e' ->
                        arith_error e' = true).
  { induction vs as [|v vs IH]; intros acc Hacc e'; simpl.
    - apply Hacc.
    - apply IH. intros e''. destruct acc as [a|e0].
      + apply add_raises.
      + apply Hacc. }
  apply G. discriminate.
Qed.

Lemma float_div_raises x y e :
  Binary64.float_div x y = Raised e -> arith_error e = true.
Proof.
  unfold Binary64.float_div. destruct (Binary64.is_zero y); [|discriminate].
  intros [= <-]. reflexivity.
Qed.

Lemma truediv_raises x y e :
  Binary64.truediv x y = Raised e -> arith_error e = true.
Proof.
  destruct x as [|a|a|a], y as [|b|b|b]; simpl;
    try (intros [= <-]; reflexivity); try apply float_div_raises.
  - unfold Binary64.int_div.
    destruct a, b; try discriminate; try (intros [= <-]; reflexivity);
      apply finite_or_raises; discriminate.
  - destruct (Binary64.of_int a) eqn:E.
    + apply float_div_raises.
    + intros [= <-]. eapply of_int_raises, E.
  - destruct (Binary64.of_int b) eqn:E.
    + apply float_div_raises.
    + intros [= <-]. eapply of_int_raises, E.
Qed.

Lemma round_raises x n e :
  Binary64.round x n = Raised e -> arith_error e = true.
Proof.
  destruct x as [|a|a|a]; simpl; try discriminate;
    try (intros [= <-]; reflexivity).
  unfold Binary64.round_float. destruct a; try discriminate.
  destruct (323 <? n); [discriminate|].
  destruct (n <? -308); [discriminate|].
  cbv zeta. destruct (_ * _); try discriminate.
  apply finite_or_raises. discriminate.
Qed.

Lemma round_number x n v :
  Binary64.round x n = Ok v -> is_number v = true.
Proof.
  destruct x as [|a|a|a]; simpl; try discriminate.
  - intros [= <-]. reflexivity.
  - unfold Binary64.round_float. destruct a; try (intros [= <-]; reflexivity).
    destruct (323 <? n); [intros [= <-]; reflexivity|].
    destruct (n <? -308); [intros [= <-]; reflexivity|].
    cbv zeta. destruct (_ * _); try (intros [= <-]; reflexivity).
    unfold Binary64.finite_or. destruct (Binary64.quotient _ _ _);
      try discriminate; intros [= <-]; reflexivity.
Qed.

Lemma truediv_int_zero a :
  Binary64.truediv (VInt a) (VInt 0) = Raised zero_division.
Proof. simpl. unfold Binary64.int_div. destruct a; reflexivity. Qed.

Definition binary64_arith : PyArith := {|
  py_sum := Binary64.sum;
  py_truediv := Binary64.truediv;
  py_round := Binary64.round;
  py_sum_raises := sum_raises;
  py_truediv_raises := truediv_raises;
  py_round_raises := round_raises;
  py_truediv_int_zero := truediv_int_zero;
  py_round_number := round_number;
|}.

(** ** The stand-in implements the vision interface *)

Lemma bench_kmeans_centers g n c xs k centers g' :
  Bench.bench_kmeans g (NdArray [n; c] xs) k = (Ok centers, g') ->
  shape centers = [k; c] /\ length (data centers) = Z.to_nat (k * c).
Proof.
  unfold Bench.bench_kmeans; simpl. case_decide as Hok; [|discriminate].
  intros [= <- _]; simpl. split; [reflexivity|].
  destruct Hok as ([Hk Hkn] & Hc & Hlen).
  rewrite length_take, Hlen. apply Nat.min_l. apply Z2Nat.inj_le; nia.
Qed.

Lemma bench_imread_shape path image :
  Bench.bench_imread path = Some image ->
  exists height width dims,
    shape image = height :: width :: dims /\ 0 < height /\ 0 < width.
Proof.
  unfold Bench.bench_imread. case_decide; [|discriminate].
  intros [= <-]. exists 2, 2, [3]. split; [reflexivity|]. split; reflexivity.
Qed.

Lemma bench_imread_path path image :
  Bench.bench_imread path = Some image -> (str_len path < 32767)%N.
Proof.
  unfold Bench.bench_imread. case_decide as Hp; [|discriminate].
  intros _. destruct Hp as [-> | ->]; reflexivity.
Qed.

Lemma shots_imread_shape path image :
  Shots.shots_imread path = Some image ->
  exists height width dims,
    shape image = height :: width :: dims /\ 0 < height /\ 0 < width.
Proof. apply bench_imread_shape. Qed.

Lemma shots_imread_path path image :
  Shots.shots_imread path = Some image -> (str_len path < 32767)%N.
Proof.
  unfold Shots.shots_imread, Shots.in_bench.
  repeat case_bool_decide; subst; try reflexivity.
  discriminate.
Qed.

(** The stand-in with numpy 1. *)
Definition bench_vision : Vision := {|
  pil_image := string;
  rng := Z;
  imread := Bench.bench_imread;
  imread_shape := bench_imread_shape;
  imread_path := bench_imread_path;
  scalar_repr := Bench.numpy1_repr;
  getsize := Bench.bench_getsize;
  Image_open := Bench.bench_open;
  image_to_string := Bench.bench_ocr;
  cvtColor := Bench.bench_cvtColor;
  Canny := Bench.bench_Canny;
  np_mean := Bench.bench_mean;
  kmeans := Bench.bench_kmeans;
  kmeans_centers := bench_kmeans_centers;
|}.


(** The stand-in with numpy 1, reading the files of [Shots]. *)
Definition shots_vision : Vision := {|
  pil_image := string;
  rng := Z;
  imread := Shots.shots_imread;
  imread_shape := shots_imread_shape;
  imread_path := shots_imread_path;
  scalar_repr := Bench.numpy1_repr;
  getsize := Shots.shots_getsize;
  Image_open := Shots.shots_open;
  image_to_string := Bench.bench_ocr;
  cvtColor := Bench.bench_cvtColor;
  Canny := Bench.bench_Canny;
  np_mean := Bench.bench_mean;
  kmeans := Bench.bench_kmeans;
  kmeans_centers := bench_kmeans_centers;
|}.

(** ** The disk of the examples implements the interface *)

Lemma desk_write_ok path wb files files' :
  Desk.desk_write path wb files = (Ok tt, files') ->
  files' = <[path := Saved wb]> files.
Proof.
  unfold Desk.desk_write.
  destruct (String.prefix "/readonly/" path); [discriminate|].
  destruct (String.prefix "/full/" path); [discriminate|].
  intros [= <-]. reflexivity.
Qed.

Lemma desk_write_other path wb files other :
  other <> path ->
  snd (Desk.desk_write path wb files) !! other = files !! other.
Proof.
  intros Hne. unfold Desk.desk_write.
  destruct (String.prefix "/readonly/" path); [reflexivity|].
  destruct (String.prefix "/full/" path); cbn [snd];
    apply lookup_insert_ne; congruence.
Qed.

Lemma desk_write_raises path wb files e :
  fst (Desk.desk_write path wb files) = Raised e ->
  e <> Exn ValueError "No features to export".
Proof.
  unfold Desk.desk_write.
  destruct (String.prefix "/readonly/" path); [intros [= <-]; discriminate|].
  destruct (String.prefix "/full/" path); [intros [= <-]; discriminate|].
  discriminate.
Qed.

Definition desk : Openpyxl := {|
  illegal_character_text := Desk.desk_text;
  write_file := Desk.desk_write;
  write_file_ok := desk_write_ok;
  write_file_other := desk_write_other;
  write_file_raises := desk_write_raises;
|}.

(** ** Frame and error lemmas for the monad and the primitives *)

Lemma tame_ret {A} (a : A) : tame (ret a).
Proof. intros s; split; [reflexivity|discriminate]. Qed.

Lemma tame_bind {A B} (m : M A) (k : A -> M B) :
  tame m -> (forall a, tame (k a)) -> tame (bind m k).
Proof.
  intros Hm Hk s. unfold bind.
  destruct (Hm s) as [Hh He]. destruct (m s) as [[a|e] s1]; simpl in *.
  - destruct (Hk a s1) as [Hh' He']. split; [congruence|assumption].
  - split; [assumption|]. intros [= ->]. apply He. reflexivity.
Qed.

Lemma tame_lift {A} (r : result A) :
  (forall e, r = Raised e -> arith_error e = true) -> tame (lift r).
Proof.
  intros Hr s; split; [reflexivity|]. simpl. intros E.
  specialize (Hr _ E). discriminate.
Qed.

Lemma tame_for_each {A} (xs : list A) (body : A -> M unit) :
  (forall x, tame (body x)) -> tame (for_each xs body).
Proof.
  intros Hb. induction xs as [|x xs IH]; simpl.
  - apply tame_ret.
  - apply tame_bind; auto.
Qed.

Lemma tame_for_fold {A B} (xs : list A) (acc : B) (body : B -> A -> M B) :
  (forall b x, tame (body b x)) -> tame (for_fold xs acc body).
Proof.
  intros Hb. revert acc. induction xs as [|x xs IH]; intros acc; simpl.
  - apply tame_ret.
  - apply tame_bind; auto.
Qed.

Lemma tame_for_map {A B} (xs : list A) (f : A -> M B) :
  (forall x, tame (f x)) -> tame (for_map xs f).
Proof.
  intros Hf. induction xs as [|x xs IH]; simpl.
  - apply tame_ret.
  - apply tame_bind; [auto|]. intros y.
    apply tame_bind; [auto|]. intros ys. apply tame_ret.
Qed.

Lemma tame_load_list l : tame (load_list l).
Proof.
  intros s. unfold load_list.
  destruct (st_heap s !! l) as [[fl|d]|]; split; simpl;
    unfold not_a, no_features; congruence.
Qed.

Lemma tame_load_dict l : tame (load_dict l).
Proof.
  intros s. unfold load_dict.
  destruct (st_heap s !! l) as [[fl|d]|]; split; simpl;
    unfold not_a, no_features; congruence.
Qed.

Lemma tame_print line : tame (print line).
Proof. intros s; split; [reflexivity|discriminate]. Qed.

Lemma tame_set_workbook wb : tame (set_workbook wb).
Proof. intros s; split; [reflexivity|discriminate]. Qed.

Lemma tame_set_worksheet ws : tame (set_worksheet ws).
Proof. intros s; split; [reflexivity|discriminate]. Qed.

Lemma tame_get_workbook name : tame (get_workbook (no_attribute name)).
Proof.
  intros s. unfold get_workbook.
  destruct (workbook (st_self s)); split; simpl;
    unfold no_attribute, no_features; congruence.
Qed.

Lemma tame_get_worksheet e : exn_cls e <> ValueError -> tame (get_worksheet e).
Proof.
  intros He s. unfold get_worksheet.
  destruct (worksheet (st_self s)); split; simpl; try congruence.
  intros [= ->]. apply He. reflexivity.
Qed.

Lemma tame_get_worksheet_attr name : tame (get_worksheet (no_attribute name)).
Proof. apply tame_get_worksheet. discriminate. Qed.

Lemma tame_get_worksheet_item : tame (get_worksheet not_subscriptable).
Proof. apply tame_get_worksheet. discriminate. Qed.

Lemma tame_new_Workbook : tame new_Workbook.
Proof. intros s; split; [reflexivity|discriminate]. Qed.

Lemma tame_active_sheet wb : tame (active_sheet wb).
Proof.
  intros s. unfold active_sheet.
  destruct (wb_sheets wb !! wb_active wb); split; simpl;
    unfold no_attribute, no_features; congruence.
Qed.

Lemma tame_update_sheet id f : tame (update_sheet id f).
Proof.
  intros s. unfold update_sheet.
  destruct (workbook (st_self s)); split; simpl; congruence.
Qed.

Lemma tame_create_sheet title index : tame (create_sheet title index).
Proof.
  apply tame_bind; [apply tame_get_workbook|].
  intros wb s; split; [reflexivity|discriminate].
Qed.

Lemma tame_raise {A} e : e <> no_features -> tame (@raise A e).
Proof. intros He s; split; [reflexivity|]. simpl. congruence. Qed.

Lemma bind_cells_failure `{Openpyxl} row cells e :
  bind_cells row = (cells, Some e) ->
  exn_cls e = OtherError "IllegalCharacterError".
Proof.
  revert cells. induction row as [|v row IH]; intros cells; simpl; [discriminate|].
  destruct (cell_value v) as [cell|e'] eqn:Hv.
  - destruct (bind_cells row) as [cs failure]. intros [= _ ->]. eapply IH. reflexivity.
  - intros [= _ <-]. destruct v as [|t|z|x]; simpl in Hv; try discriminate.
    unfold check_string in Hv. destruct (has_illegal _); [|discriminate].
    injection Hv as <-. reflexivity.
Qed.

Lemma tame_sheet_append `{Openpyxl} id row : tame (sheet_append id row).
Proof.
  unfold sheet_append. destruct (bind_cells row) as [cells [e|]] eqn:Hb.
  - apply tame_bind; [apply tame_update_sheet|]. intros _.
    apply tame_raise. intros ->.
    apply bind_cells_failure in Hb. discriminate.
  - apply tame_update_sheet.
Qed.

Lemma tame_save `{Openpyxl} path : tame (save path).
Proof.
  apply tame_bind; [apply tame_get_workbook|].
  intros wb s. pose proof (write_file_raises path wb (st_files s)) as Hw.
  destruct (write_file path wb (st_files s)) as [outcome files].
  split; [reflexivity|]. cbn [fst snd] in *. intros ->.
  apply (Hw no_features); reflexivity.
Qed.

Create HintDb tame.
#[local] Hint Resolve tame_ret tame_load_list tame_load_dict tame_print
  tame_set_workbook tame_set_worksheet tame_get_workbook
  tame_get_worksheet_attr tame_get_worksheet_item
  tame_new_Workbook tame_active_sheet tame_update_sheet tame_create_sheet
  tame_sheet_append tame_save tame_for_each tame_for_fold tame_for_map : tame.

(** Splits a sequence of statements and closes the primitive steps. *)
Ltac tame_steps :=
  repeat first
    [ solve [unfold sheet_set_title; auto with tame]
    | apply tame_for_each; intros ?
    | apply tame_for_fold; intros ? ?
    | apply tame_for_map; intros ?
    | match goal with |- tame (if ?b then _ else _) => destruct b end
    | apply tame_bind; [|intros ?] ].

Lemma tame_create_workbook : tame create_workbook.
Proof. unfold create_workbook. tame_steps. Qed.

Lemma tame_style_header : tame style_header.
Proof. unfold style_header. tame_steps. Qed.

Lemma tame_auto_adjust_column_width : tame auto_adjust_column_width.
Proof. unfold auto_adjust_column_width. tame_steps. Qed.

#[local] Hint Resolve tame_create_workbook tame_style_header
  tame_auto_adjust_column_width : tame.

Lemma tame_collect_keys fl : tame (collect_keys fl).
Proof. unfold collect_keys. tame_steps. Qed.

#[local] Hint Resolve tame_collect_keys : tame.

Lemma guarded_keeps_heap {A} l (body : list loc -> M A) s :
  (forall fl, tame (body fl)) ->
  st_heap (snd (guarded l body s)) = st_heap s.
Proof.
  intros Hb. unfold guarded, bind.
  destruct (tame_load_list l s) as [Hh _].
  destruct (load_list l s) as [[fl|e] s1]; simpl in *; [|assumption].
  case_decide; simpl; [assumption|].
  destruct (Hb fl s1) as [Hh' _]. congruence.
Qed.

Lemma guarded_empty {A} l (body : list loc -> M A) s :
  st_heap s !! l = Some (OList []) ->
  guarded l body s = (Raised no_features, s).
Proof.
  intros Hl. unfold guarded, bind, load_list. rewrite Hl. reflexivity.
Qed.

Lemma guarded_nonempty {A} l (body : list loc -> M A) s fl :
  st_heap s !! l = Some (OList fl) -> fl <> [] ->
  guarded l body s = body fl s.
Proof.
  intros Hl Hne. unfold guarded, bind, load_list. rewrite Hl.
  rewrite decide_False by assumption. reflexivity.
Qed.

Lemma export_single_image_keeps_heap `{Openpyxl} l path s :
  st_heap (snd (export_single_image l path s)) = st_heap s.
Proof.
  assert (T : tame (export_single_image l path)).
  { unfold export_single_image. tame_steps. }
  apply T.
Qed.

Lemma export_multiple_images_guarded `{Openpyxl} l path :
  exists body, (forall fl, tame (body fl)) /\
               export_multiple_images l path = guarded l body.
Proof.
  eexists. split; [|reflexivity]. intros fl. cbv beta. tame_steps.
Qed.

Section SummaryFrame.
Context `{Openpyxl} `{PyArith}.

Lemma tame_mean_of key fl : tame (mean_of key fl).
Proof.
  unfold mean_of. tame_steps; apply tame_lift; intros e.
  - apply py_sum_raises.
  - apply py_truediv_raises.
Qed.

Lemma tame_round x : tame (lift (py_round x 2)).
Proof. apply tame_lift. intros e. apply py_round_raises. Qed.

#[local] Hint Resolve tame_mean_of tame_round : tame.

Lemma export_with_summary_guarded l path :
  exists body, (forall fl, tame (body fl)) /\
               export_with_summary l path = guarded l body.
Proof.
  eexists. split; [|reflexivity]. intros fl. cbv beta. tame_steps.
Qed.

End SummaryFrame.

Local Open Scope list_scope.

(** ** Cells and sheets *)

Lemma cell_value_storable `{Openpyxl} v :
  storable v = true -> cell_value v = Ok (stored v).
Proof.
  destruct v as [|t|z|x]; simpl; try reflexivity.
  unfold check_string. destruct (has_illegal _); [discriminate | reflexivity].
Qed.

Lemma cell_value_refused `{Openpyxl} v :
  storable v = false -> exists e, cell_value v = Raised e.
Proof.
  destruct v as [|t|z|x]; simpl; try discriminate.
  unfold check_string. destruct (has_illegal _); [eauto | discriminate].
Qed.

Lemma bind_cells_storable `{Openpyxl} row :
  forallb storable row = true -> bind_cells row = (map stored row, None).
Proof.
  induction row as [|v row IH]; simpl; [reflexivity|].
  intros Hrow. apply andb_prop in Hrow as [Hv Hrow].
  rewrite (cell_value_storable v Hv), (IH Hrow). reflexivity.
Qed.

Lemma bind_cells_refused `{Openpyxl} row :
  forallb storable row = false -> exists cells e, bind_cells row = (cells, Some e).
Proof.
  induction row as [|v row IH]; simpl; [discriminate|].
  destruct (storable v) eqn:Hv; simpl.
  - intros Hrow. destruct (IH Hrow) as (cells & e & ->).
    rewrite (cell_value_storable v Hv). eauto.
  - intros _. destruct (cell_value_refused v Hv) as [e ->]. eauto.
Qed.

(** Below the last row, cells make a new row. *)
Lemma put_cells_next rows cells :
  cells <> [] -> put_cells rows (length rows) cells = rows ++ [cells].
Proof.
  intros Hne. unfold put_cells. destruct cells as [|c cells]; [congruence|].
  replace (S (length rows) - length rows)%nat with 1%nat by lia.
  cbn [replicate].
  rewrite lookup_total_app_r by lia. rewrite Nat.sub_diag.
  rewrite insert_app_r_alt by lia. rewrite Nat.sub_diag.
  cbn. rewrite ?drop_nil, ?app_nil_r. reflexivity.
Qed.

Lemma foldl_put_rows id title hs wf rows : forall rows0,
  Forall (fun row => row <> []) rows ->
  foldl (fun ws cells => ws_put cells true ws)
        (Worksheet id title rows0 (length rows0) hs wf) rows
  = Worksheet id title (rows0 ++ rows) (length (rows0 ++ rows)) hs wf.
Proof.
  induction rows as [|row rows IH]; intros rows0 Hrows; cbn [foldl].
  - rewrite app_nil_r. reflexivity.
  - apply Forall_cons in Hrows as [Hrow Hrows].
    unfold ws_put at 2. cbn [ws_id ws_title ws_rows ws_current_row
                              ws_header_styled ws_widths_fitted].
    rewrite (put_cells_next rows0 row Hrow).
    replace (S (length rows0)) with (length (rows0 ++ [row]))
      by (rewrite length_app; simpl; lia).
    rewrite (IH _ Hrows), <- app_assoc. reflexivity.
Qed.

Lemma max_column_rectangular (rows : list (list value)) m :
  rows <> [] -> (0 < m)%nat -> Forall (fun row => length row = m) rows ->
  max_column rows = m.
Proof.
  intros Hne Hm Hrows. unfold max_column.
  assert (E : foldr Nat.max 0%nat (map length rows) = m).
  { destruct rows as [|row rows]; [congruence|]. clear Hne.
    apply Forall_cons in Hrows as [Hrow Hrows]. cbn [map foldr]. rewrite Hrow.
    induction Hrows as [|r rs Hr _ IH]; cbn [map foldr]; [lia|].
    rewrite Hr. lia. }
  rewrite E. lia.
Qed.

Lemma pad_full m (row : list value) : length row = m -> pad m row = row.
Proof.
  intros <-. unfold pad. rewrite Nat.sub_diag. apply app_nil_r.
Qed.

Lemma map_pad_full m (rows : list (list value)) :
  Forall (fun row => length row = m) rows -> map (pad m) rows = rows.
Proof.
  induction 1 as [|r rs Hr _ IH]; [reflexivity|].
  cbn [map]. rewrite (pad_full m r Hr), IH. reflexivity.
Qed.

(** Rows of one width, put on an empty sheet, are the rows of the sheet;
    the two passes find every cell in place. *)
Lemma laid_out_rectangular id title (rows : list (list value)) m :
  rows <> [] -> (0 < m)%nat -> Forall (fun row => length row = m) rows ->
  laid_out id title rows = Worksheet id title rows (length rows) true true.
Proof.
  intros Hne Hm Hrows. unfold laid_out.
  assert (E := foldl_put_rows id title false false rows []).
  cbn [length app] in E. rewrite E.
  2:{ eapply Forall_impl; [exact Hrows|]. intros row Hrow ->. simpl in Hrow. lia. }
  unfold ws_style, ws_fit.
  cbn [ws_id ws_title ws_rows ws_current_row ws_header_styled ws_widths_fitted].
  rewrite (max_column_rectangular rows m Hne Hm Hrows).
  destruct rows as [|row rest]; [congruence|].
  pose proof Hrows as Hall. apply Forall_cons in Hrows as [Hrow Hrest].
  rewrite (pad_full m row Hrow).
  rewrite (max_column_rectangular (row :: rest) m Hne Hm Hall).
  cbn [length Nat.max].
  rewrite (map_pad_full m _ Hall). reflexivity.
Qed.

Lemma table_rows_width recs cols :
  Forall (fun row => length row = length cols) (table_rows recs cols).
Proof.
  unfold table_rows. constructor.
  - rewrite !length_map. reflexivity.
  - apply Forall_forall. intros row Hrow.
    apply list_elem_of_fmap in Hrow as (d & -> & _).
    unfold row_of. rewrite !length_map. reflexivity.
Qed.

(** The table of records that have a key between them. *)
Lemma table_sheet id title recs cols :
  cols <> [] ->
  laid_out id title (table_rows recs cols)
  = Worksheet id title (table_rows recs cols) (S (length recs)) true true.
Proof.
  intros Hcols.
  rewrite (laid_out_rectangular id title (table_rows recs cols) (length cols)).
  - unfold table_rows. cbn [length]. rewrite length_map. reflexivity.
  - discriminate.
  - destruct cols; [congruence | simpl; lia].
  - apply table_rows_width.
Qed.


(** ** Running the exporter on a heap of records *)

Lemma bind_run {A B} (m : M A) (k : A -> M B) s a s1 r :
  m s = (Ok a, s1) -> k a s1 = r -> bind m k s = r.
Proof. intros Hm Hk. unfold bind. rewrite Hm. exact Hk. Qed.

Lemma bind_raised {A B} (m : M A) (k : A -> M B) s e s1 :
  m s = (Raised e, s1) -> bind m k s = (Raised e, s1).
Proof. intros Hm. unfold bind. rewrite Hm. reflexivity. Qed.

Lemma load_list_run s l fl :
  st_heap s !! l = Some (OList fl) -> load_list l s = (Ok fl, s).
Proof. intros Hl. unfold load_list. rewrite Hl. reflexivity. Qed.

Lemma load_dict_run s l d :
  deref_dict (st_heap s) l = Some d -> load_dict l s = (Ok d, s).
Proof.
  unfold deref_dict, load_dict.
  destruct (st_heap s !! l) as [[fl|d']|]; try discriminate.
  intros [= ->]. reflexivity.
Qed.

Lemma for_fold_keys_run s fl recs (acc : gset string) :
  mapM (deref_dict (st_heap s)) fl = Some recs ->
  for_fold fl acc (fun all_keys features =>
    let! d := load_dict features in
    ret (all_keys ∪ list_to_set (dict_keys d))) s
  = (Ok (foldl (fun acc d => acc ∪ list_to_set (dict_keys d)) acc recs), s).
Proof.
  rewrite mapM_Some. intros HF. revert acc.
  induction HF as [|r d fl recs Hd HF IH]; intros acc; simpl; [reflexivity|].
  eapply bind_run.
  - eapply bind_run; [apply load_dict_run, Hd | reflexivity].
  - apply IH.
Qed.

Lemma collect_keys_run s fl recs :
  mapM (deref_dict (st_heap s)) fl = Some recs ->
  collect_keys fl s = (Ok (key_union recs), s).
Proof. apply for_fold_keys_run. Qed.

Lemma mapM_fmap_Some {A B C} (item : A -> option B) (g : B -> C) xs ys :
  mapM item xs = Some ys ->
  mapM (fun x => g <$> item x) xs = Some (map g ys).
Proof.
  rewrite !mapM_Some. intros HF.
  induction HF as [|x y xs ys E HF IH]; simpl; constructor; auto.
  rewrite E. reflexivity.
Qed.


(** A loop whose every round appends one row to a sheet held in the
    state: when a cell takes every value, the rows are in the sheet
    afterwards. *)
Lemma for_each_run {A} (item : A -> option (list value))
      (St : worksheet_t -> state) (body : A -> M unit) id xs rows :
  mapM item xs = Some rows ->
  forallb (forallb storable) rows = true ->
  (forall x row ws, ws_id ws = id -> item x = Some row ->
                    forallb storable row = true ->
                    body x (St ws) = (Ok tt, St (ws_put (map stored row) true ws))) ->
  forall ws, ws_id ws = id ->
    for_each xs body (St ws)
    = (Ok tt, St (foldl (fun ws cells => ws_put cells true ws) ws
                        (map (map stored) rows))).
Proof.
  rewrite mapM_Some. intros HF Hrows Hbody.
  induction HF as [|x row xs rows Hx HF IH]; intros ws Hid; simpl; [reflexivity|].
  simpl in Hrows. apply andb_prop in Hrows as [Hrow Hrows].
  eapply bind_run; [apply Hbody; [exact Hid | exact Hx | exact Hrow]|].
  apply IH; [exact Hrows | exact Hid].
Qed.

(** When a cell refuses a value of some row, the loop raises. *)
Lemma for_each_refused {A} (item : A -> option (list value))
      (St : worksheet_t -> state) (body : A -> M unit) id xs rows :
  mapM item xs = Some rows ->
  forallb (forallb storable) rows = false ->
  (forall x row ws, ws_id ws = id -> item x = Some row ->
                    forallb storable row = true ->
                    body x (St ws) = (Ok tt, St (ws_put (map stored row) true ws))) ->
  (forall x row ws, item x = Some row -> forallb storable row = false ->
                    exists e s', body x (St ws) = (Raised e, s')) ->
  forall ws, ws_id ws = id ->
    exists e s', for_each xs body (St ws) = (Raised e, s').
Proof.
  rewrite mapM_Some. intros HF Hrows Hgood Hbad.
  induction HF as [|x row xs rows Hx HF IH]; intros ws Hid; simpl; [discriminate|].
  simpl in Hrows. destruct (forallb storable row) eqn:Hrow.
  - destruct (IH Hrows (ws_put (map stored row) true ws) Hid) as (e & s' & Hrun).
    exists e, s'.
    eapply bind_run; [apply Hgood; [exact Hid | exact Hx | exact Hrow]|].
    exact Hrun.
  - destruct (Hbad x row ws Hx Hrow) as (e & s' & Hrun).
    exists e, s'. apply bind_raised, Hrun.
Qed.


Lemma update_sheet_one h w id ws files out fresh f :
  ws_id ws = id ->
  update_sheet id f (one_sheet h w ws files out fresh)
  = (Ok tt, one_sheet h w (f ws) files out fresh).
Proof.
  intros Hid. unfold update_sheet, one_sheet, set_workbook, set_self; simpl.
  rewrite decide_True by exact Hid. reflexivity.
Qed.

Lemma sheet_append_one `{Openpyxl} h w id ws files out fresh row :
  ws_id ws = id ->
  forallb storable row = true ->
  sheet_append id row (one_sheet h w ws files out fresh)
  = (Ok tt, one_sheet h w (ws_put (map stored row) true ws) files out fresh).
Proof.
  intros Hid Hrow. unfold sheet_append. rewrite (bind_cells_storable row Hrow).
  apply update_sheet_one, Hid.
Qed.

Lemma sheet_append_refused `{Openpyxl} id row s :
  forallb storable row = false ->
  exists e s', sheet_append id row s = (Raised e, s').
Proof.
  intros Hrow. unfold sheet_append.
  destruct (bind_cells_refused row Hrow) as (cells & e & ->).
  unfold bind, raise.
  destruct (update_sheet id (ws_put cells false) s) as [[[]|e'] s'] eqn:Hu; eauto.
Qed.

Lemma get_worksheet_one e h id ws files out fresh :
  get_worksheet e (one_sheet h (Some id) ws files out fresh)
  = (Ok id, one_sheet h (Some id) ws files out fresh).
Proof. reflexivity. Qed.

Lemma create_workbook_run h self files out fresh :
  create_workbook (State h self files out fresh)
  = (Ok tt, one_sheet h (Some fresh)
                      (Worksheet fresh "Image Features" [] 0 false false)
                      files out (S fresh)).
Proof.
  unfold create_workbook, sheet_set_title, update_sheet, bind; simpl.
  rewrite decide_True by reflexivity. reflexivity.
Qed.

Lemma style_header_one h id ws files out fresh :
  ws_id ws = id ->
  style_header (one_sheet h (Some id) ws files out fresh)
  = (Ok tt, one_sheet h (Some id) (ws_style ws) files out fresh).
Proof.
  intros Hid. unfold style_header. eapply bind_run; [apply get_worksheet_one|].
  apply update_sheet_one, Hid.
Qed.

Lemma auto_adjust_one h id ws files out fresh :
  ws_id ws = id ->
  auto_adjust_column_width (one_sheet h (Some id) ws files out fresh)
  = (Ok tt, one_sheet h (Some id) (ws_fit ws) files out fresh).
Proof.
  intros Hid. unfold auto_adjust_column_width.
  eapply bind_run; [apply get_worksheet_one|].
  apply update_sheet_one, Hid.
Qed.

Lemma ws_id_foldl_put ws rows :
  ws_id (foldl (fun ws cells => ws_put cells true ws) ws rows) = ws_id ws.
Proof.
  revert ws. induction rows as [|row rows IH]; intros ws; [reflexivity|].
  cbn [foldl]. rewrite IH. reflexivity.
Qed.

(** The step that saves and reports: what the disk answers decides. *)
Lemma save_print_run `{Openpyxl} h wb w files out fresh path line :
  (save path >> print line) (State h (Exporter (Some wb) w) files out fresh)
  = match write_file path wb files with
    | (Ok _, files') =>
        (Ok tt, State h (Exporter (Some wb) w) files' (out ++ [line]) fresh)
    | (Raised e, files') =>
        (Raised e, State h (Exporter (Some wb) w) files' out fresh)
    end.
Proof.
  unfold save, bind, get_workbook, print. cbn.
  destruct (write_file path wb files) as [[[]|e] files']; reflexivity.
Qed.

(** A table export whose every cell takes its value gets as far as
    saving the workbook it built. *)
Lemma export_multiple_images_built `{Openpyxl} s l fl recs path :
  st_heap s !! l = Some (OList fl) ->
  mapM (deref_dict (st_heap s)) fl = Some recs ->
  fl <> [] ->
  table_storable recs (columns_of recs) = true ->
  export_multiple_images l path s
  = (save path >> print ("Excel file saved successfully: " ++ path)%string)
      (State (st_heap s)
             (Exporter (Some (table_book (st_fresh s) recs)) (Some (st_fresh s)))
             (st_files s) (st_stdout s) (S (st_fresh s))).
Proof.
  intros Hl Hrecs Hne Hok. destruct s as [h self files out fresh].
  cbn [st_heap st_fresh st_files st_stdout] in *.
  apply andb_prop in Hok as [Hhead Hrows].
  unfold export_multiple_images.
  eapply bind_run; [apply load_list_run, Hl|]. cbv beta.
  rewrite decide_False by assumption.
  eapply bind_run; [apply create_workbook_run|].
  eapply bind_run; [apply collect_keys_run, Hrecs|]. cbv beta zeta.
  fold (columns_of recs).
  eapply bind_run.
  { eapply bind_run; [apply get_worksheet_one|].
    apply sheet_append_one; [reflexivity | exact Hhead]. }
  eapply bind_run.
  { apply (for_each_run (fun r => row_of (columns_of recs) <$> deref_dict h r)
                        (fun ws => one_sheet h (Some fresh) ws files out (S fresh))
                        _ fresh fl (map (row_of (columns_of recs)) recs)).
    - apply mapM_fmap_Some, Hrecs.
    - exact Hrows.
    - intros r row ws Hid Hr Hrow.
      destruct (deref_dict h r) as [d|] eqn:Hd; [|discriminate].
      injection Hr as <-.
      eapply bind_run; [apply load_dict_run, Hd|].
      eapply bind_run; [apply get_worksheet_one|].
      apply sheet_append_one; [exact Hid | exact Hrow].
    - reflexivity. }
  eapply bind_run; [apply style_header_one, ws_id_foldl_put|].
  eapply bind_run; [apply auto_adjust_one; cbn [ws_style ws_id];
                    apply ws_id_foldl_put|].
  unfold table_book, laid_out, table_rows. rewrite !map_map. reflexivity.
Qed.


(** A table export that returns has found every cell willing and the
    disk too. *)
Lemma export_multiple_images_returned `{Openpyxl} s l fl recs path s' :
  st_heap s !! l = Some (OList fl) ->
  mapM (deref_dict (st_heap s)) fl = Some recs ->
  fl <> [] ->
  export_multiple_images l path s = (Ok tt, s') ->
  table_storable recs (columns_of recs) = true
  /\ s' = exported s (table_book (st_fresh s) recs) (st_fresh s) path
                   ("Excel file saved successfully: " ++ path)%string
                   (S (st_fresh s)).
Proof.
  intros Hl Hrecs Hne Hrun.
  destruct (table_storable recs (columns_of recs)) eqn:Hok.
  - split; [reflexivity|].
    rewrite (export_multiple_images_built s l fl recs path Hl Hrecs Hne Hok) in Hrun.
    rewrite save_print_run in Hrun.
    destruct (write_file path _ (st_files s)) as [[[]|e] files'] eqn:Hw;
      [|discriminate].
    injection Hrun as <-. rewrite (write_file_ok _ _ _ _ Hw). reflexivity.
  - exfalso. destruct s as [h self files out fresh].
    cbn [st_heap st_fresh st_files st_stdout] in *.
    assert (R : exists e s1, export_multiple_images l path
                               (State h self files out fresh) = (Raised e, s1)).
    { unfold export_multiple_images.
      unfold table_storable in Hok.
      destruct (forallb storable (map VStr (columns_of recs))) eqn:Hhead;
        cbn [andb] in Hok.
      - destruct (for_each_refused
                    (fun r => row_of (columns_of recs) <$> deref_dict h r)
                    (fun ws => one_sheet h (Some fresh) ws files out (S fresh))
                    (fun features =>
                       let! d := load_dict features in
                       let! ws := get_worksheet (no_attribute "append") in
                       sheet_append ws (row_of (columns_of recs) d))
                    fresh fl (map (row_of (columns_of recs)) recs)
                    (mapM_fmap_Some _ _ _ _ Hrecs) Hok)
          with (ws := ws_put (map stored (map VStr (columns_of recs))) true
                        (Worksheet fresh "Image Features" [] 0 false false))
          as (e & s1 & Hloop).
        + intros r row ws Hid Hr Hrow.
          destruct (deref_dict h r) as [d|] eqn:Hd; [|discriminate].
          injection Hr as <-.
          eapply bind_run; [apply load_dict_run, Hd|].
          eapply bind_run; [apply get_worksheet_one|].
          apply sheet_append_one; [exact Hid | exact Hrow].
        + intros r row ws Hr Hrow.
          destruct (deref_dict h r) as [d|] eqn:Hd; [|discriminate].
          injection Hr as <-.
          destruct (sheet_append_refused fresh (row_of (columns_of recs) d)
                      (one_sheet h (Some fresh) ws files out (S fresh)) Hrow)
            as (e & s1 & Ha).
          exists e, s1.
          eapply bind_run; [apply load_dict_run, Hd|].
          eapply bind_run; [apply get_worksheet_one|]. exact Ha.
        + reflexivity.
        + exists e, s1.
          eapply bind_run; [apply load_list_run, Hl|]. cbv beta.
          rewrite decide_False by assumption.
          eapply bind_run; [apply create_workbook_run|].
          eapply bind_run; [apply collect_keys_run, Hrecs|]. cbv beta zeta.
          fold (columns_of recs).
          eapply bind_run.
          { eapply bind_run; [apply get_worksheet_one|].
            apply sheet_append_one; [reflexivity | exact Hhead]. }
          apply bind_raised. exact Hloop.
      - destruct (sheet_append_refused fresh (map VStr (columns_of recs))
                    (one_sheet h (Some fresh)
                       (Worksheet fresh "Image Features" [] 0 false false)
                       files out (S fresh)) Hhead) as (e & s1 & Ha).
        exists e, s1.
        eapply bind_run; [apply load_list_run, Hl|]. cbv beta.
        rewrite decide_False by assumption.
        eapply bind_run; [apply create_workbook_run|].
        eapply bind_run; [apply collect_keys_run, Hrecs|]. cbv beta zeta.
        fold (columns_of recs).
        apply bind_raised.
        eapply bind_run; [apply get_worksheet_one|]. exact Ha. }
    destruct R as (e & s1 & R). rewrite R in Hrun. discriminate.
Qed.

(** ** Dictionaries and column names *)



(** Assignment behaves as on a Python [dict]: the key reads back the new
    value, other keys are untouched, a known key keeps its place and a new
    key goes to the end, and no key is ever held twice. *)
Lemma dict_get_set d k v k' :
  dict_get (dict_set d k v) k' = if decide (k = k') then Some v else dict_get d k'.
Proof.
  induction d as [|[k0 v0] d IH]; simpl.
  - repeat case_decide; congruence.
  - destruct (decide (k0 = k)) as [->|Hne]; simpl.
    + repeat case_decide; congruence.
    + rewrite IH. repeat case_decide; congruence.
Qed.

Lemma dict_keys_set d k v :
  dict_keys (dict_set d k v)
  = if decide (k ∈ dict_keys d) then dict_keys d else dict_keys d ++ [k].
Proof.
  induction d as [|[k0 v0] d IH]; simpl.
  - reflexivity.
  - destruct (decide (k0 = k)) as [->|Hne]; simpl.
    + rewrite decide_True by left. reflexivity.
    + rewrite IH. destruct (decide (k ∈ dict_keys d)) as [Hin|Hout].
      * rewrite decide_True by (right; assumption). reflexivity.
      * rewrite decide_False; [reflexivity|].
        intros Hin. apply elem_of_cons in Hin as [?|?]; congruence.
Qed.

Lemma dict_set_wf d k v : dict_wf d -> dict_wf (dict_set d k v).
Proof.
  unfold dict_wf. rewrite dict_keys_set. intros Hwf.
  case_decide as Hin; [assumption|].
  apply NoDup_app. split; [assumption|]. split.
  - intros x Hx Hk. apply list_elem_of_singleton in Hk as ->. contradiction.
  - apply NoDup_singleton.
Qed.

Lemma foldl_keys_elem (recs : list dict) (acc : gset string) k :
  k ∈ foldl (fun acc d => acc ∪ list_to_set (dict_keys d)) acc recs
  <-> k ∈ acc \/ exists d, d ∈ recs /\ k ∈ dict_keys d.
Proof.
  revert acc. induction recs as [|d recs IH]; intros acc; simpl.
  - split; [auto | intros [?|(d & Hd & _)]; [assumption | inversion Hd]].
  - rewrite IH, elem_of_union, elem_of_list_to_set. split.
    + intros [[?|?]|(d' & Hd' & Hk)]; [auto | right; exists d | right; exists d'];
        split; auto; [left | right; assumption].
    + intros [?|(d' & Hd' & Hk)]; [auto|].
      apply elem_of_cons in Hd' as [->|Hd']; [auto | right; eauto].
Qed.

Lemma key_union_elem recs k :
  k ∈ key_union recs <-> exists d, d ∈ recs /\ k ∈ dict_keys d.
Proof.
  unfold key_union. rewrite foldl_keys_elem. split; [|auto].
  intros [Hk|?]; [|assumption]. apply not_elem_of_empty in Hk. destruct Hk.
Qed.

Lemma columns_of_elem recs k :
  k ∈ columns_of recs <-> exists d, d ∈ recs /\ k ∈ dict_keys d.
Proof.
  unfold columns_of, sorted.
  rewrite merge_sort_Permutation, elem_of_elements. apply key_union_elem.
Qed.

Lemma columns_of_sorted_union recs : sorted_union (columns_of recs) recs.
Proof.
  split; [|split].
  - apply (Sorted_merge_sort String.le).
  - unfold columns_of, sorted. rewrite merge_sort_Permutation. apply NoDup_elements.
  - apply columns_of_elem.
Qed.

(** One list of records has one sorted union: which stable or unstable
    sorting procedure produced it does not matter. *)
Lemma sorted_union_unique cols cols' recs :
  sorted_union cols recs -> sorted_union cols' recs -> cols = cols'.
Proof.
  intros (S1 & N1 & E1) (S2 & N2 & E2).
  apply (Sorted_unique String.le); [assumption..|].
  apply NoDup_Permutation; [assumption..|].
  intros k. rewrite E1, E2. reflexivity.
Qed.


Lemma records_of_Some h l recs :
  records_of h l = Some recs ->
  exists fl, h !! l = Some (OList fl) /\ mapM (deref_dict h) fl = Some recs
             /\ length fl = length recs.
Proof.
  unfold records_of, deref_list.
  destruct (h !! l) as [[fl|d]|]; try discriminate.
  intros Hm. exists fl. split; [reflexivity|]. split; [assumption|].
  apply mapM_Some in Hm. eapply Forall2_length, Hm.
Qed.

Lemma nonempty_length {A B} (xs : list A) (ys : list B) :
  length xs = length ys -> ys <> [] -> xs <> [].
Proof. destruct xs, ys; simpl; congruence. Qed.

(** ** Multi-record export *)











(** The table of the specification's scenario, computed. *)
Example multi_export_scenario :
  saved_sheet (snd (@export_multiple_images desk 1%positive "out.xlsx"
                      Demo.start))
              "out.xlsx" 0
  = Some (Worksheet 0 "Image Features"
            [[VStr "avg_brightness"; VStr "height"; VStr "width"];
             [VInt 10; VInt 50; VInt 100];
             [VStr ""; VInt 100; VInt 200]] 3 true true).
Proof. vm_compute. reflexivity. Qed.


(** The same list on a disk that refuses the file: the table is built,
    saving raises, and nothing is at the path. *)
Example table_on_a_read_only_disk :
  fst (@export_multiple_images desk 1%positive "/readonly/out.xlsx" Demo.start)
  = Raised (Exn (OtherError "PermissionError")
                "[Errno 13] Permission denied: '/readonly/out.xlsx'")
  /\ st_files (snd (@export_multiple_images desk 1%positive "/readonly/out.xlsx"
                      Demo.start)) = ∅.
Proof. split; vm_compute; reflexivity. Qed.

(** Records without any key: every [append] is given an empty row and
    creates no cell; styling the header then creates the one empty cell
    the sheet is saved with. *)
Example table_of_empty_records :
  saved_sheet
    (snd (@export_multiple_images desk 1%positive "out.xlsx"
            (State (<[1%positive := OList [2; 2]%positive]>
                      (<[2%positive := ODict []]> ∅))
                   (Exporter None None) ∅ [] 0)))
    "out.xlsx" 0
  = Some (Worksheet 0 "Image Features" [[VNone]] 3 true true).
Proof. vm_compute. reflexivity. Qed.

(** ** Empty input *)

(** C4.  Given an empty list, [export_multiple_images] and
    [export_with_summary] raise [ValueError("No features to export")] and
    leave the whole state as it was: no workbook has been created, no file
    written.  Given a non-empty list, neither raises that error. *)
Theorem empty_input_error `{Openpyxl} `{PyArith} s l recs path :
  records_of (st_heap s) l = Some recs ->
  (recs = [] ->
   export_multiple_images l path s = (Raised no_features, s)
   /\ export_with_summary l path s = (Raised no_features, s))
  /\ (recs <> [] ->
      fst (export_multiple_images l path s) <> Raised no_features
      /\ fst (export_with_summary l path s) <> Raised no_features).
Proof.
  intros Hrecs. apply records_of_Some in Hrecs as (fl & Hl & _ & Hlen).
  destruct (export_multiple_images_guarded l path) as (body1 & T1 & ->).
  destruct (export_with_summary_guarded l path) as (body2 & T2 & ->).
  split.
  - intros ->. destruct fl; [|discriminate].
    split; apply guarded_empty, Hl.
  - intros Hne. pose proof (nonempty_length _ _ Hlen Hne) as Hfl.
    rewrite !(guarded_nonempty l _ s fl Hl Hfl).
    split; [apply T1 | apply T2].
Qed.

Lemma empty_input_error_witness :
  records_of (st_heap Demo.start) 6%positive = Some []
  /\ ((@nil dict = [] ->
       @export_multiple_images desk 6%positive "out.xlsx" Demo.start
       = (Raised no_features, Demo.start)
       /\ @export_with_summary desk binary64_arith 6%positive "out.xlsx"
            Demo.start
          = (Raised no_features, Demo.start))
      /\ (@nil dict <> [] ->
          fst (@export_multiple_images desk 6%positive "out.xlsx" Demo.start)
          <> Raised no_features
          /\ fst (@export_with_summary desk binary64_arith 6%positive "out.xlsx"
                    Demo.start)
             <> Raised no_features)).
Proof.
  split; [reflexivity|].
  apply (@empty_input_error desk binary64_arith Demo.start 6%positive []
           "out.xlsx").
  reflexivity.
Defined.

(** ** The caller's objects *)

(** C10.  Whatever the arguments and whether or not it raises, each of
    the three exports ends with every object of the caller (the list of
    records and each record) exactly as it found it. *)
Theorem exports_keep_input `{Openpyxl} `{PyArith} s l path :
  st_heap (snd (export_single_image l path s)) = st_heap s
  /\ st_heap (snd (export_multiple_images l path s)) = st_heap s
  /\ st_heap (snd (export_with_summary l path s)) = st_heap s.
Proof.
  split; [apply export_single_image_keeps_heap|].
  destruct (export_multiple_images_guarded l path) as (body1 & T1 & ->).
  destruct (export_with_summary_guarded l path) as (body2 & T2 & ->).
  split; apply guarded_keeps_heap; assumption.
Qed.

(** ** Single-record export *)








(** ** Summary export *)






Section SummaryRun.
Context `{Openpyxl} `{PyArith}.





End SummaryRun.

Section SummaryClaims.
Context `{Openpyxl} `{PyArith}.








End SummaryClaims.



(** The summary of the specification's scenario, computed: the record
    without [avg_brightness] counts as 0, and (10 + 0) / 2 = 5.0. *)
Example summary_scenario :
  saved_sheet
    (snd (@export_with_summary desk binary64_arith 1%positive "out.xlsx"
            Demo.start))
    "out.xlsx" 0
  = Some (Worksheet 1 "Summary"
            [[VStr "Summary"; VStr ""];
             [VStr "Total Images Processed"; VInt 2];
             [VStr "Average Brightness"; VFloat five];
             [VStr "Average Width"; VFloat one_hundred_fifty];
             [VStr "Average Height"; VFloat seventy_five]] 5 true true).
Proof. vm_compute. reflexivity. Qed.



(** A text under an averaged key: the data sheet is built, [sum] raises
    [TypeError] when it reaches the text, and the file on disk stays as
    it was. *)
Example summary_of_text_brightness :
  fst (@export_with_summary desk binary64_arith 1%positive "out.xlsx"
         Office.start)
  = Raised (Exn TypeError "unsupported operand type(s) for +: 'int' and 'str'")
  /\ st_files (snd (@export_with_summary desk binary64_arith 1%positive
                      "out.xlsx" Office.start))
     = st_files Office.start.
Proof. split; vm_compute; reflexivity. Qed.

(** A disk that refuses the file: both sheets are built, saving raises,
    and nothing is at the path. *)
Example summary_on_a_read_only_disk :
  fst (@export_with_summary desk binary64_arith 1%positive
         "/readonly/out.xlsx" Demo.start)
  = Raised (Exn (OtherError "PermissionError")
                "[Errno 13] Permission denied: '/readonly/out.xlsx'")
  /\ st_files (snd (@export_with_summary desk binary64_arith 1%positive
                      "/readonly/out.xlsx" Demo.start)) = ∅.
Proof. split; vm_compute; reflexivity. Qed.

(** ** OCR text *)

Lemma extract_text_returns `{Vision} image_path :
  extract_text image_path
  = Ok (match (let? image := Image_open image_path in image_to_string image) with
        | Ok recognised => str_strip recognised
        | Raised e => ("Error extracting text: " ++ exn_str e)%string
        end).
Proof.
  unfold extract_text.
  destruct (let? image := Image_open image_path in image_to_string image);
    reflexivity.
Qed.

(** C8.  [extract_text] returns a text for every path and whatever the
    OCR libraries do: when opening the image or recognising it raises an
    exception, the text is [Error extracting text: ] followed by the
    exception's message; otherwise it is the recognised text, stripped. *)
Theorem extract_text_never_raises `{Vision} image_path :
  exists text,
    extract_text image_path = Ok text
    /\ (forall e,
          (let? image := Image_open image_path in image_to_string image)
          = Raised e ->
          text = ("Error extracting text: " ++ exn_str e)%string)
    /\ (forall recognised,
          (let? image := Image_open image_path in image_to_string image)
          = Ok recognised ->
          text = str_strip recognised).
Proof.
  eexists. split; [apply extract_text_returns|].
  split; intros ? ->; reflexivity.
Qed.

Example extract_text_ocr_failure :
  @extract_text bench_vision "scan.png"
  = Ok "Error extracting text: tesseract is not installed or it's not in your PATH".
Proof. reflexivity. Qed.

Example extract_text_missing_file :
  @extract_text bench_vision "nowhere.png"
  = Ok "Error extracting text: No such file or directory: nowhere.png".
Proof. reflexivity. Qed.

Example extract_text_stripped :
  @extract_text bench_vision "photo.png" = Ok "Hello".
Proof. reflexivity. Qed.

(** ** Image properties *)

Section Properties.
Context `{PyArith} `{Vision}.

(** What [get_image_properties] does once the image is decoded. *)
Lemma get_image_properties_decoded path image height width dims :
  imread path = Some image ->
  shape image = height :: width :: dims ->
  get_image_properties path
  = (let? file_size := getsize path in
     let? kb := py_truediv (VInt file_size) (VInt 1024) in
     let? file_size_kb := py_round kb 2 in
     let? ratio := py_truediv (VInt width) (VInt height) in
     let? aspect_ratio := py_round ratio 2 in
     Ok [("width", VInt width);
         ("height", VInt height);
         ("channels", VInt (match dims with c :: _ => c | [] => 1 end));
         ("file_size_kb", file_size_kb);
         ("aspect_ratio", aspect_ratio);
         ("total_pixels", VInt (width * height))]).
Proof.
  intros Himg Hshape. unfold get_image_properties, load_image.
  rewrite Himg. cbn [rbind]. rewrite Hshape. reflexivity.
Qed.

(** C6.  Either OpenCV does not decode the file at [path], as it does
    not decode a file whose height is 0, and [get_image_properties]
    raises the decode error of [load_image]; or the image has a height
    other than 0, the division [width / height] is by that height, and
    the record returned gives [round(width / height, 2)] as
    [aspect_ratio]: the call returns it whenever the file size can be
    read and the two divisions and roundings are defined, and every
    record it returns has it. *)
Theorem aspect_ratio_or_decode_error path :
  (imread path = None
   /\ get_image_properties path = Raised (could_not_load path))
  \/ (exists image height width dims,
        imread path = Some image
        /\ shape image = height :: width :: dims
        /\ height <> 0
        /\ (forall size kb file_size_kb ratio rounded,
              getsize path = Ok size ->
              py_truediv (VInt size) (VInt 1024) = Ok kb ->
              py_round kb 2 = Ok file_size_kb ->
              py_truediv (VInt width) (VInt height) = Ok ratio ->
              py_round ratio 2 = Ok rounded ->
              exists properties,
                get_image_properties path = Ok properties
                /\ dict_get properties "aspect_ratio" = Some rounded)
        /\ (forall properties,
              get_image_properties path = Ok properties ->
              exists ratio rounded,
                py_truediv (VInt width) (VInt height) = Ok ratio
                /\ py_round ratio 2 = Ok rounded
                /\ dict_get properties "aspect_ratio" = Some rounded)).
Proof.
  destruct (imread path) as [image|] eqn:Himg.
  - right. destruct (imread_shape path image Himg)
      as (height & width & dims & Hshape & Hheight & _).
    exists image, height, width, dims.
    split; [reflexivity|]. split; [exact Hshape|]. split; [lia|].
    rewrite (get_image_properties_decoded path image height width dims
               Himg Hshape).
    split.
    + intros size kb file_size_kb ratio rounded Hsize Hkb Hround Hratio Hrounded.
      rewrite Hsize. cbn [rbind]. rewrite Hkb. cbn [rbind].
      rewrite Hround. cbn [rbind]. rewrite Hratio. cbn [rbind].
      rewrite Hrounded. cbn [rbind].
      eexists. split; reflexivity.
    + intros properties.
      destruct (getsize path); [|discriminate]. cbn [rbind].
      destruct (py_truediv (VInt _) (VInt 1024)); [|discriminate]. cbn [rbind].
      destruct (py_round _ 2); [|discriminate]. cbn [rbind].
      destruct (py_truediv (VInt width) (VInt height)) as [ratio|] eqn:Hratio;
        [|discriminate]. cbn [rbind].
      destruct (py_round ratio 2) as [rounded|] eqn:Hrounded; [|discriminate].
      cbn [rbind]. intros [= <-]. exists ratio, rounded.
      split; [reflexivity|]. split; [exact Hrounded | reflexivity].
  - left. split; [reflexivity|].
    unfold get_image_properties, load_image. rewrite Himg. reflexivity.
Qed.

(** What a successful [get_image_properties] returns. *)
Lemma get_image_properties_inv path properties :
  get_image_properties path = Ok properties ->
  exists image height width dims channels file_size_kb aspect_ratio,
    imread path = Some image
    /\ shape image = height :: width :: dims
    /\ properties = [("width", VInt width);
                     ("height", VInt height);
                     ("channels", VInt channels);
                     ("file_size_kb", file_size_kb);
                     ("aspect_ratio", aspect_ratio);
                     ("total_pixels", VInt (width * height))].
Proof.
  unfold get_image_properties, load_image.
  destruct (imread path) as [image|]; [|discriminate]. simpl.
  destruct (shape image) as [|height [|width dims]] eqn:Hshape; try discriminate.
  simpl. destruct (getsize path); [|discriminate]. simpl.
  destruct (py_truediv _ _); [|discriminate]. simpl.
  destruct (py_round _ _); [|discriminate]. simpl.
  destruct (py_truediv _ _); [|discriminate]. simpl.
  destruct (py_round _ _); [|discriminate]. simpl.
  intros [= <-]. eexists image, height, width, dims, _, _, _.
  split; [reflexivity|]. split; [exact Hshape | reflexivity].
Qed.

End Properties.

Example aspect_ratio_of_photo :
  @get_image_properties binary64_arith bench_vision "photo.png"
  = Ok [("width", VInt 2); ("height", VInt 2); ("channels", VInt 3);
        ("file_size_kb", VFloat one_and_a_half);
        ("aspect_ratio", VFloat one);
        ("total_pixels", VInt 4)].
Proof. vm_compute. reflexivity. Qed.

(** A file OpenCV does not decode: the call ends with the [ValueError]
    of [load_image], before any division. *)
Example properties_of_an_undecodable_file :
  @get_image_properties binary64_arith bench_vision "strip.png"
  = Raised (Exn ValueError "Could not load image from strip.png").
Proof. vm_compute. reflexivity. Qed.

(** ** The extracted record *)

Lemma features_layout p t w h c tp f a b e :
  dict_set
    (dict_set
       (dict_update (dict_set (dict_set [] "image_path" p) "extracted_text" t)
                    [("width", w); ("height", h); ("channels", c);
                     ("file_size_kb", f); ("aspect_ratio", a);
                     ("total_pixels", tp)])
       "avg_brightness" b)
    "edge_count" e
  = [("image_path", p); ("extracted_text", t); ("width", w); ("height", h);
     ("channels", c); ("file_size_kb", f); ("aspect_ratio", a);
     ("total_pixels", tp); ("avg_brightness", b); ("edge_count", e)].
Proof. reflexivity. Qed.

Lemma add_colors_three `{Vision} p t w h c tp f a b e (v1 v2 v3 : list uint8) :
  add_colors
    [("image_path", p); ("extracted_text", t); ("width", w); ("height", h);
     ("channels", c); ("file_size_kb", f); ("aspect_ratio", a);
     ("total_pixels", tp); ("avg_brightness", b); ("edge_count", e)]
    0 [v1; v2; v3]
  = [("image_path", p); ("extracted_text", t); ("width", w); ("height", h);
     ("channels", c); ("file_size_kb", f); ("aspect_ratio", a);
     ("total_pixels", tp); ("avg_brightness", b); ("edge_count", e);
     ("dominant_color_1", VStr ("RGB" ++ str_tuple v1));
     ("dominant_color_2", VStr ("RGB" ++ str_tuple v2));
     ("dominant_color_3", VStr ("RGB" ++ str_tuple v3))].
Proof. reflexivity. Qed.

Lemma str_app_assoc (a b c : string) : ((a ++ b) ++ c = a ++ b ++ c)%string.
Proof.
  induction a as [|x a IH]; [reflexivity|].
  change (String x ((a ++ b) ++ c) = String x (a ++ b ++ c))%string.
  rewrite IH. reflexivity.
Qed.




Lemma uint8_of_float32_range x : 0 <= uint8_of_float32 x <= 255.
Proof.
  unfold uint8_of_float32. destruct x as [| | |s m e]; try lia.
  pose proof (Z.mod_pos_bound
                (if s
                 then - (if 0 <=? e then Z.pos m * 2 ^ e else Z.pos m / 2 ^ (- e))
                 else (if 0 <=? e then Z.pos m * 2 ^ e else Z.pos m / 2 ^ (- e)))
                256 ltac:(lia)).
  cbv zeta. lia.
Qed.

Section Features.
Context `{PyArith} `{Vision}.

(** What a successful [detect_dominant_colors] returns for three
    colours: three triples of [uint8] values. *)
Lemma detect_dominant_colors_inv path g colors g' :
  detect_dominant_colors path 3 g = (Ok colors, g') ->
  exists c1 c2 c3 c4 c5 c6 c7 c8 c9 : float32,
    colors = map (map uint8_of_float32) [[c1; c2; c3]; [c4; c5; c6]; [c7; c8; c9]].
Proof.
  unfold detect_dominant_colors.
  destruct (load_image path) as [image|]; [|discriminate]. simpl.
  destruct (cvtColor image COLOR_BGR2RGB) as [rgb|]; [|discriminate]. simpl.
  unfold reshape_rows. case_decide; [|discriminate]. simpl.
  unfold np_float32. cbn [shape data].
  destruct (kmeans g _ 3) as [[centers|e] g1] eqn:Hk; [|discriminate].
  intros [= <- <-].
  apply kmeans_centers in Hk as [Hshape Hlen].
  unfold row_tuples, np_uint8. cbn [shape data]. rewrite Hshape.
  destruct centers as [sh xs]; cbn [shape data] in *.
  change (Z.to_nat (3 * 3)) with 9%nat in Hlen.
  do 9 (destruct xs as [|? xs]; [discriminate|]).
  destruct xs; [|discriminate].
  eexists _, _, _, _, _, _, _, _, _. reflexivity.
Qed.

(** What a successful [extract_all_features] returns. *)
Lemma extract_all_features_inv path g rec g' :
  extract_all_features path g = (Ok rec, g') ->
  exists image text height width dims channels file_size_kb aspect_ratio
         brightness edges colors,
    imread path = Some image
    /\ shape image = height :: width :: dims
    /\ detect_dominant_colors path 3 g = (Ok colors, g')
    /\ rec = add_colors (base_features path text width height channels
                           file_size_kb aspect_ratio brightness edges)
                        0 colors.
Proof.
  unfold extract_all_features.
  rewrite extract_text_returns.
  set (text := match rbind _ _ with Ok t => str_strip t | Raised e => _ end).
  clearbody text. simpl.
  destruct (get_image_properties path) as [properties|] eqn:Hp; [|discriminate].
  apply get_image_properties_inv in Hp
    as (image & height & width & dims & channels & kb & ar & Himg & Hshape & ->).
  simpl rbind.
  destruct (calculate_brightness path) as [brightness|]; [|discriminate].
  simpl rbind.
  destruct (detect_edges path) as [edges|]; [|discriminate]. simpl rbind.
  cbv iota beta.
  destruct (detect_dominant_colors path 3 g) as [[colors|e] g1] eqn:Hc;
    [|discriminate].
  intros [= <- <-].
  exists image, text, height, width, dims, channels, kb, ar, brightness, edges,
    colors.
  split; [exact Himg|]. split; [exact Hshape|]. split; reflexivity.
Qed.

(** C7.  When the image at [path] decodes to a non-empty array and
    [extract_all_features] returns a record, the record's [width] and
    [height] are the positive dimensions of the array and its
    [total_pixels] is their product. *)
Theorem extracted_dimensions path g image rec g' :
  imread path = Some image ->
  valid_image image ->
  extract_all_features path g = (Ok rec, g') ->
  exists width height,
    dict_get rec "width" = Some (VInt width)
    /\ dict_get rec "height" = Some (VInt height)
    /\ dict_get rec "total_pixels" = Some (VInt (width * height))
    /\ 0 < width /\ 0 < height
    /\ exists dims, shape image = height :: width :: dims.
Proof.
  intros Himg (h & w & dims & Hshape & Hh & Hw) Hrun.
  apply extract_all_features_inv in Hrun
    as (image' & text & h' & w' & dims' & c & kb & ar & b & edges & colors
        & Himg' & Hshape' & Hcolors & ->).
  rewrite Himg in Himg'. injection Himg' as <-.
  rewrite Hshape in Hshape'. injection Hshape' as <- <- <-.
  apply detect_dominant_colors_inv in Hcolors
    as (c1 & c2 & c3 & c4 & c5 & c6 & c7 & c8 & c9 & ->).
  unfold base_features. simpl map. rewrite add_colors_three.
  exists w, h. repeat (split; [first [reflexivity | assumption]|]).
  exists dims. exact Hshape.
Qed.


End Features.

Example extract_photo :
  @extract_all_features binary64_arith bench_vision "photo.png" 0
  = (Ok photo_record, 1).
Proof. vm_compute. reflexivity. Qed.

(** An OCR failure ends up in the record as text; the record is still
    produced. *)
Example extract_scan :
  fst (@extract_all_features binary64_arith bench_vision "scan.png" 0)
  = Ok (dict_set (dict_set photo_record "image_path" (VStr "scan.png"))
          "extracted_text"
          (VStr "Error extracting text: tesseract is not installed or it's not in your PATH")).
Proof. vm_compute. reflexivity. Qed.

Lemma extracted_dimensions_witness :
  @imread bench_vision "photo.png" = Some Bench.photo
  /\ valid_image Bench.photo
  /\ @extract_all_features binary64_arith bench_vision "photo.png" 0
     = (Ok photo_record, 1)
  /\ exists width height,
       dict_get photo_record "width" = Some (VInt width)
       /\ dict_get photo_record "height" = Some (VInt height)
       /\ dict_get photo_record "total_pixels" = Some (VInt (width * height))
       /\ 0 < width /\ 0 < height
       /\ exists dims, shape Bench.photo = height :: width :: dims.
Proof.
  assert (V : valid_image Bench.photo).
  { exists 2, 2, [3]. split; [reflexivity|]. split; reflexivity. }
  split; [reflexivity|]. split; [exact V|].
  split; [vm_compute; reflexivity|].
  apply (@extracted_dimensions binary64_arith bench_vision "photo.png" 0
           Bench.photo photo_record 1);
    [reflexivity | exact V | vm_compute; reflexivity].
Defined.



(** ** Files: what the exports write *)

Lemma keeps_files_ret {A} (a : A) : keeps_files (ret a).
Proof. intros s. reflexivity. Qed.

Lemma keeps_files_raise {A} e : keeps_files (@raise A e).
Proof. intros s. reflexivity. Qed.

Lemma keeps_files_lift {A} (r : result A) : keeps_files (lift r).
Proof. intros s. reflexivity. Qed.

Lemma keeps_files_bind {A B} (m : M A) (k : A -> M B) :
  keeps_files m -> (forall a, keeps_files (k a)) -> keeps_files (bind m k).
Proof.
  intros Hm Hk s. unfold bind. specialize (Hm s).
  destruct (m s) as [[a|e] s1]; simpl in *; [|assumption].
  rewrite Hk. assumption.
Qed.

Lemma keeps_files_for_each {A} (xs : list A) (body : A -> M unit) :
  (forall x, keeps_files (body x)) -> keeps_files (for_each xs body).
Proof.
  intros Hb. induction xs as [|x xs IH]; simpl.
  - apply keeps_files_ret.
  - apply keeps_files_bind; auto.
Qed.

Lemma keeps_files_for_fold {A B} (xs : list A) (acc : B) (body : B -> A -> M B) :
  (forall b x, keeps_files (body b x)) -> keeps_files (for_fold xs acc body).
Proof.
  intros Hb. revert acc. induction xs as [|x xs IH]; intros acc; simpl.
  - apply keeps_files_ret.
  - apply keeps_files_bind; auto.
Qed.

Lemma keeps_files_for_map {A B} (xs : list A) (f : A -> M B) :
  (forall x, keeps_files (f x)) -> keeps_files (for_map xs f).
Proof.
  intros Hf. induction xs as [|x xs IH]; simpl.
  - apply keeps_files_ret.
  - apply keeps_files_bind; [auto|]. intros y.
    apply keeps_files_bind; [auto|]. intros ys. apply keeps_files_ret.
Qed.

Lemma keeps_files_load_list l : keeps_files (load_list l).
Proof.
  intros s. unfold load_list. destruct (st_heap s !! l) as [[?|?]|]; reflexivity.
Qed.

Lemma keeps_files_load_dict l : keeps_files (load_dict l).
Proof.
  intros s. unfold load_dict. destruct (st_heap s !! l) as [[?|?]|]; reflexivity.
Qed.

Lemma keeps_files_print line : keeps_files (print line).
Proof. intros s. reflexivity. Qed.

Lemma keeps_files_set_workbook wb : keeps_files (set_workbook wb).
Proof. intros s. reflexivity. Qed.

Lemma keeps_files_set_worksheet ws : keeps_files (set_worksheet ws).
Proof. intros s. reflexivity. Qed.

Lemma keeps_files_get_workbook e : keeps_files (get_workbook e).
Proof.
  intros s. unfold get_workbook. destruct (workbook (st_self s)); reflexivity.
Qed.

Lemma keeps_files_get_worksheet e : keeps_files (get_worksheet e).
Proof.
  intros s. unfold get_worksheet. destruct (worksheet (st_self s)); reflexivity.
Qed.

Lemma keeps_files_new_Workbook : keeps_files new_Workbook.
Proof. intros s. reflexivity. Qed.

Lemma keeps_files_active_sheet wb : keeps_files (active_sheet wb).
Proof.
  intros s. unfold active_sheet.
  destruct (wb_sheets wb !! wb_active wb); reflexivity.
Qed.

Lemma keeps_files_update_sheet id f : keeps_files (update_sheet id f).
Proof.
  intros s. unfold update_sheet. destruct (workbook (st_self s)); reflexivity.
Qed.

Lemma keeps_files_create_sheet title index : keeps_files (create_sheet title index).
Proof.
  apply keeps_files_bind; [apply keeps_files_get_workbook|].
  intros wb s. reflexivity.
Qed.

(** A row that is refused leaves its first cells in the sheet and no
    trace on disk. *)
Lemma keeps_files_sheet_append `{Openpyxl} id row :
  keeps_files (sheet_append id row).
Proof.
  unfold sheet_append. destruct (bind_cells row) as [cells [e|]].
  - apply keeps_files_bind; [apply keeps_files_update_sheet|].
    intros _. apply keeps_files_raise.
  - apply keeps_files_update_sheet.
Qed.

Create HintDb files.
#[local] Hint Resolve keeps_files_ret keeps_files_raise keeps_files_lift
  keeps_files_load_list keeps_files_load_dict keeps_files_print
  keeps_files_set_workbook keeps_files_set_worksheet keeps_files_get_workbook
  keeps_files_get_worksheet keeps_files_new_Workbook keeps_files_active_sheet
  keeps_files_update_sheet keeps_files_create_sheet keeps_files_sheet_append
  : files.

(** Splits a sequence of statements none of which is [save]. *)
Ltac files_steps :=
  repeat first
    [ solve [unfold sheet_set_title; auto with files]
    | apply keeps_files_for_each; intros ?
    | apply keeps_files_for_fold; intros ? ?
    | apply keeps_files_for_map; intros ?
    | match goal with |- keeps_files (if ?b then _ else _) => destruct b end
    | apply keeps_files_bind; [|intros ?] ].

Lemma keeps_files_create_workbook : keeps_files create_workbook.
Proof. unfold create_workbook. files_steps. Qed.

Lemma keeps_files_style_header : keeps_files style_header.
Proof. unfold style_header. files_steps. Qed.

Lemma keeps_files_auto_adjust : keeps_files auto_adjust_column_width.
Proof. unfold auto_adjust_column_width. files_steps. Qed.

Lemma keeps_files_collect_keys fl : keeps_files (collect_keys fl).
Proof. unfold collect_keys. files_steps. Qed.

Lemma keeps_files_mean_of `{PyArith} key fl : keeps_files (mean_of key fl).
Proof. unfold mean_of. files_steps. Qed.

#[local] Hint Resolve keeps_files_create_workbook keeps_files_style_header
  keeps_files_auto_adjust keeps_files_collect_keys keeps_files_mean_of : files.

Lemma saves_only_keeps `{Openpyxl} {A} path (m : M A) :
  keeps_files m -> saves_only path m.
Proof.
  intros Hm s. rewrite Hm. split; [intros; reflexivity|]. intros p _. reflexivity.
Qed.

Lemma saves_only_bind `{Openpyxl} {A B} path (m : M A) (k : A -> M B) :
  keeps_files m -> (forall a, saves_only path (k a)) -> saves_only path (bind m k).
Proof.
  intros Hm Hk s. unfold bind. specialize (Hm s).
  destruct (m s) as [[a|e] s1]; simpl in *.
  - destruct (Hk a s1) as [He Hp]. rewrite <- Hm. split; assumption.
  - split; [intros; assumption|]. intros p _. rewrite Hm. reflexivity.
Qed.

(** The last two statements of every export: whatever saving does, it
    does to the file at [path]; where that file can be written, it does
    not raise. *)
Lemma saves_only_save_print `{Openpyxl} path line :
  saves_only path (save path >> print line).
Proof.
  intros s. unfold save, bind, get_workbook, print.
  destruct (workbook (st_self s)) as [wb|]; simpl.
  - pose proof (fun p => write_file_other path wb (st_files s) p) as Hother.
    destruct (write_file path wb (st_files s)) as [[[]|e'] files] eqn:Hw;
      cbn [fst snd st_files] in *.
    + split; [discriminate|]. intros p Hp. apply Hother, Hp.
    + split; [|intros p Hp; apply Hother, Hp].
      intros Hdisk. specialize (Hdisk wb (st_files s)).
      rewrite Hw in Hdisk. discriminate Hdisk.
  - split; [reflexivity|]. intros p _. reflexivity.
Qed.

Ltac saves_steps :=
  repeat first
    [ apply saves_only_save_print
    | match goal with |- saves_only _ (if ?b then _ else _) => destruct b end
    | apply saves_only_bind; [solve [files_steps]|intros ?]
    | apply saves_only_keeps; solve [files_steps] ].

Lemma saves_only_single `{Openpyxl} l path :
  saves_only path (export_single_image l path).
Proof. unfold export_single_image. saves_steps. Qed.

Lemma saves_only_multiple `{Openpyxl} l path :
  saves_only path (export_multiple_images l path).
Proof. unfold export_multiple_images. saves_steps. Qed.

Lemma saves_only_summary `{Openpyxl} `{PyArith} l path :
  saves_only path (export_with_summary l path).
Proof. unfold export_with_summary. saves_steps. Qed.

Lemma saves_only_export `{Openpyxl} `{PyArith} which l path :
  saves_only path (export which l path).
Proof.
  destruct which; simpl;
    [apply saves_only_single | apply saves_only_multiple | apply saves_only_summary].
Qed.

(** X1.  Whichever export runs and however it ends, every file other
    than the one at [output_path] is afterwards what it was before. *)
Theorem export_touches_only_output `{Openpyxl} `{PyArith} which s l path other :
  other <> path ->
  st_files (snd (export which l path s)) !! other = st_files s !! other.
Proof. intros Hne. apply saves_only_export, Hne. Qed.

Lemma export_touches_only_output_witness :
  "old.xlsx" <> "out.xlsx"
  /\ st_files (snd (@export desk binary64_arith Multiple 1%positive "out.xlsx"
                      Office.start)) !! "old.xlsx"
     = st_files Office.start !! "old.xlsx".
Proof.
  split; [discriminate|].
  apply (@export_touches_only_output desk binary64_arith Multiple Office.start
           1%positive "out.xlsx" "old.xlsx").
  discriminate.
Defined.



(** Without that condition the statement fails: on a volume that fills
    up, saving raises and leaves a file cut short behind. *)
Example failed_save_leaves_a_broken_file :
  fst (@export desk binary64_arith Multiple 1%positive "/full/out.xlsx"
         Demo.start)
  = Raised (Exn OSError "[Errno 28] No space left on device")
  /\ st_files (snd (@export desk binary64_arith Multiple 1%positive
                      "/full/out.xlsx" Demo.start)) !! "/full/out.xlsx"
     = Some Broken.
Proof. split; vm_compute; reflexivity. Qed.

(** ** The summary's data sheet, and repeated exports *)











(** ** More on the extractor *)

Lemma chunks_length {A} count width (xs : list A) :
  length (chunks count width xs) = count.
Proof.
  revert xs. induction count as [|count IH]; intros xs; simpl; [reflexivity|].
  rewrite IH. reflexivity.
Qed.

Lemma chunks_full {A} (P : A -> Prop) count width (xs : list A) :
  length xs = (count * width)%nat ->
  Forall P xs ->
  Forall (fun c => length c = width /\ Forall P c) (chunks count width xs).
Proof.
  revert xs. induction count as [|count IH]; intros xs Hlen HP; simpl.
  - constructor.
  - constructor.
    + split; [rewrite length_take; lia | apply Forall_take, HP].
    + apply IH; [rewrite length_drop; lia | apply Forall_drop, HP].
Qed.

(** X5.  For any number [n_colors] that is not negative, a successful
    [detect_dominant_colors] returns exactly [n_colors] colours, each a
    triple of integers between 0 and 255. *)
Theorem dominant_colors_are_triples `{Vision} path n_colors g colors g' :
  detect_dominant_colors path n_colors g = (Ok colors, g') ->
  0 <= n_colors ->
  length colors = Z.to_nat n_colors
  /\ Forall (fun color => length color = 3%nat
                          /\ Forall (fun x => 0 <= x <= 255) color) colors.
Proof.
  unfold detect_dominant_colors. intros Hrun Hn.
  destruct (load_image path) as [image|]; [|discriminate]. simpl in Hrun.
  destruct (cvtColor image COLOR_BGR2RGB) as [rgb|]; [|discriminate].
  simpl in Hrun. unfold reshape_rows in Hrun.
  case_decide; [|discriminate]. simpl in Hrun.
  unfold np_float32 in Hrun. cbn [shape data] in Hrun.
  destruct (kmeans g _ n_colors) as [[centers|e] g1] eqn:Hk; [|discriminate].
  injection Hrun as <- <-.
  apply kmeans_centers in Hk as [Hshape Hlen].
  unfold row_tuples, np_uint8. cbn [shape data]. rewrite Hshape.
  change (Z.to_nat (fold_right Z.mul 1 [3])) with 3%nat.
  split; [apply chunks_length|].
  apply chunks_full.
  - rewrite length_map, Hlen. lia.
  - apply Forall_forall. intros x Hx.
    apply list_elem_of_fmap in Hx as (y & -> & _). apply uint8_of_float32_range.
Qed.

Lemma dominant_colors_are_triples_witness :
  @detect_dominant_colors bench_vision "photo.png" 2 0
  = (Ok [[30; 20; 10]; [60; 50; 40]], 1)
  /\ 0 <= 2
  /\ length [[30; 20; 10]; [60; 50; 40]] = Z.to_nat 2
  /\ Forall (fun color => length color = 3%nat
                          /\ Forall (fun x => 0 <= x <= 255) color)
            [[30; 20; 10]; [60; 50; 40]].
Proof.
  split; [vm_compute; reflexivity|]. split; [lia|].
  apply (@dominant_colors_are_triples bench_vision "photo.png" 2 0
           [[30; 20; 10]; [60; 50; 40]] 1); [vm_compute; reflexivity | lia].
Defined.

(** X6.  When the image cannot be decoded, every operation that loads it
    raises [ValueError("Could not load image from <path>")], and so does
    [extract_all_features], whatever OCR made of the file: no partial
    record comes back, and the random generator is left as it was. *)
Theorem undecodable_image_fails_fast `{PyArith} `{Vision} path n_colors g :
  imread path = None ->
  get_image_properties path = Raised (could_not_load path)
  /\ calculate_brightness path = Raised (could_not_load path)
  /\ detect_edges path = Raised (could_not_load path)
  /\ detect_dominant_colors path n_colors g = (Raised (could_not_load path), g)
  /\ extract_all_features path g = (Raised (could_not_load path), g).
Proof.
  intros Himg.
  assert (P : get_image_properties path = Raised (could_not_load path)).
  { unfold get_image_properties, load_image. rewrite Himg. reflexivity. }
  split; [exact P|].
  split; [unfold calculate_brightness, load_image; rewrite Himg; reflexivity|].
  split; [unfold detect_edges, load_image; rewrite Himg; reflexivity|].
  split; [unfold detect_dominant_colors, load_image; rewrite Himg; reflexivity|].
  unfold extract_all_features. rewrite extract_text_returns, P. reflexivity.
Qed.

Lemma undecodable_image_fails_fast_witness :
  @imread bench_vision "notes.txt" = None
  /\ @get_image_properties binary64_arith bench_vision "notes.txt"
     = Raised (could_not_load "notes.txt")
  /\ @calculate_brightness binary64_arith bench_vision "notes.txt"
     = Raised (could_not_load "notes.txt")
  /\ @detect_edges bench_vision "notes.txt" = Raised (could_not_load "notes.txt")
  /\ @detect_dominant_colors bench_vision "notes.txt" 5 0
     = (Raised (could_not_load "notes.txt"), 0)
  /\ @extract_all_features binary64_arith bench_vision "notes.txt" 0
     = (Raised (could_not_load "notes.txt"), 0).
Proof.
  split; [reflexivity|].
  apply (@undecodable_image_fails_fast binary64_arith bench_vision
           "notes.txt" 5 0).
  reflexivity.
Defined.

Lemma count_positive_range (a : ndarray uint8) :
  0 <= count_positive a <= Z.of_nat (length (data a)).
Proof.
  unfold count_positive. split; [lia|].
  apply Nat2Z.inj_le, length_filter.
Qed.

Section Schema.
Context `{PyArith} `{Vision}.

(** The five results a returned record is assembled from. *)
Lemma extract_all_features_parts path g rec g' :
  extract_all_features path g = (Ok rec, g') ->
  exists text properties brightness edges colors,
    extract_text path = Ok text
    /\ get_image_properties path = Ok properties
    /\ calculate_brightness path = Ok brightness
    /\ detect_edges path = Ok edges
    /\ detect_dominant_colors path 3 g = (Ok colors, g')
    /\ rec = add_colors
               (dict_set
                  (dict_set
                     (dict_update
                        (dict_set (dict_set [] "image_path" (VStr path))
                                  "extracted_text" (VStr text))
                        properties)
                     "avg_brightness" brightness)
                  "edge_count" (VInt edges))
               0 colors.
Proof.
  unfold extract_all_features.
  destruct (extract_text path) as [text|] eqn:Ht; [|discriminate]. simpl rbind.
  destruct (get_image_properties path) as [properties|]; [|discriminate].
  simpl rbind.
  destruct (calculate_brightness path) as [brightness|]; [|discriminate].
  simpl rbind.
  destruct (detect_edges path) as [edges|]; [|discriminate]. simpl rbind.
  cbv iota beta.
  destruct (detect_dominant_colors path 3 g) as [[colors|e] g1]; [|discriminate].
  intros [= <- <-].
  exists text, properties, brightness, edges, colors.
  repeat (split; [reflexivity|]). reflexivity.
Qed.

(** A returned record, with its edge count bounded. *)
Lemma extract_all_features_shape path g rec g' :
  extract_all_features path g = (Ok rec, g') ->
  exists text width height channels file_size_kb aspect_ratio brightness edges
         v1 v2 v3,
    0 <= edges
    /\ rec = base_features path text width height channels file_size_kb
                           aspect_ratio brightness edges
             ++ [("dominant_color_1", VStr ("RGB" ++ str_tuple v1)%string);
                 ("dominant_color_2", VStr ("RGB" ++ str_tuple v2)%string);
                 ("dominant_color_3", VStr ("RGB" ++ str_tuple v3)%string)].
Proof.
  intros Hrun.
  apply extract_all_features_parts in Hrun
    as (text & properties & brightness & edges & colors
        & _ & Hp & _ & He & Hc & ->).
  apply get_image_properties_inv in Hp
    as (image & h & w & dims & c & kb & ar & _ & _ & ->).
  apply detect_dominant_colors_inv in Hc
    as (c1 & c2 & c3 & c4 & c5 & c6 & c7 & c8 & c9 & ->).
  assert (Hpos : 0 <= edges).
  { unfold detect_edges in He.
    destruct (load_image path); [|discriminate]. simpl in He.
    destruct (cvtColor _ _); [|discriminate]. simpl in He.
    destruct (Canny _ _ _) as [edge_map|]; [|discriminate]. simpl in He.
    injection He as <-. apply count_positive_range. }
  eexists text, w, h, c, kb, ar, brightness, edges, _, _, _.
  split; [exact Hpos | reflexivity].
Qed.

End Schema.

Lemma feature_columns_sorted : feature_columns = sorted feature_keys.
Proof. vm_compute. reflexivity. Qed.

Lemma feature_keys_NoDup : NoDup feature_keys.
Proof. refine (bool_decide_unpack (NoDup feature_keys) _). vm_compute. exact I. Qed.

Lemma feature_columns_elem k : k ∈ feature_columns <-> k ∈ feature_keys.
Proof.
  rewrite feature_columns_sorted. unfold sorted.
  rewrite merge_sort_Permutation. reflexivity.
Qed.

(** Records that all carry the thirteen feature keys give the thirteen
    columns. *)
Lemma columns_of_feature_records recs :
  recs <> [] ->
  Forall (fun d => dict_keys d = feature_keys) recs ->
  columns_of recs = feature_columns.
Proof.
  intros Hne Hkeys.
  apply (sorted_union_unique _ _ recs); [apply columns_of_sorted_union|].
  split; [|split].
  - rewrite feature_columns_sorted. apply (Sorted_merge_sort String.le).
  - rewrite feature_columns_sorted. unfold sorted.
    rewrite merge_sort_Permutation. apply feature_keys_NoDup.
  - intros k. rewrite feature_columns_elem. split.
    + intros Hk. destruct recs as [|d recs]; [congruence|].
      exists d. split; [left|]. apply Forall_inv in Hkeys. rewrite Hkeys. exact Hk.
    + intros (d & Hd & Hk).
      rewrite Forall_forall in Hkeys. rewrite <- (Hkeys d Hd). exact Hk.
Qed.


Section SchemaClaims.
Context `{PyArith} `{Vision}.

(** X7.  Every record [extract_all_features] returns has the same
    thirteen keys in the same order, none twice; its [image_path] is the
    path it was given, its [extracted_text] is text, and its [edge_count]
    is an integer that is not negative. *)
Theorem extracted_record_schema path g rec g' :
  extract_all_features path g = (Ok rec, g') ->
  dict_keys rec = feature_keys
  /\ dict_wf rec
  /\ dict_get rec "image_path" = Some (VStr path)
  /\ (exists text, dict_get rec "extracted_text" = Some (VStr text))
  /\ (exists edges, dict_get rec "edge_count" = Some (VInt edges) /\ 0 <= edges).
Proof.
  intros Hrun.
  apply extract_all_features_shape in Hrun
    as (text & w & h & c & kb & ar & b & edges & v1 & v2 & v3 & Hpos & ->).
  assert (K : dict_keys
                (base_features path text w h c kb ar b edges
                 ++ [("dominant_color_1", VStr ("RGB" ++ str_tuple v1)%string);
                     ("dominant_color_2", VStr ("RGB" ++ str_tuple v2)%string);
                     ("dominant_color_3", VStr ("RGB" ++ str_tuple v3)%string)])
              = feature_keys) by reflexivity.
  split; [exact K|].
  split; [unfold dict_wf; rewrite K; apply feature_keys_NoDup|].
  split; [reflexivity|].
  split; [exists text; reflexivity|].
  exists edges. split; [reflexivity | exact Hpos].
Qed.

Lemma extracted_keys rec : extracted rec -> dict_keys rec = feature_keys.
Proof.
  intros (path & g & g' & Hrun).
  apply extract_all_features_shape in Hrun
    as (text & w & h & c & kb & ar & b & edges & v1 & v2 & v3 & _ & ->).
  reflexivity.
Qed.


End SchemaClaims.

Lemma extracted_record_schema_witness :
  @extract_all_features binary64_arith bench_vision "photo.png" 0
  = (Ok photo_record, 1)
  /\ dict_keys photo_record = feature_keys
  /\ dict_wf photo_record
  /\ dict_get photo_record "image_path" = Some (VStr "photo.png")
  /\ (exists text, dict_get photo_record "extracted_text" = Some (VStr text))
  /\ (exists edges,
        dict_get photo_record "edge_count" = Some (VInt edges) /\ 0 <= edges).
Proof.
  split; [vm_compute; reflexivity|].
  apply (@extracted_record_schema binary64_arith bench_vision "photo.png" 0
           photo_record 1).
  vm_compute. reflexivity.
Defined.



(** ** The drivers of main.py *)

Lemma grown_refl fl s : grown fl s s.
Proof. repeat split; auto. Qed.

Lemma grown_trans fl s1 s2 s3 : grown fl s1 s2 -> grown fl s2 s3 -> grown fl s1 s3.
Proof.
  intros (A1 & B1 & C1 & D1 & E1) (A2 & B2 & C2 & D2 & E2).
  split; [|split; [|split; [|split]]]; try congruence.
  - intros l Hl Hne. rewrite A2, A1; auto.
  - set_solver.
Qed.

Lemma deref_dict_dom h r d : deref_dict h r = Some d -> r ∈ dom h.
Proof.
  unfold deref_dict. destruct (h !! r) eqn:E; [|discriminate].
  intros _. apply elem_of_dom. eauto.
Qed.

Lemma deref_dict_not_list h r d fl refs :
  deref_dict h r = Some d -> h !! fl = Some (OList refs) -> r <> fl.
Proof.
  unfold deref_dict. intros Hr Hfl ->. rewrite Hfl in Hr. discriminate.
Qed.

(** Appending a new record to the list keeps the records already in it. *)
Lemma records_after_append h fl refs recs d :
  h !! fl = Some (OList refs) ->
  mapM (deref_dict h) refs = Some recs ->
  let l := fresh (dom h) in
  let h' := <[fl := OList (refs ++ [l])]> (<[l := ODict d]> h) in
  mapM (deref_dict h') (refs ++ [l]) = Some (recs ++ [d]).
Proof.
  intros Hfl Hm l h'.
  assert (Hl : l ∉ dom h) by apply is_fresh.
  assert (Hlfl : l <> fl).
  { intros ->. apply Hl, elem_of_dom. eauto. }
  apply mapM_Some. apply mapM_Some in Hm. apply Forall2_app.
  - eapply Forall2_impl; [exact Hm|]. intros r dr Hr. simpl in Hr.
    pose proof (deref_dict_dom _ _ _ Hr) as Hdom.
    pose proof (deref_dict_not_list _ _ _ _ _ Hr Hfl) as Hne.
    unfold deref_dict, h' in *.
    rewrite lookup_insert_ne by congruence.
    rewrite lookup_insert_ne by (intros ->; contradiction).
    exact Hr.
  - constructor; [|constructor].
    unfold deref_dict, h'.
    rewrite lookup_insert_ne by congruence.
    rewrite lookup_insert_eq. reflexivity.
Qed.

Section DriverRuns.
Context `{PyArith} `{Vision}.

Lemma process_one_run fl total i g path s refs recs :
  st_heap s !! fl = Some (OList refs) ->
  mapM (deref_dict (st_heap s)) refs = Some recs ->
  exists s' refs',
    process_one fl total (i, g) path s
    = (Ok (i + 1, snd (extract_all_features path g)), s')
    /\ st_heap s' !! fl = Some (OList refs')
    /\ mapM (deref_dict (st_heap s')) refs'
       = Some (recs ++ match fst (extract_all_features path g) with
                       | Ok features => [features]
                       | Raised _ => []
                       end)
    /\ grown fl s s'.
Proof.
  intros Hfl Hm. destruct s as [h self files out nsheets].
  cbn [st_heap] in *.
  unfold process_one. cbn [fst snd].
  destruct (extract_all_features path g) as [[d|e] g'] eqn:Hx; cbn [fst snd].
  - eexists _, (refs ++ [fresh (dom h)]).
    split.
    { unfold bind, print, try_except, lift, alloc, list_append, ret.
      cbn [st_heap st_self st_files st_stdout st_fresh].
      rewrite lookup_insert_ne.
      2:{ intros E. pose proof (is_fresh (dom h)) as Hf.
          apply Hf. rewrite E. apply elem_of_dom. eauto. }
      rewrite Hfl. reflexivity. }
    cbn [st_heap].
    split; [apply lookup_insert_eq|].
    split; [apply (records_after_append h fl refs recs d Hfl Hm)|].
    unfold grown. cbn [st_heap st_self st_files st_fresh].
    split; [|split; [|repeat split]].
    + intros l Hl Hne. rewrite lookup_insert_ne by congruence.
      rewrite lookup_insert_ne; [reflexivity|].
      intros <-. apply (is_fresh (dom h)), Hl.
    + rewrite !dom_insert_L. set_solver.
  - eexists _, refs.
    split; [reflexivity|]. cbn [st_heap].
    split; [exact Hfl|]. split; [rewrite app_nil_r; exact Hm|].
    unfold grown. cbn [st_heap st_self st_files st_fresh].
    repeat split; auto.
Qed.

Lemma extract_batch_cons path paths g :
  extract_batch (path :: paths) g
  = (match fst (extract_all_features path g) with
     | Ok features => [features]
     | Raised _ => []
     end ++ fst (extract_batch paths (snd (extract_all_features path g))),
     snd (extract_batch paths (snd (extract_all_features path g)))).
Proof.
  simpl. destruct (extract_all_features path g) as [[d|e] g1]; simpl;
    destruct (extract_batch paths g1); reflexivity.
Qed.

(** The loop leaves in the list the records of the batch, after those it
    held. *)
Lemma batch_loop_run fl total paths : forall i g s refs recs,
  st_heap s !! fl = Some (OList refs) ->
  mapM (deref_dict (st_heap s)) refs = Some recs ->
  exists s' refs',
    for_fold paths (i, g) (process_one fl total) s
    = (Ok (i + Z.of_nat (length paths), snd (extract_batch paths g)), s')
    /\ st_heap s' !! fl = Some (OList refs')
    /\ mapM (deref_dict (st_heap s')) refs'
       = Some (recs ++ fst (extract_batch paths g))
    /\ grown fl s s'.
Proof.
  induction paths as [|path paths IH]; intros i g s refs recs Hfl Hm.
  - exists s, refs. simpl. rewrite Z.add_0_r, app_nil_r.
    split; [reflexivity|]. split; [exact Hfl|]. split; [exact Hm|].
    apply grown_refl.
  - destruct (process_one_run fl total i g path s refs recs Hfl Hm)
      as (s1 & refs1 & Hrun1 & Hfl1 & Hm1 & G1).
    destruct (IH (i + 1) (snd (extract_all_features path g)) s1 refs1 _ Hfl1 Hm1)
      as (s2 & refs2 & Hrun2 & Hfl2 & Hm2 & G2).
    exists s2, refs2. split.
    { cbn [for_fold]. eapply bind_run; [exact Hrun1|]. rewrite Hrun2.
      rewrite extract_batch_cons. cbn [snd length].
      do 3 f_equal. lia. }
    split; [exact Hfl2|].
    split; [rewrite Hm2, extract_batch_cons, <- app_assoc; reflexivity|].
    eapply grown_trans; eassumption.
Qed.

End DriverRuns.

Lemma with_new_exporter_run {A} (body : M A) s r s' :
  body (State (st_heap s) (Exporter None None) (st_files s) (st_stdout s)
              (st_fresh s)) = (r, s') ->
  with_new_exporter body s
  = (r, State (st_heap s') (st_self s) (st_files s') (st_stdout s') (st_fresh s')).
Proof. intros Hb. unfold with_new_exporter. rewrite Hb. reflexivity. Qed.

Lemma try_except_ok {A} (body : M A) handler s a s' :
  body s = (Ok a, s') -> try_except body handler s = (Ok a, s').
Proof. intros Hb. unfold try_except. rewrite Hb. reflexivity. Qed.

Lemma try_except_raised {A} (body : M A) handler s e s' :
  body s = (Raised e, s') -> try_except body handler s = handler e s'.
Proof. intros Hb. unfold try_except. rewrite Hb. reflexivity. Qed.

Lemma export_keeps_heap `{Openpyxl} `{PyArith} which l path s :
  st_heap (snd (export which l path s)) = st_heap s.
Proof.
  destruct which; simpl.
  - apply export_single_image_keeps_heap.
  - destruct (export_multiple_images_guarded l path) as (body & Hb & ->).
    apply guarded_keeps_heap, Hb.
  - destruct (export_with_summary_guarded l path) as (body & Hb & ->).
    apply guarded_keeps_heap, Hb.
Qed.

Lemma mapM_same_length {A B} (f : A -> option B) xs ys :
  mapM f xs = Some ys -> length xs = length ys.
Proof. intros Hm. apply mapM_Some in Hm. eapply Forall2_length, Hm. Qed.

Lemma mapM_nil_iff {A B} (f : A -> option B) xs ys :
  mapM f xs = Some ys -> xs = [] <-> ys = [].
Proof.
  intros Hm. apply mapM_same_length in Hm.
  destruct xs, ys; simpl in Hm; try discriminate; split; congruence.
Qed.

Section BatchShape.
Context `{Openpyxl} `{PyArith} `{Vision}.

(** How [process_multiple_images] ends, in terms of the records of the
    batch and of the export it runs on them. *)
Lemma process_multiple_images_shape paths out flag g s :
  exists s2 refs,
    let fl := fresh (dom (st_heap s)) in
    let recs := fst (extract_batch paths g) in
    let g' := snd (extract_batch paths g) in
    st_heap s2 !! fl = Some (OList refs)
    /\ mapM (deref_dict (st_heap s2)) refs = Some recs
    /\ (forall l, l ∈ dom (st_heap s) -> st_heap s2 !! l = st_heap s !! l)
    /\ st_self s2 = Exporter None None
    /\ st_files s2 = st_files s
    /\ st_fresh s2 = st_fresh s
    /\ process_multiple_images paths out flag g s
       = if decide (recs = []) then
           (Ok (SystemExit 1, g'),
            State (st_heap s2) (st_self s) (st_files s)
                  (st_stdout s2 ++ ["Error: No images were successfully processed"])
                  (st_fresh s))
         else
           let rs := export (if flag then WithSummary else Multiple) fl out s2 in
           match fst rs with
           | Ok _ =>
               (Ok (Returned, g'),
                State (st_heap s2) (st_self s) (st_files (snd rs))
                      (st_stdout (snd rs)
                       ++ [("Processing completed! Processed "
                            ++ repr_int (Z.of_nat (length recs))
                            ++ " images successfully.")%string])
                      (st_fresh (snd rs)))
           | Raised e =>
               (Ok (SystemExit 1, g'),
                State (st_heap s2) (st_self s) (st_files (snd rs))
                      (st_stdout (snd rs)
                       ++ [("Error exporting to Excel: " ++ exn_str e)%string])
                      (st_fresh (snd rs)))
           end.
Proof.
  destruct s as [h self files out0 nsheets]. cbn [st_heap st_self st_files st_fresh].
  set (fl := fresh (dom h)).
  set (line := ("Processing " ++ repr_int (Z.of_nat (length paths))
                ++ " images...")%string).
  set (s1 := State (<[fl := OList []]> h) (Exporter None None) files
                   (out0 ++ [line]) nsheets).
  assert (Hfresh : fl ∉ dom h) by apply is_fresh.
  destruct (batch_loop_run fl (length paths) paths 1 g s1 [] [])
    as (s2 & refs & Hloop & Hfl & Hm & (G1 & G2 & G3 & G4 & G5)).
  { apply lookup_insert_eq. }
  { reflexivity. }
  cbn [app] in Hm. cbn [st_heap st_self st_files st_fresh s1] in G1, G2, G3, G4, G5.
  exists s2, refs. cbv zeta.
  split; [exact Hfl|]. split; [exact Hm|].
  split.
  { intros l Hl. rewrite G1.
    - apply lookup_insert_ne. intros <-. contradiction.
    - rewrite dom_insert_L. set_solver.
    - intros ->. contradiction. }
  split; [exact G3|]. split; [exact G4|]. split; [exact G5|].
  pose proof (mapM_nil_iff _ _ _ Hm) as Hnil.
  pose proof (mapM_same_length _ _ _ Hm) as Hlen.
  unfold process_multiple_images.
  eapply bind_run; [reflexivity|].
  destruct (decide (fst (extract_batch paths g) = [])) as [Hrecs|Hrecs].
  - erewrite with_new_exporter_run.
    2:{ cbn [st_heap st_self st_files st_stdout st_fresh].
        eapply bind_run; [reflexivity|].
        eapply bind_run; [exact Hloop|].
        eapply bind_run; [apply load_list_run, Hfl|].
        rewrite decide_True by (apply Hnil, Hrecs).
        eapply bind_run; [reflexivity|]. reflexivity. }
    cbn [st_heap st_self st_files st_stdout st_fresh snd].
    rewrite G4, G5. reflexivity.
  - pose proof (export_keeps_heap (if flag then WithSummary else Multiple)
                  fl out s2) as Hheap.
    cbv zeta.
    destruct (export (if flag then WithSummary else Multiple) fl out s2)
      as [[[]|e] s3] eqn:Hex; cbn [fst snd] in *.
    + erewrite with_new_exporter_run.
      2:{ cbn [st_heap st_self st_files st_stdout st_fresh].
          eapply bind_run; [reflexivity|].
          eapply bind_run; [exact Hloop|].
          eapply bind_run; [apply load_list_run, Hfl|].
          rewrite decide_False by (intros E; apply Hrecs, Hnil, E).
          eapply bind_run.
          { apply try_except_ok.
            eapply bind_run.
            { instantiate (1 := s3). instantiate (1 := tt).
              destruct flag; exact Hex. }
            eapply bind_run.
            { apply load_list_run. rewrite Hheap. exact Hfl. }
            eapply bind_run; [reflexivity|]. reflexivity. }
          reflexivity. }
      cbn [st_heap st_self st_files st_stdout st_fresh snd].
      rewrite Hheap, Hlen. reflexivity.
    + erewrite with_new_exporter_run.
      2:{ cbn [st_heap st_self st_files st_stdout st_fresh].
          eapply bind_run; [reflexivity|].
          eapply bind_run; [exact Hloop|].
          eapply bind_run; [apply load_list_run, Hfl|].
          rewrite decide_False by (intros E; apply Hrecs, Hnil, E).
          eapply bind_run.
          { erewrite try_except_raised.
            2:{ eapply bind_raised. destruct flag; exact Hex. }
            eapply bind_run; [reflexivity|]. reflexivity. }
          reflexivity. }
      cbn [st_heap st_self st_files st_stdout st_fresh snd].
      rewrite Hheap. reflexivity.
Qed.

End BatchShape.

Section BatchClaims.
Context `{Openpyxl} `{PyArith} `{Vision}.

Lemma extract_batch_extracted paths :
  forall g, Forall extracted (fst (extract_batch paths g)).
Proof.
  induction paths as [|path paths IH]; intros g.
  - constructor.
  - rewrite extract_batch_cons. cbn [fst].
    apply Forall_app. split; [|apply IH].
    destruct (extract_all_features path g) as [[d|e] g1] eqn:Hx; cbn [fst].
    + constructor; [|constructor]. exists path, g, g1. exact Hx.
    + constructor.
Qed.



Lemma columns_of_extracted (recs : list dict) :
  recs <> [] -> Forall extracted recs -> columns_of recs = feature_columns.
Proof.
  intros Hne Hex. apply columns_of_feature_records; [exact Hne|].
  eapply Forall_impl; [exact Hex|]. apply extracted_keys.
Qed.

(** X9.  When the extraction succeeds for none of the paths (an empty
    list included), [process_multiple_images] leaves through
    [sys.exit(1)] after the line [Error: No images were successfully
    processed]: no export is attempted and no file is written. *)
Theorem batch_without_success_exits paths out with_summary g s :
  fst (extract_batch paths g) = [] ->
  exists s',
    process_multiple_images paths out with_summary g s
    = (Ok (SystemExit 1, snd (extract_batch paths g)), s')
    /\ st_files s' = st_files s
    /\ last (st_stdout s') = Some "Error: No images were successfully processed".
Proof.
  intros Hnone.
  destruct (process_multiple_images_shape paths out with_summary g s)
    as (s2 & refs & _ & _ & _ & _ & _ & _ & Hrun).
  cbv zeta in Hrun. rewrite decide_True in Hrun by exact Hnone.
  eexists. split; [exact Hrun|]. cbn [st_files st_stdout].
  split; [reflexivity | apply last_snoc].
Qed.




(** X13.  Whatever happens in [process_multiple_images], every object
    the caller held before the call is unchanged after it, and so is
    every file other than the one at [output_path]. *)
Theorem batch_touches_only_output paths out with_summary g s l other :
  l ∈ dom (st_heap s) ->
  other <> out ->
  st_heap (snd (process_multiple_images paths out with_summary g s)) !! l
  = st_heap s !! l
  /\ st_files (snd (process_multiple_images paths out with_summary g s)) !! other
     = st_files s !! other.
Proof.
  intros Hl Hother.
  destruct (process_multiple_images_shape paths out with_summary g s)
    as (s2 & refs & _ & _ & Hkeep & _ & Hfiles & _ & Hrun).
  cbv zeta in Hrun. rewrite Hrun.
  pose proof (saves_only_export (if with_summary then WithSummary else Multiple)
                (fresh (dom (st_heap s))) out s2) as [_ Hsave].
  destruct (decide (fst (extract_batch paths g) = [])).
  - cbn [snd st_heap st_files]. split; [apply Hkeep, Hl | reflexivity].
  - destruct (fst (export _ _ out s2)) as [[]|e]; cbn [snd st_heap st_files].
    + split; [apply Hkeep, Hl|]. rewrite Hsave by exact Hother.
      rewrite Hfiles. reflexivity.
    + split; [apply Hkeep, Hl|]. rewrite Hsave by exact Hother.
      rewrite Hfiles. reflexivity.
Qed.

End BatchClaims.

Lemma batch_without_success_exits_witness :
  fst (@extract_batch binary64_arith bench_vision ["notes.txt"; "strip.png"] 0) = []
  /\ exists s',
       @process_multiple_images desk binary64_arith bench_vision
         ["notes.txt"; "strip.png"] "out.xlsx" true 0 Office.start
       = (Ok (SystemExit 1,
              snd (@extract_batch binary64_arith bench_vision
                     ["notes.txt"; "strip.png"] 0)), s')
       /\ st_files s' = st_files Office.start
       /\ last (st_stdout s')
          = Some "Error: No images were successfully processed".
Proof.
  split; [vm_compute; reflexivity|].
  apply (@batch_without_success_exits desk binary64_arith bench_vision
           ["notes.txt"; "strip.png"] "out.xlsx" true 0 Office.start).
  vm_compute. reflexivity.
Defined.



(** A batch whose export fails on a volume that fills up: the driver
    ends with [sys.exit(1)], and the file cut short stays behind. *)
Example batch_on_a_full_disk :
  fst (@process_multiple_images desk binary64_arith bench_vision
         ["photo.png"] "/full/out.xlsx" false 0 Office.start)
  = Ok (SystemExit 1, 1)
  /\ st_files (snd (@process_multiple_images desk binary64_arith bench_vision
                      ["photo.png"] "/full/out.xlsx" false 0 Office.start))
       !! "/full/out.xlsx"
     = Some Broken.
Proof. split; vm_compute; reflexivity. Qed.

Lemma batch_touches_only_output_witness :
  2%positive ∈ dom (st_heap Office.start)
  /\ "old.xlsx" <> "out.xlsx"
  /\ st_heap (snd (@process_multiple_images desk binary64_arith bench_vision
                     ["photo.png"; "nope.png"] "out.xlsx" true 0 Office.start))
       !! 2%positive
     = st_heap Office.start !! 2%positive
  /\ st_files (snd (@process_multiple_images desk binary64_arith bench_vision
                      ["photo.png"; "nope.png"] "out.xlsx" true 0 Office.start))
       !! "old.xlsx"
     = st_files Office.start !! "old.xlsx".
Proof.
  assert (Hl : 2%positive ∈ dom (st_heap Office.start)).
  { apply elem_of_dom. vm_compute. eauto. }
  split; [exact Hl|]. split; [discriminate|].
  apply (@batch_touches_only_output desk binary64_arith bench_vision
           ["photo.png"; "nope.png"] "out.xlsx" true 0 Office.start
           2%positive "old.xlsx"); [exact Hl | discriminate].
Defined.

Section SingleDriver.
Context `{Openpyxl} `{PyArith} `{Vision}.

(** X14.  When the extraction raises, [process_single_image] prints
    [Error processing image: <message>] and leaves through
    [sys.exit(1)]; no workbook is created, no file is written and no
    object is allocated: apart from the two console lines the state is
    what it was. *)
Theorem single_image_failure_exits path out g s e :
  fst (extract_all_features path g) = Raised e ->
  process_single_image path out g s
  = (Ok (SystemExit 1, snd (extract_all_features path g)),
     State (st_heap s) (st_self s) (st_files s)
           (st_stdout s ++ [("Processing image: " ++ path)%string;
                            ("Error processing image: " ++ exn_str e)%string])
           (st_fresh s)).
Proof.
  intros Hx. unfold process_single_image.
  destruct (extract_all_features path g) as [r g1]. cbn [fst snd] in *. subst r.
  eapply bind_run; [reflexivity|].
  erewrite with_new_exporter_run.
  2:{ eapply bind_run.
      { erewrite try_except_raised; [|reflexivity].
        eapply bind_run; [reflexivity|]. reflexivity. }
      reflexivity. }
  cbn [st_heap st_self st_files st_stdout st_fresh print fst snd].
  rewrite <- app_assoc. reflexivity.
Qed.


End SingleDriver.

Lemma single_image_failure_exits_witness :
  fst (@extract_all_features binary64_arith bench_vision "strip.png" 0)
  = Raised (Exn ValueError "Could not load image from strip.png")
  /\ @process_single_image desk binary64_arith bench_vision "strip.png"
       "out.xlsx" 0 Office.start
     = (Ok (SystemExit 1,
            snd (@extract_all_features binary64_arith bench_vision "strip.png" 0)),
        State (st_heap Office.start) (st_self Office.start)
              (st_files Office.start)
              (st_stdout Office.start
               ++ ["Processing image: strip.png";
                   "Error processing image: Could not load image from strip.png"])
              (st_fresh Office.start)).
Proof.
  split; [vm_compute; reflexivity|].
  apply (@single_image_failure_exits desk binary64_arith bench_vision
           "strip.png" "out.xlsx" 0 Office.start
           (Exn ValueError "Could not load image from strip.png")).
  vm_compute. reflexivity.
Defined.


(** ** File names *)

Lemma str_app_cons c (a b : string) :
  (String c a ++ b)%string = String c (a ++ b).
Proof. reflexivity. Qed.

Lemma str_app_nil_l (b : string) : ("" ++ b)%string = b.
Proof. reflexivity. Qed.

Lemma str_length_app (a b : string) :
  String.length (a ++ b) = (String.length a + String.length b)%nat.
Proof.
  induction a as [|c a IH]; [reflexivity|].
  rewrite str_app_cons. cbn. rewrite IH. reflexivity.
Qed.

Lemma substring_app_r (a b : string) n m :
  substring (String.length a + n) m (a ++ b) = substring n m b.
Proof. induction a as [|c a IH]; [reflexivity|]. rewrite str_app_cons. cbn. exact IH. Qed.

Lemma substring_app_l (a b : string) :
  substring 0 (String.length a) (a ++ b) = a.
Proof.
  induction a as [|c a IH]; [destruct b; reflexivity|].
  rewrite str_app_cons. cbn. rewrite IH. reflexivity.
Qed.

Lemma substring_all (s : string) : substring 0 (String.length s) s = s.
Proof. induction s as [|c s IH]; [reflexivity|]. cbn. rewrite IH. reflexivity. Qed.

Lemma contains_app c (a b : string) :
  contains c (a ++ b) = contains c a || contains c b.
Proof.
  induction a as [|x a IH]; [reflexivity|].
  rewrite str_app_cons. cbn. rewrite IH, orb_assoc. reflexivity.
Qed.

Lemma all_dots_app (a b : string) : all_dots (a ++ b) = all_dots a && all_dots b.
Proof.
  induction a as [|x a IH]; [reflexivity|].
  rewrite str_app_cons. cbn. rewrite IH, andb_assoc. reflexivity.
Qed.

Lemma rfind_from_absent c p : forall i found,
  contains c p = false -> rfind_from c p i found = found.
Proof.
  induction p as [|a p IH]; intros i found Hc; [reflexivity|].
  cbn in *. apply orb_false_elim in Hc as [Ha Hp]. rewrite Ha. apply IH, Hp.
Qed.

Lemma rfind_from_last c (a b : string) : forall i found,
  contains c b = false ->
  rfind_from c (a ++ String c b) i found = i + Z.of_nat (String.length a).
Proof.
  induction a as [|x a IH]; intros i found Hb.
  - rewrite str_app_nil_l. cbn. rewrite Ascii.eqb_refl, rfind_from_absent by exact Hb. lia.
  - rewrite str_app_cons. cbn [rfind_from String.length]. rewrite IH by exact Hb. lia.
Qed.

(** The last occurrence of a character splits the string. *)
Lemma contains_last c p :
  contains c p = true ->
  exists a b, p = (a ++ String c b)%string /\ contains c b = false.
Proof.
  induction p as [|x p IH]; [discriminate|]. cbn. intros Hc.
  destruct (contains c p) eqn:Hp.
  - destruct (IH eq_refl) as (a & b & -> & Hb). exists (String x a), b. split; [reflexivity|exact Hb].
  - rewrite orb_false_r in Hc. apply Ascii.eqb_eq in Hc as ->.
    exists "", p. split; [reflexivity|exact Hp].
Qed.

Lemma rfind_absent c p : contains c p = false -> rfind c p = -1.
Proof. apply rfind_from_absent. Qed.

Lemma rfind_last c (a b : string) :
  contains c b = false -> rfind c (a ++ String c b) = Z.of_nat (String.length a).
Proof. intros Hb. unfold rfind. rewrite rfind_from_last by exact Hb. lia. Qed.

(** Every path is a directory part, empty or ending in the separator at
    the index [rfind] gives, followed by a name without separator. *)
Lemma last_component p :
  exists pre name,
    p = (pre ++ name)%string
    /\ contains "/" name = false
    /\ rfind "/" p = Z.of_nat (String.length pre) - 1.
Proof.
  destruct (contains "/" p) eqn:Hc.
  - apply contains_last in Hc as (a & b & -> & Hb).
    exists (a ++ "/")%string, b. split; [|split; [exact Hb|]].
    + rewrite str_app_assoc. reflexivity.
    + rewrite rfind_last by exact Hb. rewrite str_length_app. cbn. lia.
  - exists "", p. split; [reflexivity|]. split; [exact Hc|].
    rewrite rfind_absent by exact Hc. reflexivity.
Qed.

Lemma rfind_app_absent c (a b : string) :
  contains c b = false -> rfind c (a ++ b) = rfind c a.
Proof.
  intros Hb. destruct (contains c a) eqn:Ha.
  - apply contains_last in Ha as (x & y & -> & Hy).
    rewrite str_app_assoc, str_app_cons.
    rewrite !rfind_last; [reflexivity | exact Hy |].
    rewrite contains_app, Hy, Hb. reflexivity.
  - rewrite !rfind_absent; [reflexivity | exact Ha |].
    rewrite contains_app, Ha, Hb. reflexivity.
Qed.

Lemma rfind_bound c p : -1 <= rfind c p < Z.of_nat (String.length p).
Proof.
  destruct (contains c p) eqn:Hc.
  - apply contains_last in Hc as (a & b & -> & Hb).
    rewrite rfind_last by exact Hb. rewrite str_length_app. cbn. lia.
  - rewrite rfind_absent by exact Hc. lia.
Qed.

Lemma slice_char (pre : string) c rest :
  slice (pre ++ String c rest) (Z.of_nat (String.length pre))
        (Z.of_nat (String.length pre) + 1)
  = String c "".
Proof.
  unfold slice. rewrite Nat2Z.id.
  replace (Z.to_nat (Z.of_nat (String.length pre) + 1 - Z.of_nat (String.length pre)))
    with 1%nat by lia.
  rewrite <- (Nat.add_0_r (String.length pre)), substring_app_r.
  destruct rest; reflexivity.
Qed.

(** The loop over the leading dots finds a name exactly when the
    characters before the last dot are not all dots. *)
Lemma name_before_dot_spec (mid post : string) : forall pre : string,
  name_before_dot (pre ++ mid ++ post) (Z.of_nat (String.length pre))
                  (String.length mid)
  = negb (all_dots mid).
Proof.
  induction mid as [|c mid IH]; intros pre; [reflexivity|].
  rewrite str_app_cons.
  cbn [String.length name_before_dot all_dots].
  rewrite slice_char.
  destruct (Ascii.eqb c ".") eqn:Hc.
  - apply Ascii.eqb_eq in Hc as ->.
    rewrite bool_decide_eq_false_2 by (intros E; apply E; reflexivity).
    specialize (IH (pre ++ String "." "")%string).
    rewrite str_length_app in IH. cbn [String.length] in IH.
    rewrite str_app_assoc, str_app_cons, str_app_nil_l in IH.
    replace (Z.of_nat (String.length pre) + 1)
      with (Z.of_nat (String.length pre + 1)) by lia.
    rewrite IH. reflexivity.
  - rewrite bool_decide_eq_true_2; [reflexivity|].
    intros [= ->]. rewrite Ascii.eqb_refl in Hc. discriminate.
Qed.

(** [splitext] on a path whose name has no dot. *)
Lemma splitext_no_dot (pre name : string) :
  rfind "/" (pre ++ name) = Z.of_nat (String.length pre) - 1 ->
  contains "." name = false ->
  splitext (pre ++ name) = ((pre ++ name)%string, "").
Proof.
  intros Hsep Hdot. unfold splitext. rewrite Hsep.
  rewrite (rfind_app_absent "." pre name Hdot).
  pose proof (rfind_bound "." pre) as Hb.
  replace (_ <? _) with false by (symmetry; apply Z.ltb_ge; lia).
  reflexivity.
Qed.

(** [splitext] on a path whose name has a last dot. *)
Lemma splitext_last_dot (pre stem b : string) :
  rfind "/" (pre ++ stem ++ String "." b) = Z.of_nat (String.length pre) - 1 ->
  contains "." b = false ->
  splitext (pre ++ stem ++ String "." b)
  = if all_dots stem then ((pre ++ stem ++ String "." b)%string, "")
    else ((pre ++ stem)%string, String "." b).
Proof.
  intros Hsep Hb. unfold splitext. rewrite Hsep.
  assert (Hdot : rfind "." (pre ++ stem ++ String "." b)
                 = Z.of_nat (String.length pre + String.length stem)).
  { rewrite <- str_app_assoc, rfind_last by exact Hb.
    rewrite str_length_app. reflexivity. }
  rewrite Hdot.
  replace (_ <? _) with true by (symmetry; apply Z.ltb_lt; lia).
  replace (Z.of_nat (String.length pre) - 1 + 1)
    with (Z.of_nat (String.length pre)) by lia.
  replace (Z.to_nat (Z.of_nat (String.length pre + String.length stem)
                     - Z.of_nat (String.length pre)))
    with (String.length stem) by lia.
  rewrite name_before_dot_spec. cbn [andb].
  destruct (all_dots stem); cbn [negb]; [reflexivity|].
  unfold slice. f_equal.
  - rewrite Z.sub_0_r, Nat2Z.id. cbn [Z.to_nat].
    rewrite <- str_app_assoc, <- str_length_app. apply substring_app_l.
  - rewrite Nat2Z.id.
    rewrite <- (str_app_assoc pre stem), <- str_length_app.
    rewrite <- (Nat.add_0_r (String.length (pre ++ stem))), substring_app_r.
    rewrite str_length_app.
    replace (Z.to_nat _) with (String.length (String "." b)) by lia.
    apply substring_all.
Qed.

Lemma ascii_lower_keeps c x :
  x = "."%char \/ x = "/"%char ->
  Ascii.eqb (ascii_lower c) x = Ascii.eqb c x.
Proof.
  intros [-> | ->];
    destruct c as [[] [] [] [] [] [] [] []]; vm_compute; reflexivity.
Qed.

Lemma contains_lower x s :
  x = "."%char \/ x = "/"%char -> contains x (lower s) = contains x s.
Proof.
  intros Hx. induction s as [|c s IH]; [reflexivity|].
  cbn. rewrite IH, ascii_lower_keeps by exact Hx. reflexivity.
Qed.

(** An accepted extension is a dot followed by letters. *)
Lemma extension_shape ext :
  lower ext ∈ valid_extensions ->
  exists b, ext = String "." b /\ contains "." b = false /\ contains "/" b = false.
Proof.
  intros Hin.
  assert (Hshape : exists t, lower ext = String "." t
                             /\ contains "." t = false /\ contains "/" t = false).
  { unfold valid_extensions in Hin.
    repeat (apply elem_of_cons in Hin as [-> | Hin]);
      [eexists; split; [reflexivity|split; reflexivity] ..|].
    apply elem_of_nil in Hin. contradiction. }
  destruct Hshape as (t & Ht & Hdot & Hsep).
  destruct ext as [|c b]; [discriminate|]. cbn in Ht.
  injection Ht as Hc Hb. subst t.
  exists b. split; [|split].
  - f_equal. pose proof (ascii_lower_keeps c "." (or_introl eq_refl)) as E.
    rewrite Hc in E. cbn in E. symmetry in E. apply Ascii.eqb_eq in E. exact E.
  - rewrite <- (contains_lower "." b) by auto. exact Hdot.
  - rewrite <- (contains_lower "/" b) by auto. exact Hsep.
Qed.

Lemma lower_empty_rejected : lower "" ∉ valid_extensions.
Proof.
  intros Hin. unfold valid_extensions in Hin. cbn in Hin.
  repeat (apply elem_of_cons in Hin as [Hin | Hin]; [discriminate|]).
  apply elem_of_nil in Hin. contradiction.
Qed.

(** X16.  [validate_image_file] accepts a path exactly when it ends in
    one of the seven extensions, in any mix of upper and lower case, and
    the extension is preceded, within the last component of the path, by
    a character other than a dot.  So [photo.PNG] and [a.tar.gif] pass,
    while [.png], [dir/..jpg] and [photo.png/] do not. *)
Theorem validate_image_file_accepts_exactly file_path :
  validate_image_file file_path = true
  <-> exists head stem ext,
        file_path = (head ++ stem ++ ext)%string
        /\ lower ext ∈ valid_extensions
        /\ contains "/" stem = false
        /\ all_dots stem = false.
Proof.
  unfold validate_image_file. rewrite bool_decide_eq_true. split.
  - intros Hin.
    destruct (last_component file_path) as (pre & name & -> & Hname & Hsep).
    destruct (contains "." name) eqn:Hdot.
    + apply contains_last in Hdot as (stem & b & -> & Hb).
      rewrite (splitext_last_dot pre stem b Hsep Hb) in Hin.
      destruct (all_dots stem) eqn:Hstem; cbn [snd] in Hin.
      * exfalso. apply lower_empty_rejected, Hin.
      * exists pre, stem, (String "." b). split; [reflexivity|].
        split; [exact Hin|]. split; [|exact Hstem].
        rewrite contains_app in Hname. apply orb_false_elim in Hname. apply Hname.
    + rewrite (splitext_no_dot pre name Hsep Hdot) in Hin. cbn [snd] in Hin.
      exfalso. apply lower_empty_rejected, Hin.
  - intros (head & stem & ext & -> & Hin & Hslash & Hstem).
    destruct (extension_shape ext Hin) as (b & -> & Hb & Hbs).
    destruct (last_component head) as (pre & tail & -> & Htail & Hsep).
    assert (Hsep' : rfind "/" (pre ++ (tail ++ stem) ++ String "." b)
                    = Z.of_nat (String.length pre) - 1).
    { rewrite <- Hsep. rewrite <- (rfind_app_absent "/" (pre ++ tail)
                                     (stem ++ String "." b)).
      - rewrite !str_app_assoc. reflexivity.
      - rewrite contains_app, Hslash. cbn. exact Hbs. }
    rewrite !str_app_assoc. rewrite <- (str_app_assoc tail stem).
    rewrite (splitext_last_dot pre (tail ++ stem) b Hsep' Hb).
    rewrite all_dots_app, Hstem, andb_false_r. cbn [snd]. exact Hin.
Qed.

(** ** Directories *)

(** A text shorter than the limit is kept whole. *)
Lemma str_take_all s : forall n, (str_len s <= n)%N -> str_take n s = s.
Proof.
  induction s as [|a s IH]; intros n Hn; [reflexivity|].
  cbn [str_take str_len] in *. destruct (continuation a).
  - rewrite IH by exact Hn. reflexivity.
  - destruct (N.eqb_spec n 0) as [->|Hpos]; [lia|].
    rewrite IH by lia. reflexivity.
Qed.

Lemma dict_get_kept d k : dict_get (kept d) k = stored <$> dict_get d k.
Proof.
  unfold kept. induction d as [|[k' v] d IH]; [reflexivity|].
  cbn [map fst snd dict_get]. destruct (decide (k' = k)); [reflexivity | exact IH].
Qed.

Lemma row_of_kept cols d : row_of cols (kept d) = map stored (row_of cols d).
Proof.
  unfold row_of. rewrite map_map. apply map_ext. intros k.
  unfold dict_get_default. rewrite dict_get_kept.
  destruct (dict_get d k); reflexivity.
Qed.

Section DirectoryRuns.
Context `{Openpyxl} `{PyArith} `{Vision} `{FileSystem}.

Lemma keep_image_file_filter dir names : forall acc,
  fold_left (keep_image_file dir) names acc
  = acc ++ filter (fun p => isfile p && validate_image_file p = true)
                  (map (path_join dir) names).
Proof.
  induction names as [|f names IH]; intros acc; cbn [fold_left map].
  - rewrite filter_nil, app_nil_r. reflexivity.
  - rewrite IH. unfold keep_image_file. rewrite filter_cons.
    destruct (isfile (path_join dir f) && validate_image_file (path_join dir f)).
    + rewrite decide_True by reflexivity. rewrite <- app_assoc. reflexivity.
    + rewrite decide_False by discriminate. reflexivity.
Qed.

Lemma keep_walked_file_valid root files : forall acc,
  Forall (fun p => validate_image_file p = true) acc ->
  Forall (fun p => validate_image_file p = true)
         (fold_left (keep_walked_file root) files acc).
Proof.
  induction files as [|f files IH]; intros acc Hacc; [exact Hacc|].
  cbn [fold_left]. apply IH. unfold keep_walked_file.
  destruct (validate_image_file (path_join root f)) eqn:Hv; [|exact Hacc].
  apply Forall_app. split; [exact Hacc|]. constructor; [exact Hv|constructor].
Qed.

Lemma walked_files_valid (triples : list (string * list string * list string)) :
  forall acc,
  Forall (fun p => validate_image_file p = true) acc ->
  Forall (fun p => validate_image_file p = true)
         (fold_left (fun image_files '(root, _, files) =>
                       fold_left (keep_walked_file root) files image_files)
                    triples acc).
Proof.
  induction triples as [|[[root dirs] files] triples IH]; intros acc Hacc;
    [exact Hacc|].
  cbn [fold_left]. apply IH, keep_walked_file_valid, Hacc.
Qed.

Lemma keep_walked_file_none root files : forall acc,
  Forall (fun f => validate_image_file (path_join root f) = false) files ->
  fold_left (keep_walked_file root) files acc = acc.
Proof.
  induction files as [|f files IH]; intros acc Hf; [reflexivity|].
  cbn [fold_left]. apply Forall_cons in Hf as [Hv Hf].
  unfold keep_walked_file at 2. rewrite Hv. apply IH, Hf.
Qed.

(** The records of a batch carry the paths they were extracted from,
    and these are paths OpenCV could open. *)
Lemma extract_batch_paths paths : forall g,
  Forall (fun rec => exists p, p ∈ paths
                               /\ dict_get rec "image_path" = Some (VStr p)
                               /\ (str_len p < 32767)%N)
         (fst (extract_batch paths g)).
Proof.
  induction paths as [|path paths IH]; intros g; [constructor|].
  rewrite extract_batch_cons. cbn [fst]. apply Forall_app. split.
  - destruct (extract_all_features path g) as [[rec|e] g1] eqn:Hx; cbn [fst];
      [|constructor].
    constructor; [|constructor]. exists path. split; [left|].
    pose proof Hx as Hinv.
    apply extract_all_features_inv in Hinv
      as (image & _ & _ & _ & _ & _ & _ & _ & _ & _ & _ & Himg & _).
    apply extract_all_features_shape in Hx
      as (text & w & h & c & kb & ar & b & edges & v1 & v2 & v3 & _ & ->).
    split; [reflexivity|]. apply (imread_path path image Himg).
  - eapply Forall_impl; [apply IH|]. intros rec (p & Hp & Hrec).
    exists p. split; [right; exact Hp | exact Hrec].
Qed.

(** A batch without summary that returns has saved the table of its
    records. *)
Lemma batch_table paths out g s g' s' :
  process_multiple_images paths out false g s = (Ok (Returned, g'), s') ->
  exists ws,
    saved_sheet s' out 0 = Some ws
    /\ ws_rows ws
       = map VStr feature_columns
         :: map (fun d => map stored (row_of feature_columns d))
                (fst (extract_batch paths g))
    /\ fst (extract_batch paths g) <> [].
Proof.
  intros Hret.
  destruct (process_multiple_images_shape paths out false g s)
    as (s2 & refs & Hfl & Hm & _ & _ & _ & _ & Hrun).
  cbv zeta in Hfl, Hm, Hrun. rewrite Hrun in Hret. clear Hrun.
  destruct (decide (fst (extract_batch paths g) = [])) as [|Hsome];
    [discriminate|].
  assert (Hrefs : refs <> []).
  { intros E. apply Hsome, (mapM_nil_iff _ _ _ Hm), E. }
  cbn [export] in Hret.
  destruct (export_multiple_images (fresh (dom (st_heap s))) out s2)
    as [[[]|e] s3] eqn:Hex; cbn [fst snd] in Hret; [|discriminate].
  apply (export_multiple_images_returned s2 _ refs _ out s3 Hfl Hm Hrefs) in Hex
    as [_ ->].
  unfold table_book in Hret.
  rewrite (columns_of_extracted _ Hsome (extract_batch_extracted paths g)) in Hret.
  rewrite table_sheet in Hret by discriminate.
  injection Hret as _ <-.
  eexists. split.
  { unfold saved_sheet, exported. cbn [st_files].
    rewrite lookup_insert_eq. reflexivity. }
  split; [reflexivity | exact Hsome].
Qed.

(** The files [process_directory] collects all pass
    [validate_image_file]. *)
Lemma process_directory_batch dir out recursive with_summary g s r s' :
  process_directory dir out recursive with_summary g s = (Ok r, s') ->
  fst r = Returned ->
  exists image_files,
    Forall (fun p => validate_image_file p = true) image_files
    /\ process_multiple_images image_files out with_summary g s = (Ok r, s').
Proof.
  intros Hrun Hret. unfold process_directory in Hrun.
  destruct recursive.
  - unfold bind at 1 in Hrun. cbn [ret] in Hrun.
    match type of Hrun with
    | (if decide (?fs = []) then _ else _) _ = _ => set (image_files := fs) in *
    end.
    destruct (decide (image_files = [])).
    + injection Hrun as <- _. discriminate.
    + exists image_files. split; [|exact Hrun].
      apply walked_files_valid. constructor.
  - unfold bind at 1 2, lift in Hrun.
    destruct (listdir dir) as [names|e]; [|discriminate].
    cbn [ret] in Hrun. rewrite keep_image_file_filter in Hrun. cbn [app] in Hrun.
    match type of Hrun with
    | (if decide (?fs = []) then _ else _) _ = _ => set (image_files := fs) in *
    end.
    destruct (decide (image_files = [])).
    + injection Hrun as <- _. discriminate.
    + exists image_files. split; [|exact Hrun].
      apply Forall_forall. intros p Hp.
      apply list_elem_of_filter in Hp as [Hp _].
      apply andb_prop in Hp. apply Hp.
Qed.

(** X17.  When no entry of the directory is a file with an image
    extension (in recursive mode: when no file below it has one),
    [process_directory] prints [No image files found in <directory>] and
    leaves through [sys.exit(1)] without creating an exporter, reading
    an image or writing a file. *)
Theorem directory_without_images_exits dir out (recursive : bool) with_summary g s :
  (if recursive
   then Forall (fun triple : string * list string * list string =>
                  let '(root, _, files) := triple in
                  Forall (fun f => validate_image_file (path_join root f) = false)
                         files)
               (walk dir)
   else exists names,
          listdir dir = Ok names
          /\ Forall (fun f => isfile (path_join dir f)
                              && validate_image_file (path_join dir f) = false)
                    names) ->
  process_directory dir out recursive with_summary g s
  = (Ok (SystemExit 1, g),
     State (st_heap s) (st_self s) (st_files s)
           (st_stdout s ++ [("No image files found in " ++ dir)%string])
           (st_fresh s)).
Proof.
  unfold process_directory. destruct recursive.
  - intros Hnone. unfold bind at 1. cbn [ret].
    assert (E : fold_left (fun image_files '(root, _, files) =>
                             fold_left (keep_walked_file root) files image_files)
                          (walk dir) [] = []).
    { generalize (@nil string).
      induction Hnone as [|[[root dirs] files] triples Hfiles _ IH]; intros acc;
        [reflexivity|].
      cbn [fold_left]. rewrite keep_walked_file_none by exact Hfiles. apply IH. }
    rewrite E. reflexivity.
  - intros (names & Hls & Hnone). unfold bind at 1 2, lift. rewrite Hls.
    cbn [ret]. rewrite keep_image_file_filter. cbn [app].
    assert (E : filter (fun p => isfile p && validate_image_file p = true)
                       (map (path_join dir) names) = []).
    { clear Hls. induction Hnone as [|f names Hf _ IH]; [reflexivity|].
      cbn [map]. rewrite filter_cons, decide_False; [exact IH|].
      rewrite Hf. discriminate. }
    rewrite E. reflexivity.
Qed.

(** X18.  When [process_directory] without summary returns, the saved
    table has one row per extracted record and every record in it was
    extracted from a path that passes [validate_image_file]: a file with
    another extension never reaches the table. *)
Theorem directory_table_lists_image_files dir out recursive g s g' s' :
  process_directory dir out recursive false g s = (Ok (Returned, g'), s') ->
  exists ws recs,
    saved_sheet s' out 0 = Some ws
    /\ ws_rows ws
       = map VStr feature_columns :: map (row_of feature_columns) recs
    /\ recs <> []
    /\ Forall (fun rec => exists p,
                 dict_get rec "image_path" = Some (VStr p)
                 /\ validate_image_file p = true) recs.
Proof.
  intros Hrun.
  destruct (process_directory_batch _ _ _ _ _ _ _ _ Hrun eq_refl)
    as (image_files & Hvalid & Hbatch).
  destruct (batch_table _ _ _ _ _ _ Hbatch) as (ws & Hws & Hrows & Hsome).
  exists ws, (map kept (fst (extract_batch image_files g))).
  split; [exact Hws|].
  split.
  { rewrite Hrows, map_map. f_equal. apply map_ext. intros d.
    symmetry. apply row_of_kept. }
  split.
  { intros E. apply Hsome. destruct (fst (extract_batch image_files g));
      [reflexivity | discriminate E]. }
  apply Forall_fmap.
  eapply Forall_impl; [apply extract_batch_paths|].
  intros rec (p & Hp & Hrec & Hshort). exists p. cbn beta.
  split.
  - rewrite dict_get_kept, Hrec. cbn [fmap option_fmap option_map stored].
    rewrite str_take_all by lia. reflexivity.
  - rewrite Forall_forall in Hvalid. apply Hvalid, Hp.
Qed.

End DirectoryRuns.

Example validate_image_file_cases :
  map validate_image_file
      ["photo.PNG"; "a.tar.gif"; "shots/raw.gif/strip.png"; ".png";
       "dir/..jpg"; "photo.png/"; "notes.txt"; "photo.jpgx"]
  = [true; true; true; false; false; false; false; false].
Proof. vm_compute. reflexivity. Qed.

Lemma directory_without_images_exits_witness :
  (exists names,
     @listdir shots_files "empty" = Ok names
     /\ Forall (fun f => @isfile shots_files (path_join "empty" f)
                         && validate_image_file (path_join "empty" f) = false)
               names)
  /\ @process_directory desk binary64_arith shots_vision shots_files
       "empty" "out.xlsx" false true 0 Office.start
     = (Ok (SystemExit 1, 0),
        State (st_heap Office.start) (st_self Office.start)
              (st_files Office.start)
              (st_stdout Office.start ++ ["No image files found in empty"])
              (st_fresh Office.start)).
Proof.
  assert (Hnone : exists names,
             @listdir shots_files "empty" = Ok names
             /\ Forall (fun f => @isfile shots_files (path_join "empty" f)
                                 && validate_image_file (path_join "empty" f)
                                 = false) names).
  { exists ["notes.txt"; ".png"]. split; [reflexivity|].
    repeat constructor. }
  split; [exact Hnone|].
  apply (@directory_without_images_exits desk binary64_arith shots_vision
           shots_files
           "empty" "out.xlsx" false true 0 Office.start).
  exact Hnone.
Defined.

Lemma directory_table_lists_image_files_witness :
  @process_directory desk binary64_arith shots_vision shots_files
    "shots" "out.xlsx" false false 0 Office.start
  = (Ok (Returned, 2),
     snd (@process_directory desk binary64_arith shots_vision shots_files
            "shots" "out.xlsx" false false 0 Office.start))
  /\ exists ws recs,
       saved_sheet
         (snd (@process_directory desk binary64_arith shots_vision shots_files
                 "shots" "out.xlsx" false false 0 Office.start))
         "out.xlsx" 0 = Some ws
       /\ ws_rows ws
          = map VStr feature_columns :: map (row_of feature_columns) recs
       /\ recs <> []
       /\ Forall (fun rec => exists p,
                    dict_get rec "image_path" = Some (VStr p)
                    /\ validate_image_file p = true) recs.
Proof.
  split; [vm_compute; reflexivity|].
  apply (@directory_table_lists_image_files desk binary64_arith shots_vision
           shots_files "shots" "out.xlsx" false 0 Office.start 2
           (snd (@process_directory desk binary64_arith shots_vision shots_files
                   "shots" "out.xlsx" false false 0 Office.start))).
  vm_compute. reflexivity.
Defined.
